(** * portablemc_forge: the forge add-on of the portablemc launcher

    A shallow embedding of [src/forge/portablemc_forge/__init__.py] and the
    properties of its version resolver, installer lookup, install-profile
    parser, library filter and processor pipeline.

    Python values keep their shape: [str] is [string], a JSON document read
    by [json.load] is [json], a [dict] keyed by strings whose order is never
    observed is a [gmap string _], and a raised exception is the [Raise]
    branch of [result]. *)

From Stdlib Require Import String Ascii ZArith List Bool Lia.
From stdpp Require Import base option gmap strings list.

Local Open Scope string_scope.
Local Open Scope list_scope.

(** ** JSON documents *)

(** What [json.load] returns.  An object keeps its members as an
    association list in document order; the first pair with a key is the
    one a lookup sees.  Numbers are the integers (sizes); the module never
    computes with a fractional number. *)
#[warnings="-register-all"]
Inductive json :=
| JNull
| JBool (b : bool)
| JInt (z : Z)
| JStr (s : string)
| JArr (items : list json)
| JObj (members : list (string * json)).

(** ** Exceptions *)

(** The string constants of [class ForgeError]. *)
Inductive ForgeErrorCode :=
| NOT_INSTALLED
| MINECRAFT_VERSION_NOT_FOUND
| MINECRAFT_VERSION_NOT_SUPPORTED
| INSTALLER_NOT_FOUND
| INSTALL_PROFILE_NOT_FOUND
| VERSION_META_NOT_FOUND
| REQUIRES_JVM.

Definition ForgeErrorCode_str (c : ForgeErrorCode) : string :=
  match c with
  | NOT_INSTALLED => "not_installed"
  | MINECRAFT_VERSION_NOT_FOUND => "minecraft_version_not_found"
  | MINECRAFT_VERSION_NOT_SUPPORTED => "minecraft_version_not_supported"
  | INSTALLER_NOT_FOUND => "installer_not_found"
  | INSTALL_PROFILE_NOT_FOUND => "install_profile_not_found"
  | VERSION_META_NOT_FOUND => "version_meta_not_found"
  | REQUIRES_JVM => "requires_jvm"
  end.

(** What a call can raise: [ForgeError(code, version)], the built-in
    exceptions the module's own expressions raise, and [Foreign] for
    whatever a function defined outside of the module raises. *)
Inductive exn :=
| ForgeError (code : ForgeErrorCode) (version : string)
| KeyError (key : json)
| IndexError
| TypeError
| AttributeError
| Foreign (what : string).

Inductive result (A : Type) :=
| Ok (a : A)
| Raise (e : exn).
Arguments Ok {A} a.
Arguments Raise {A} e.

(** The outcome of a function defined outside of the module (launcher
    core, Python library): it returns, or it throws an exception of its
    own, which is never a [ForgeError]. *)
Inductive foreign (A : Type) :=
| Returns (a : A)
| Throws (what : string).
Arguments Returns {A} a.
Arguments Throws {A} what.

Definition call {A} (r : foreign A) : result A :=
  match r with
  | Returns a => Ok a
  | Throws what => Raise (Foreign what)
  end.

(** ** Strings, as Python slices them *)

Module Str.

(** [s.startswith(p)] *)
Fixpoint startswith (s p : string) {struct p} : bool :=
  match p with
  | EmptyString => true
  | String a p' =>
      match s with
      | EmptyString => false
      | String b s' => Ascii.eqb a b && startswith s' p'
      end
  end.

(** [s[n:]] *)
Fixpoint drop (n : nat) (s : string) : string :=
  match n, s with
  | O, _ => s
  | S _, EmptyString => EmptyString
  | S n', String _ s' => drop n' s'
  end.

(** [s[:n]] for [n >= 0] *)
Fixpoint take (n : nat) (s : string) : string :=
  match n, s with
  | O, _ => EmptyString
  | S _, EmptyString => EmptyString
  | S n', String c s' => String c (take n' s')
  end.

(** [s[:-k]] for [k > 0]: everything but the last [k] characters, the
    empty string when there are fewer than [k]. *)
Definition drop_last (k : nat) (s : string) : string :=
  take (String.length s - k) s.

(** [s.endswith(p)] *)
Definition endswith (s p : string) : bool :=
  (String.length p <=? String.length s)%nat
  && String.eqb (drop (String.length s - String.length p) s) p.

(** [needle in hay] on two strings: [needle] occurs somewhere in [hay]. *)
Fixpoint contains (needle hay : string) : bool :=
  startswith hay needle
  || match hay with
     | EmptyString => false
     | String _ hay' => contains needle hay'
     end.

(** [s.split(c, 1)[0]] for a one-character separator: the part of [s]
    before the first [c], all of [s] when there is none. *)
Fixpoint before_first (c : ascii) (s : string) : string :=
  match s with
  | EmptyString => EmptyString
  | String a s' => if Ascii.eqb a c then EmptyString else String a (before_first c s')
  end.

(** [s.lstrip(c)] for a one-character set. *)
Fixpoint lstrip (c : ascii) (s : string) : string :=
  match s with
  | String a s' => if Ascii.eqb a c then lstrip c s' else s
  | EmptyString => EmptyString
  end.

(** [s[0]]: the first character, [IndexError] on the empty string. *)
Definition first (s : string) : result ascii :=
  match s with
  | EmptyString => Raise IndexError
  | String a _ => Ok a
  end.

(** [s[-1]]: the last character, [IndexError] on the empty string. *)
Fixpoint last (s : string) : result ascii :=
  match s with
  | EmptyString => Raise IndexError
  | String a EmptyString => Ok a
  | String _ s' => last s'
  end.

(** [s[1:-1]] *)
Definition inner (s : string) : string := drop_last 1 (drop 1 s).

End Str.

(** ** The version resolver: the [new_version] mixin *)

(** What [new_version] takes from outside: the version manifest of the
    launcher core and the answer of the promotion feed.
    [request_promo_versions] is the [promos] object of
    [promotions_slim.json] at its annotated type [Dict[str, str]], or the
    exception the request raised. *)
Class Resolver := {
  filter_latest : string -> string * bool;
  request_promo_versions : foreign (gmap string string);
  forge_prefix : string
}.

(** The arguments [ForgeVersion.__init__] receives: it names the version
    [f"{prefix}-{forge_version}"]. *)
Record NewForgeVersion := {
  nv_forge_version : string;
  nv_prefix : string
}.

Definition nv_id (v : NewForgeVersion) : string :=
  nv_prefix v +:+ "-" +:+ nv_forge_version v.

(** The condition of line 58: the promotion feed has to be asked. *)
Definition needs_promo (game_version : string) (game_version_alias : bool) : bool :=
  game_version_alias
  || (Str.endswith game_version "-recommended" || Str.endswith game_version "-latest")
  || negb (Str.contains "-" game_version).

(** Lines 63-66: one promotion suffix is cut from the game version. *)
Definition strip_promo_suffix (game_version : string) : string :=
  if Str.endswith game_version "-recommended" then Str.drop_last 12 game_version
  else if Str.endswith game_version "-latest" then Str.drop_last 7 game_version
  else game_version.

(** The [for suffix in ("", "-recommended", "-latest")] loop: the first
    key with an entry decides, [None] when the loop ends without [break]. *)
Fixpoint promo_loop (promo_versions : gmap string string) (game_version : string)
    (suffixes : list string) : option string :=
  match suffixes with
  | [] => None
  | suffix :: rest =>
      match promo_versions !! (game_version +:+ suffix) with
      | Some tmp_forge_version =>
          Some (strip_promo_suffix game_version +:+ "-" +:+ tmp_forge_version)
      | None => promo_loop promo_versions game_version rest
      end
  end.

Definition promo_suffixes : list string := [""; "-recommended"; "-latest"].

(** Lines 46-48: an empty remainder asks for the release. *)
Definition requested_game_version (rest : string) : string :=
  if (String.length rest =? 0)%nat then "release" else rest.

Section NewVersion.
Context `{Resolver}.

(** [new_version] on an identifier that starts with ["forge:"];
    [rest] is [version_id[6:]]. *)
Definition new_forge_version (rest : string) : result NewForgeVersion :=
  let '(game_version, game_version_alias) := filter_latest (requested_game_version rest) in
  let lookup :=
    if needs_promo game_version game_version_alias then
      match call request_promo_versions with
      | Ok promo_versions => Ok (promo_loop promo_versions game_version promo_suffixes)
      | Raise e => Raise e
      end
    else Ok None in
  match lookup with
  | Raise e => Raise e
  | Ok (Some forge_version) =>
      Ok {| nv_forge_version := forge_version; nv_prefix := forge_prefix |}
  | Ok None =>
      if game_version_alias
      then Raise (ForgeError MINECRAFT_VERSION_NOT_SUPPORTED game_version)
      else Ok {| nv_forge_version := game_version; nv_prefix := forge_prefix |}
  end.

(** The whole mixin: identifiers without the prefix go to [old], the
    launcher's own [new_version]. *)
Definition new_version {V : Type} (old : string -> foreign V) (version_id : string)
    : result (NewForgeVersion + V) :=
  if Str.startswith version_id "forge:" then
    match new_forge_version (Str.drop 6 version_id) with
    | Ok v => Ok (inl v)
    | Raise e => Raise e
    end
  else
    match call (old version_id) with
    | Ok v => Ok (inr v)
    | Raise e => Raise e
    end.

End NewVersion.

(** ** The Python operations the module applies to JSON documents *)


Module Py.

(** Lookup in the members of a [dict]. *)
Fixpoint assoc (k : string) (members : list (string * json)) : option json :=
  match members with
  | [] => None
  | (k', v) :: rest => if String.eqb k' k then Some v else assoc k rest
  end.

(** The members left once key [k] is gone. *)
Fixpoint remove (k : string) (members : list (string * json)) : list (string * json) :=
  match members with
  | [] => []
  | (k', v) :: rest =>
      if String.eqb k' k then remove k rest else (k', v) :: remove k rest
  end.

(** The members after [d[k] = v]: the value is replaced where the key
    stands, a new key goes to the end. *)
Fixpoint store (k : string) (v : json) (members : list (string * json))
    : list (string * json) :=
  match members with
  | [] => [(k, v)]
  | (k', v') :: rest =>
      if String.eqb k' k then (k, v) :: remove k rest else (k', v') :: store k v rest
  end.

(** [d[k]] *)
Definition getitem (d : json) (k : string) : result json :=
  match d with
  | JObj members =>
      match assoc k members with
      | Some v => Ok v
      | None => Raise (KeyError (JStr k))
      end
  | _ => Raise TypeError
  end.

(** [d[k] = v] *)
Definition setitem (d : json) (k : string) (v : json) : result json :=
  match d with
  | JObj members => Ok (JObj (store k v members))
  | _ => Raise TypeError
  end.

(** [del d[k]] *)
Definition delitem (d : json) (k : string) : result json :=
  match d with
  | JObj members =>
      match assoc k members with
      | Some _ => Ok (JObj (remove k members))
      | None => Raise (KeyError (JStr k))
      end
  | _ => Raise TypeError
  end.

(** [d.get(k)]: only a [dict] has the method; [None] is [JNull]. *)
Definition get (d : json) (k : string) : result json :=
  match d with
  | JObj members => Ok (default JNull (assoc k members))
  | _ => Raise AttributeError
  end.

(** [d.get(k, [])] *)
Definition get_or_empty (d : json) (k : string) : result json :=
  match d with
  | JObj members => Ok (default (JArr []) (assoc k members))
  | _ => Raise AttributeError
  end.

Definition is_str (s : string) (v : json) : bool :=
  match v with
  | JStr s' => String.eqb s' s
  | _ => false
  end.

(** [k in v] for a string [k]: a key of a [dict], an element of a
    [list], a substring of a [str]; the other values are not containers. *)
Definition contains (k : string) (v : json) : result bool :=
  match v with
  | JObj members => Ok (bool_decide (is_Some (assoc k members)))
  | JArr items => Ok (existsb (is_str k) items)
  | JStr s => Ok (Str.contains k s)
  | _ => Raise TypeError
  end.

(** [len(v)] *)
Definition len (v : json) : result nat :=
  match v with
  | JStr s => Ok (String.length s)
  | JArr items => Ok (length items)
  | JObj members => Ok (length members)
  | _ => Raise TypeError
  end.

Fixpoint chars (s : string) : list json :=
  match s with
  | EmptyString => []
  | String a s' => JStr (String a EmptyString) :: chars s'
  end.

(** What [for x in v] goes through: the elements of a [list], the keys
    of a [dict], the characters of a [str]. *)
Definition iter (v : json) : result (list json) :=
  match v with
  | JArr items => Ok items
  | JObj members => Ok (map (fun kv => JStr (fst kv)) members)
  | JStr s => Ok (chars s)
  | _ => Raise TypeError
  end.

(** The truth value of [v] in an [if]. *)
Definition truthy (v : json) : bool :=
  match v with
  | JNull => false
  | JBool b => b
  | JInt z => negb (z =? 0)%Z
  | JStr s => negb (String.length s =? 0)%nat
  | JArr items => negb (length items =? 0)%nat
  | JObj members => negb (length members =? 0)%nat
  end.

End Py.

(** ** The launcher core and the outside world *)

(** An opened installer archive: entry name to entry bytes. *)
Abbreviation ZipFile := (gmap string string).

(** How a copy to a file ended: the file has the whole content, or the
    copy broke with an exception and left a part of it in the file
    ([None] when the file could not even be opened, and is as it was). *)
Inductive copied :=
| Complete
| Broken (left : option string) (what : string).

(** The names the module imports from [portablemc] and from the Python
    library, with the answers of the forge maven server.  None of them is
    defined in this file of the repository, so each one is an operation of
    the interface:
    - [DownloadEntry.from_meta(info, dst)] and the [size] attribute of the
      entry it builds;
    - [self.dl.append(entry)] of the launcher's download list, which takes
      the entry or refuses it with an exception (it checks the URL of the
      entry) and then leaves the list as it was;
    - [LibrarySpecifier.from_str(name)] and [spec.file_path()];
    - [replace_vars(txt, replacements)], on whatever value it is given;
    - [os.path.join] on two components, [os.path.dirname] and
      [os.path.pathsep];
    - [json.load] on the bytes of an archive entry;
    - [ZipFile(BytesIO(raw))];
    - [http_request(url, "GET", ...)], giving the status and the body;
    - [os.makedirs(d, exist_ok=True)] on a disk (its regular files and its
      directories): the directories afterwards, and how the call ended;
    - [open(dst, "wb")] followed by [shutil.copyfileobj(src, dst)] on a
      disk: how the copy ended;
    - [subprocess.run(all_args)] on a disk: the disk the process leaves,
      and how the call ended. *)
Class Core := {
  DownloadEntry : Type;
  DownloadEntry_from_meta : json -> string -> foreign DownloadEntry;
  DownloadEntry_size : DownloadEntry -> option Z;
  DownloadList_append : DownloadEntry -> foreign unit;
  LibrarySpecifier : Type;
  LibrarySpecifier_from_str : string -> foreign LibrarySpecifier;
  file_path : LibrarySpecifier -> string;
  replace_vars : json -> gmap string json -> foreign string;
  path_join : string -> string -> string;
  path_dirname : string -> string;
  pathsep : string;
  json_load : string -> foreign json;
  ZipFile_new : string -> foreign ZipFile;
  http_request : string -> Z * string;
  os_makedirs : string -> gmap string string -> gset string -> gset string * foreign unit;
  copyfileobj : string -> string -> gmap string string -> gset string -> copied;
  run_process :
    list string -> gmap string string -> gset string
    -> gmap string string * gset string * foreign unit
}.

(** An attribute of an object that may never have been assigned: reading
    it then raises [AttributeError]. *)
Inductive attr (A : Type) :=
| Absent
| Present (value : A).
Arguments Absent {A}.
Arguments Present {A} value.

Definition getattr {A} (a : attr A) : result A :=
  match a with
  | Present value => Ok value
  | Absent => Raise AttributeError
  end.

Section Objects.
Context `{Core}.

(** The attributes of a [ForgeVersion] the module reads or writes.  The
    first group is inherited from [Version] ([self.context.libraries_dir]
    is kept as [libraries_dir], and [dl] holds the entries the download
    list has taken, oldest first).  [install_lib_paths],
    [install_processors] and [install_data] are read by [prepare_post]
    and assigned nowhere in the module: an object has them only when
    somebody else gave them to it.  The last group is what
    [ForgeVersion.__init__] adds. *)
Record ForgeVersion := {
  id : string;
  libraries_dir : string;
  version_meta : json;
  dl : list DownloadEntry;
  jvm_exec : option string;
  install_lib_paths : attr (option (gmap string string));
  install_processors : attr json;
  install_data : attr (gmap string json);
  forge_version : string;
  forge_install_libraries : option (gmap string string);
  forge_install_processors : option json;
  forge_install_data : option (gmap string json);
  forge_install_version_libraries : option json
}.

(** Lines 100-110.  [Version.__init__(context, id)] is launcher code: what
    it gives the inherited attributes is given here.  The constructor
    assigns the forge version and the four [forge_install_*] attributes
    and nothing else. *)
Definition __init__ (context_libraries_dir : string) (inherited_version_meta : json)
    (inherited_dl : list DownloadEntry) (inherited_jvm_exec : option string)
    (forge_version prefix : string) : ForgeVersion :=
  {| id := prefix +:+ "-" +:+ forge_version;
     libraries_dir := context_libraries_dir;
     version_meta := inherited_version_meta;
     dl := inherited_dl;
     jvm_exec := inherited_jvm_exec;
     install_lib_paths := Absent;
     install_processors := Absent;
     install_data := Absent;
     forge_version := forge_version;
     forge_install_libraries := None;
     forge_install_processors := None;
     forge_install_data := None;
     forge_install_version_libraries := None |}.

(** The object together with what its methods change outside of it: the
    regular files on disk (path to content), the directories on disk, and
    the command lines handed to [subprocess.run], oldest first. *)
Record World := {
  self : ForgeVersion;
  files : gmap string string;
  dirs : gset string;
  calls : list (list string)
}.

Definition set_version_meta (v : json) (o : ForgeVersion) : ForgeVersion :=
  {| id := id o; libraries_dir := libraries_dir o; version_meta := v; dl := dl o;
     jvm_exec := jvm_exec o; install_lib_paths := install_lib_paths o;
     install_processors := install_processors o; install_data := install_data o;
     forge_version := forge_version o;
     forge_install_libraries := forge_install_libraries o;
     forge_install_processors := forge_install_processors o;
     forge_install_data := forge_install_data o;
     forge_install_version_libraries := forge_install_version_libraries o |}.

Definition set_dl (v : list DownloadEntry) (o : ForgeVersion) : ForgeVersion :=
  {| id := id o; libraries_dir := libraries_dir o; version_meta := version_meta o; dl := v;
     jvm_exec := jvm_exec o; install_lib_paths := install_lib_paths o;
     install_processors := install_processors o; install_data := install_data o;
     forge_version := forge_version o;
     forge_install_libraries := forge_install_libraries o;
     forge_install_processors := forge_install_processors o;
     forge_install_data := forge_install_data o;
     forge_install_version_libraries := forge_install_version_libraries o |}.

Definition set_forge_install_libraries (v : option (gmap string string))
    (o : ForgeVersion) : ForgeVersion :=
  {| id := id o; libraries_dir := libraries_dir o; version_meta := version_meta o; dl := dl o;
     jvm_exec := jvm_exec o; install_lib_paths := install_lib_paths o;
     install_processors := install_processors o; install_data := install_data o;
     forge_version := forge_version o;
     forge_install_libraries := v;
     forge_install_processors := forge_install_processors o;
     forge_install_data := forge_install_data o;
     forge_install_version_libraries := forge_install_version_libraries o |}.

Definition set_forge_install_processors (v : option json)
    (o : ForgeVersion) : ForgeVersion :=
  {| id := id o; libraries_dir := libraries_dir o; version_meta := version_meta o; dl := dl o;
     jvm_exec := jvm_exec o; install_lib_paths := install_lib_paths o;
     install_processors := install_processors o; install_data := install_data o;
     forge_version := forge_version o;
     forge_install_libraries := forge_install_libraries o;
     forge_install_processors := v;
     forge_install_data := forge_install_data o;
     forge_install_version_libraries := forge_install_version_libraries o |}.

Definition set_forge_install_data (v : option (gmap string json))
    (o : ForgeVersion) : ForgeVersion :=
  {| id := id o; libraries_dir := libraries_dir o; version_meta := version_meta o; dl := dl o;
     jvm_exec := jvm_exec o; install_lib_paths := install_lib_paths o;
     install_processors := install_processors o; install_data := install_data o;
     forge_version := forge_version o;
     forge_install_libraries := forge_install_libraries o;
     forge_install_processors := forge_install_processors o;
     forge_install_data := v;
     forge_install_version_libraries := forge_install_version_libraries o |}.

Definition set_forge_install_version_libraries (v : option json)
    (o : ForgeVersion) : ForgeVersion :=
  {| id := id o; libraries_dir := libraries_dir o; version_meta := version_meta o; dl := dl o;
     jvm_exec := jvm_exec o; install_lib_paths := install_lib_paths o;
     install_processors := install_processors o; install_data := install_data o;
     forge_version := forge_version o;
     forge_install_libraries := forge_install_libraries o;
     forge_install_processors := forge_install_processors o;
     forge_install_data := forge_install_data o;
     forge_install_version_libraries := v |}.

(** ** Methods as state transformers that may raise *)

(** A method body: it starts in a world and ends in a world with a value
    or an exception; what it did before raising stays done. *)
Definition M (A : Type) : Type := World -> World * result A.

Definition ret {A} (a : A) : M A := fun w => (w, Ok a).
Definition raise {A} (e : exn) : M A := fun w => (w, Raise e).
Definition lift {A} (r : result A) : M A := fun w => (w, r).
Definition bind {A B} (m : M A) (k : A -> M B) : M B :=
  fun w =>
    match m w with
    | (w', Ok a) => k a w'
    | (w', Raise e) => (w', Raise e)
    end.

Definition get_self : M ForgeVersion := fun w => (w, Ok (self w)).
Definition get_files : M (gmap string string) := fun w => (w, Ok (files w)).
(** The world after an assignment to attributes of [self], with a file
    holding a content, with other directories, after a process was run. *)
Definition with_self (f : ForgeVersion -> ForgeVersion) (w : World) : World :=
  {| self := f (self w); files := files w; dirs := dirs w; calls := calls w |}.
Definition with_file (dst content : string) (w : World) : World :=
  {| self := self w; files := <[dst := content]> (files w); dirs := dirs w;
     calls := calls w |}.
Definition with_dirs (ds : gset string) (w : World) : World :=
  {| self := self w; files := files w; dirs := ds; calls := calls w |}.
Definition with_call (all_args : list string) (w : World) : World :=
  {| self := self w;
     files := fst (fst (run_process all_args (files w) (dirs w)));
     dirs := snd (fst (run_process all_args (files w) (dirs w)));
     calls := calls w ++ [all_args] |}.

Definition update_self (f : ForgeVersion -> ForgeVersion) : M unit :=
  fun w => (with_self f w, Ok tt).

(** [os.makedirs(d, exist_ok=True)] *)
Definition makedirs (d : string) : M unit :=
  fun w => (with_dirs (fst (os_makedirs d (files w) (dirs w))) w,
            call (snd (os_makedirs d (files w) (dirs w)))).

(** [with open(dst, "wb") as f: shutil.copyfileobj(src, f)] for a source
    that holds [content]: the file has the content when the copy is
    complete; when it breaks, the file has what the copy left of it, or
    is as it was when it could not even be opened. *)
Definition write_file (dst content : string) : M unit :=
  fun w =>
    match copyfileobj dst content (files w) (dirs w) with
    | Complete => (with_file dst content w, Ok tt)
    | Broken (Some part) what => (with_file dst part w, Raise (Foreign what))
    | Broken None what => (w, Raise (Foreign what))
    end.

(** [subprocess.run(all_args)]: the command is handed over, the process
    does to the disk what it does, and the call returns or raises. *)
Definition subprocess_run (all_args : list string) : M unit :=
  fun w => (with_call all_args w, call (snd (run_process all_args (files w) (dirs w)))).

End Objects.

Notation "x <- m ;; k" := (bind m (fun x => k))
  (at level 65, m at next level, right associativity).
Notation "m ;;; k" := (bind m (fun _ => k))
  (at level 65, right associativity).

Section Loops.
Context `{Core}.

(** [for x in xs: body(x)]: an exception ends the loop. *)
Fixpoint for_each {A} (body : A -> M unit) (xs : list A) : M unit :=
  match xs with
  | [] => ret tt
  | x :: rest => body x ;;; for_each body rest
  end.

(** [[f(x) for x in xs]] for an [f] with effects. *)
Fixpoint collect {A B} (f : A -> M B) (xs : list A) : M (list B) :=
  match xs with
  | [] => ret []
  | x :: rest => y <- f x ;; ys <- collect f rest ;; ret (y :: ys)
  end.

End Loops.

(** ** The forge API: [request_install_jar] and [zip_extract_file] *)

Section ForgeApi.
Context `{Core}.

Definition install_jar_url (version : string) : string :=
  "https://maven.minecraftforge.net/net/minecraftforge/forge/" +:+ version
    +:+ "/forge-" +:+ version +:+ "-installer.jar".

(** [request_install_jar]: the archive when the status is 200, [None]
    for every other status. *)
Definition request_install_jar (version : string) : result (option ZipFile) :=
  let '(status, raw) := http_request (install_jar_url version) in
  if (status =? 200)%Z then
    match call (ZipFile_new raw) with
    | Ok zf => Ok (Some zf)
    | Raise e => Raise e
    end
  else Ok None.

(** [zf.getinfo(name)] followed by reading the entry. *)
Definition getinfo (zf : ZipFile) (name : string) : result string :=
  match zf !! name with
  | Some content => Ok content
  | None => Raise (KeyError (JStr name))
  end.

(** [zf.open(entry_path)] for whatever value the profile gave as the
    entry name: only a string can name an entry, a list or an object
    cannot even be looked up. *)
Definition zip_open (zf : ZipFile) (entry_path : json) : result string :=
  match entry_path with
  | JStr name => getinfo zf name
  | JArr _ | JObj _ => Raise TypeError
  | other => Raise (KeyError other)
  end.

(** [zip_extract_file]: the directory of the destination is made first;
    then the entry is opened, before the destination is, so a missing
    entry leaves the directories made and no file changed. *)
Definition zip_extract_file (zf : ZipFile) (entry_path : json) (dst_path : string)
    : M unit :=
  makedirs (path_dirname dst_path) ;;;
  src <- lift (zip_open zf entry_path) ;;
  write_file dst_path src.

End ForgeApi.

(** ** [ForgeVersion._fetch_version_meta] *)

(** The odd suffixes of the installers of some older game versions. *)
Definition legacy_suffix_table : list (string * list string) :=
  [ ("1.11",   ["-1.11.x"]);
    ("1.10.2", ["-1.10.0"]);
    ("1.10",   ["-1.10.0"]);
    ("1.9.4",  ["-1.9.4"]);
    ("1.9",    ["-1.9.0"; "-1.9"]);
    ("1.8.9",  ["-1.8.9"]);
    ("1.8.8",  ["-1.8.8"]);
    ("1.8",    ["-1.8"]);
    ("1.7.10", ["-1.7.10"; "-1710ls"; "-new"]);
    ("1.7.2",  ["-mc172"]) ].

(** [table.get(game_version, [])] *)
Fixpoint table_get (table : list (string * list string)) (game_version : string)
    : list string :=
  match table with
  | [] => []
  | (k, v) :: rest => if String.eqb k game_version then v else table_get rest game_version
  end.

(** Lines 126-142: the suffixes to try, the empty one first. *)
Definition suffixes_of (forge_version : string) : list string :=
  let game_version := Str.before_first "-" forge_version in
  "" :: table_get legacy_suffix_table game_version.

(** The base class [Version], whose methods the overrides call through
    [super()]: each one changes the world and returns or throws. *)
Class Base `{Core} := {
  Predicate : Type;
  super_fetch_version_meta : string -> World -> World * foreign json;
  super_prepare_libraries : option Predicate -> World -> World * foreign unit;
  super_prepare_post : World -> World * foreign unit
}.

(** A call through [super()]. *)
Definition super `{Core} {A} (method : World -> World * foreign A) : M A :=
  fun w => (fst (method w), call (snd (method w))).

Section Fetch.
Context `{Base}.

(** Lines 145-148: the first suffix whose installer is there. *)
Fixpoint find_install_jar (forge_version : string) (suffixes : list string)
    : result (option ZipFile) :=
  match suffixes with
  | [] => Ok None
  | suffix :: rest =>
      match request_install_jar (forge_version +:+ suffix) with
      | Raise e => Raise e
      | Ok (Some install_jar) => Ok (Some install_jar)
      | Ok None => find_install_jar forge_version rest
      end
  end.

(** Lines 168-173: a [KeyError] from inside the [try] becomes
    [INSTALL_PROFILE_NOT_FOUND]. *)
Definition load_install_profile (forge_version : string) (install_jar : ZipFile)
    : result json :=
  let body :=
    match getinfo install_jar "install_profile.json" with
    | Ok fp => call (json_load fp)
    | Raise e => Raise e
    end in
  match body with
  | Raise (KeyError _) => Raise (ForgeError INSTALL_PROFILE_NOT_FOUND forge_version)
  | r => r
  end.

(** [path.isfile(p)] and [path.getsize(p)] *)
Definition isfile (fs : gmap string string) (p : string) : bool :=
  bool_decide (is_Some (fs !! p)).

Definition getsize (fs : gmap string string) (p : string) : Z :=
  Z.of_nat (String.length (default "" (fs !! p))).

(** The test of line 200. *)
Definition needs_download (fs : gmap string string) (lib_path : string)
    (size : option Z) : bool :=
  negb (isfile fs lib_path)
  || match size with
     | Some n => negb (getsize fs lib_path =? n)%Z
     | None => false
     end.

(** [self.forge_install_libraries[lib_name] = lib_path] *)
Definition record_library (lib_name lib_path : string) : M unit :=
  o <- get_self ;;
  match forge_install_libraries o with
  | Some paths => update_self (set_forge_install_libraries (Some (<[lib_name := lib_path]> paths)))
  | None => raise TypeError
  end.

(** [self.dl.append(entry)]: the list takes the entry at its end, or
    refuses it and stays as it was. *)
Definition dl_append (entry : DownloadEntry) : M unit :=
  lift (call (DownloadList_append entry)) ;;;
  update_self (fun o => set_dl (dl o ++ [entry]) o).

(** Lines 191-204: the body of the loop over the profile's libraries.
    [LibrarySpecifier.from_str] is given a string or raises. *)
Definition install_library (install_jar : ZipFile) (install_lib : json) : M unit :=
  lib_name <- lift (Py.getitem install_lib "name") ;;
  match lib_name with
  | JStr lib_name =>
      lib_spec <- lift (call (LibrarySpecifier_from_str lib_name)) ;;
      downloads <- lift (Py.getitem install_lib "downloads") ;;
      lib_artifact <- lift (Py.getitem downloads "artifact") ;;
      o <- get_self ;;
      let lib_path := path_join (libraries_dir o) (file_path lib_spec) in
      record_library lib_name lib_path ;;;
      url <- lift (Py.getitem lib_artifact "url") ;;
      n <- lift (Py.len url) ;;
      if (n =? 0)%nat then
        zip_extract_file install_jar (JStr ("maven/" +:+ file_path lib_spec)) lib_path
      else
        lib_dl_entry <- lift (call (DownloadEntry_from_meta lib_artifact lib_path)) ;;
        fs <- get_files ;;
        if needs_download fs lib_path (DownloadEntry_size lib_dl_entry)
        then dl_append lib_dl_entry
        else ret tt
  | _ => raise (Foreign "LibrarySpecifier.from_str")
  end.

(** [self.forge_install_data[data_key] = data_val["client"]] *)
Definition record_data (item : string * json) : M unit :=
  client <- lift (Py.getitem (snd item) "client") ;;
  o <- get_self ;;
  match forge_install_data o with
  | Some data => update_self (set_forge_install_data (Some (<[fst item := client]> data)))
  | None => raise TypeError
  end.

(** [d.items()] *)
Definition items (d : json) : result (list (string * json)) :=
  match d with
  | JObj members => Ok members
  | _ => Raise AttributeError
  end.

(** [s.lstrip("/")] on the value of the ["json"] key. *)
Definition lstrip_slash (v : json) : result string :=
  match v with
  | JStr s => Ok (Str.lstrip "/" s)
  | _ => Raise AttributeError
  end.

(** Lines 177-208: the profile of forge 1.12.2-14.23.5.2851 and later. *)
Definition fetch_modern (install_jar : ZipFile) (install_profile : json) : M json :=
  json_entry <- lift (Py.getitem install_profile "json") ;;
  json_entry <- lift (lstrip_slash json_entry) ;;
  fp <- lift (getinfo install_jar json_entry) ;;
  version_meta <- lift (call (json_load fp)) ;;
  version_libraries <- lift (Py.getitem version_meta "libraries") ;;
  update_self (set_forge_install_version_libraries (Some version_libraries)) ;;;
  processors <- lift (Py.getitem install_profile "processors") ;;
  update_self (set_forge_install_processors (Some processors)) ;;;
  update_self (set_forge_install_data (Some ∅)) ;;;
  update_self (set_forge_install_libraries (Some ∅)) ;;;
  install_libs <- lift (Py.getitem install_profile "libraries") ;;
  install_libs <- lift (Py.iter install_libs) ;;
  for_each (install_library install_jar) install_libs ;;;
  data <- lift (Py.getitem install_profile "data") ;;
  data <- lift (items data) ;;
  for_each record_data data ;;;
  ret version_meta.

End Fetch.

Section FetchLegacy.
Context `{Base}.

(** [if key in version_lib: del version_lib[key]] *)
Definition del_if_in (key : string) (version_lib : json) : result json :=
  match Py.contains key version_lib with
  | Raise e => Raise e
  | Ok true => Py.delitem version_lib key
  | Ok false => Ok version_lib
  end.

(** Lines 219-224 on one library. *)
Definition clean_library (version_lib : json) : result json :=
  match del_if_in "serverreq" version_lib with
  | Raise e => Raise e
  | Ok lib1 =>
      match del_if_in "clientreq" lib1 with
      | Raise e => Raise e
      | Ok lib2 => del_if_in "checksums" lib2
      end
  end.

Fixpoint clean_each (libs : list json) : result (list json) :=
  match libs with
  | [] => Ok []
  | version_lib :: rest =>
      match clean_library version_lib with
      | Raise e => Raise e
      | Ok version_lib' =>
          match clean_each rest with
          | Raise e => Raise e
          | Ok rest' => Ok (version_lib' :: rest')
          end
      end
  end.

(** Lines 218-224.  The libraries of a list are changed in place, which
    shows in the metadata; the keys of an object or the characters of a
    string are looked at and cannot be changed. *)
Definition clean_libraries (version_meta : json) : result json :=
  match Py.getitem version_meta "libraries" with
  | Raise e => Raise e
  | Ok (JArr libs) =>
      match clean_each libs with
      | Raise e => Raise e
      | Ok libs' => Py.setitem version_meta "libraries" (JArr libs')
      end
  | Ok other =>
      match Py.iter other with
      | Raise e => Raise e
      | Ok xs =>
          match clean_each xs with
          | Raise e => Raise e
          | Ok _ => Ok version_meta
          end
      end
  end.

(** [LibrarySpecifier.from_str] on a value of the profile. *)
Definition from_str (v : json) : result LibrarySpecifier :=
  match v with
  | JStr s => call (LibrarySpecifier_from_str s)
  | _ => Raise (Foreign "LibrarySpecifier.from_str")
  end.

(** Lines 212-232: the profile of forge 1.12.2-14.23.5.2847 and before.
    [versionInfo] is cleaned inside the profile, whose ["install"]
    section, read afterwards, is not touched by that. *)
Definition fetch_legacy (install_jar : ZipFile) (install_profile : json) : M json :=
  version_meta <- lift (Py.get install_profile "versionInfo") ;;
  match version_meta with
  | JNull =>
      o <- get_self ;;
      raise (ForgeError VERSION_META_NOT_FOUND (forge_version o))
  | _ =>
      version_meta <- lift (clean_libraries version_meta) ;;
      install <- lift (Py.getitem install_profile "install") ;;
      jar_entry_path <- lift (Py.getitem install "filePath") ;;
      jar_coordinate <- lift (Py.getitem install "path") ;;
      jar_spec <- lift (from_str jar_coordinate) ;;
      o <- get_self ;;
      let jar_path := path_join (libraries_dir o) (file_path jar_spec) in
      zip_extract_file install_jar jar_entry_path jar_path ;;;
      ret version_meta
  end.

(** Lines 153-235: the [with install_jar:] block. *)
Definition read_install_jar (version_id : string) (install_jar : ZipFile) : M json :=
  o <- get_self ;;
  install_profile <- lift (load_install_profile (forge_version o) install_jar) ;;
  modern <- lift (Py.contains "json" install_profile) ;;
  version_meta <-
    (if modern : bool then fetch_modern install_jar install_profile
     else fetch_legacy install_jar install_profile) ;;
  version_meta <- lift (Py.setitem version_meta "id" (JStr version_id)) ;;
  ret version_meta.

(** The whole method. *)
Definition _fetch_version_meta (version_id : string) : M json :=
  o <- get_self ;;
  if negb (String.eqb version_id (id o)) then super (super_fetch_version_meta version_id)
  else
    install_jar <- lift (find_install_jar (forge_version o) (suffixes_of (forge_version o))) ;;
    match install_jar with
    | None => raise (ForgeError INSTALLER_NOT_FOUND (forge_version o))
    | Some install_jar => read_install_jar version_id install_jar
    end.

End FetchLegacy.

(** ** [ForgeVersion.prepare_libraries] and [ForgeVersion.prepare_post] *)

Section Prepare.
Context `{Base}.

(** [[lib for lib in libs if lib.get("downloads")]] *)
Fixpoint libraries_with_downloads (libs : list json) : result (list json) :=
  match libs with
  | [] => Ok []
  | lib :: rest =>
      match Py.get lib "downloads" with
      | Raise e => Raise e
      | Ok downloads =>
          match libraries_with_downloads rest with
          | Raise e => Raise e
          | Ok kept => Ok (if Py.truthy downloads then lib :: kept else kept)
          end
      end
  end.

(** Lines 242-245, up to the call of the base method. *)
Definition filter_version_libraries : M unit :=
  o <- get_self ;;
  match forge_install_libraries o with
  | Some _ =>
      libs <- lift (Py.getitem (version_meta o) "libraries") ;;
      libs <- lift (Py.iter libs) ;;
      kept <- lift (libraries_with_downloads libs) ;;
      meta <- lift (Py.setitem (version_meta o) "libraries" (JArr kept)) ;;
      update_self (set_version_meta meta)
  | None => ret tt
  end.

Definition prepare_libraries (predicate : option Predicate) : M unit :=
  filter_version_libraries ;;;
  super (super_prepare_libraries predicate).

(** [self.install_lib_paths[name]] for a value of the profile: a string
    is looked up, a list or an object cannot be a key. *)
Definition lib_path_of (paths : gmap string string) (name : json) : result string :=
  match name with
  | JStr s =>
      match paths !! s with
      | Some p => Ok p
      | None => Raise (KeyError name)
      end
  | JArr _ | JObj _ => Raise TypeError
  | other => Raise (KeyError other)
  end.

(** The test [txt[0] == "[" and txt[-1] == "]"] of line 261: both
    indexings raise on the empty string, and [and] does not read the
    last character when the first is not a bracket. *)
Definition is_lib_ref (txt : string) : result bool :=
  match Str.first txt with
  | Raise e => Raise e
  | Ok c =>
      if Ascii.eqb c "["%char then
        match Str.last txt with
        | Raise e => Raise e
        | Ok d => Ok (Ascii.eqb d "]"%char)
        end
      else Ok false
  end.

(** [replace_vars(txt, self.install_data)] of line 264: the attribute is
    read when the call is made, and not before. *)
Definition substitute (install_data : attr (gmap string json)) (txt : json)
    : result string :=
  match getattr install_data with
  | Raise e => Raise e
  | Ok data => call (replace_vars txt data)
  end.

(** Lines 259-264, on a [str]. *)
Definition replace_install_vars (install_lib_paths : gmap string string)
    (install_data : attr (gmap string json)) (txt : string) : result string :=
  match is_lib_ref txt with
  | Raise e => Raise e
  | Ok true => lib_path_of install_lib_paths (JStr (Str.inner txt))
  | Ok false => substitute install_data (JStr txt)
  end.

(** One argument of a processor, whatever value the profile has there.
    The function indexes what it is given: [txt[0]] is the first element
    of a list ([IndexError] on the empty one), [KeyError(0)] on an object,
    whose keys are strings, and a [TypeError] on [null], a truth value or a
    number.  A list between two bracket strings then asks the manifest
    for a list, which cannot be a key. *)
Definition replace_install_arg (install_lib_paths : gmap string string)
    (install_data : attr (gmap string json)) (arg : json) : result string :=
  match arg with
  | JStr txt => replace_install_vars install_lib_paths install_data txt
  | JArr [] => Raise IndexError
  | JArr (first :: rest) =>
      if Py.is_str "[" first && Py.is_str "]" (List.last rest first)
      then Raise TypeError
      else substitute install_data arg
  | JObj _ => Raise (KeyError (JInt 0))
  | JNull | JBool _ | JInt _ => Raise TypeError
  end.

Fixpoint map_result {A B} (f : A -> result B) (xs : list A) : result (list B) :=
  match xs with
  | [] => Ok []
  | x :: rest =>
      match f x with
      | Raise e => Raise e
      | Ok y =>
          match map_result f rest with
          | Raise e => Raise e
          | Ok ys => Ok (y :: ys)
          end
      end
  end.

(** Lines 268-276: one processor.  [subprocess.run] takes strings only,
    so an unset [jvm_exec] is a [TypeError] there. *)
Definition run_processor (install_lib_paths : gmap string string) (processor : json)
    : M unit :=
  jar_name <- lift (Py.getitem processor "jar") ;;
  jar_path <- lift (lib_path_of install_lib_paths jar_name) ;;
  classpath <- lift (Py.get_or_empty processor "classpath") ;;
  classpath <- lift (Py.iter classpath) ;;
  classpath <- lift (map_result (lib_path_of install_lib_paths) classpath) ;;
  args <- lift (Py.get_or_empty processor "args") ;;
  args <- lift (Py.iter args) ;;
  o <- get_self ;;
  args <- lift (map_result (replace_install_arg install_lib_paths (install_data o)) args) ;;
  match jvm_exec o with
  | Some java =>
      subprocess_run (java :: "-cp" :: String.concat pathsep classpath :: "-jar" :: jar_path :: args)
  | None => raise TypeError
  end.

(** [len(self.install_processors)] and [for processor in
    self.install_processors]: the attribute is read, then measured or
    gone through. *)
Definition processors_len (o : ForgeVersion) : result nat :=
  match getattr (install_processors o) with
  | Raise e => Raise e
  | Ok processors => Py.len processors
  end.

Definition processors_iter (o : ForgeVersion) : result (list json) :=
  match getattr (install_processors o) with
  | Raise e => Raise e
  | Ok processors => Py.iter processors
  end.

(** The whole method. *)
Definition prepare_post : M unit :=
  super super_prepare_post ;;;
  o <- get_self ;;
  paths <- lift (getattr (install_lib_paths o)) ;;
  match paths with
  | Some paths =>
      n <- lift (processors_len o) ;;
      if negb (n =? 0)%nat && bool_decide (jvm_exec o = None)
      then raise (ForgeError REQUIRES_JVM (forge_version o))
      else
        processors <- lift (processors_iter o) ;;
        for_each (run_processor paths) processors
  | None => ret tt
  end.

End Prepare.

(** ** [request_maven_versions] *)

(** [s.find(sub, start)] is read off the text that follows [start]:
    [find_at sub s i] is the index of the first occurrence of [sub] in [s],
    counted from [i], and [None] stands for -1. *)
Fixpoint find_at (sub s : string) (i : nat) : option nat :=
  if Str.startswith s sub then Some i
  else match s with
       | EmptyString => None
       | String _ s' => find_at sub s' (S i)
       end.

(** [text.find(sub, start)]: nothing is found from a start beyond the end. *)
Definition find (sub text : string) (start : nat) : option nat :=
  if (start <=? String.length text)%nat
  then find_at sub (Str.drop start text) start
  else None.

(** [text[a:b]] for [0 <= a] and [0 <= b]. *)
Definition slice (text : string) (a b : nat) : string :=
  Str.take (b - a) (Str.drop a text).

(** A [while True] loop run for a bounded number of rounds: it ended with a
    value, or the rounds were used up before it ended. *)
Inductive loop (A : Type) :=
| Done (a : A)
| Unfinished.
Arguments Done {A} a.
Arguments Unfinished {A}.

(** Lines 303-311, at most [rounds] times through the body. *)
Fixpoint scan_versions (rounds : nat) (text : string) (last_idx : nat)
    (versions : gset string) : loop (gset string) :=
  match rounds with
  | O => Unfinished
  | S rounds' =>
      match find "<version>" text last_idx with
      | None => Done versions
      | Some start_idx =>
          match find "</version>" text (start_idx + 9) with
          | None => Done versions
          | Some end_idx =>
              scan_versions rounds' text (end_idx + 10)
                ({[ slice text (start_idx + 9) end_idx ]} ∪ versions)
          end
      end
  end.

Definition maven_metadata_url : string :=
  "https://maven.minecraftforge.net/net/minecraftforge/forge/maven-metadata.xml".

(** [request_maven_versions]: [None] for a status other than 200, else the
    set scanned from the decoded body.  [decode] is [bytes.decode]; the loop
    is given one round more than the text has characters. *)
Definition request_maven_versions `{Core} (decode : string -> foreign string)
    : result (option (loop (gset string))) :=
  let '(status, raw) := http_request maven_metadata_url in
  if negb (status =? 200)%Z then Ok None
  else
    match call (decode raw) with
    | Raise e => Raise e
    | Ok text => Ok (Some (scan_versions (S (String.length text)) text 0 ∅))
    end.

(** One [version] element of the metadata, and a document made of
    elements, each followed by a stretch of other text. *)
Definition version_element (version : string) : string :=
  "<version>" +:+ version +:+ "</version>".

Fixpoint version_elements (elements : list (string * string)) : string :=
  match elements with
  | [] => ""
  | (version, between) :: rest =>
      version_element version +:+ between +:+ version_elements rest
  end.
(** The character [c] is nowhere in [s]. *)
Fixpoint lacks (c : ascii) (s : string) : bool :=
  match s with
  | EmptyString => true
  | String d s' => negb (Ascii.eqb c d) && lacks c s'
  end.

(** ** Vocabulary of the statements *)

Section Vocabulary.
Context `{Core}.

(** What the loop body reads from one entry of the profile's
    ["libraries"]: its name, the specifier parsed from the name, the
    ["downloads"]["artifact"] object and the ["url"] in it. *)
Definition library_entry (install_lib : json) (lib_name : string)
    (lib_spec : LibrarySpecifier) (lib_artifact url : json) : Prop :=
  Py.getitem install_lib "name" = Ok (JStr lib_name)
  /\ LibrarySpecifier_from_str lib_name = Returns lib_spec
  /\ (exists downloads,
        Py.getitem install_lib "downloads" = Ok downloads
        /\ Py.getitem downloads "artifact" = Ok lib_artifact)
  /\ Py.getitem lib_artifact "url" = Ok url.

(** The maven path of a library under the libraries directory. *)
Definition lib_path_in (w : World) (lib_spec : LibrarySpecifier) : string :=
  path_join (libraries_dir (self w)) (file_path lib_spec).

(** The same from a name, when the name parses. *)
Definition destination (w : World) (lib_name : string) : option string :=
  match LibrarySpecifier_from_str lib_name with
  | Returns lib_spec => Some (lib_path_in w lib_spec)
  | Throws _ => None
  end.

(** The world once a library is in the manifest, and once a download
    entry is at the end of [self.dl]. *)
Definition recorded (lib_name lib_path : string) (paths : gmap string string)
    (w : World) : World :=
  with_self (set_forge_install_libraries (Some (<[lib_name := lib_path]> paths))) w.

Definition queued (lib_dl_entry : DownloadEntry) (w : World) : World :=
  with_self (fun o => set_dl (dl o ++ [lib_dl_entry]) o) w.

(** The names of the entries of a library list. *)
Definition library_name (install_lib : json) : option string :=
  match Py.getitem install_lib "name" with
  | Ok (JStr lib_name) => Some lib_name
  | _ => None
  end.

Definition library_names (install_libs : list json) : list string :=
  omap library_name install_libs.

(** A library entry with a ["downloads"] key, and one whose
    ["downloads"] value counts as true. *)
Definition has_downloads_key (lib : json) : bool :=
  match lib with
  | JObj members => bool_decide (is_Some (Py.assoc "downloads" members))
  | _ => false
  end.

Definition has_downloads (lib : json) : bool :=
  match lib with
  | JObj members => Py.truthy (default JNull (Py.assoc "downloads" members))
  | _ => false
  end.

Definition is_object (v : json) : Prop :=
  match v with
  | JObj _ => True
  | _ => False
  end.

(** What the loop of line 189 goes through. *)
Definition profile_libraries (install_profile : json) : result (list json) :=
  match Py.getitem install_profile "libraries" with
  | Ok libraries => Py.iter libraries
  | Raise e => Raise e
  end.

(** The status the maven server answers for one suffix. *)
Definition candidate_status (forge_version suffix : string) : Z :=
  fst (http_request (install_jar_url (forge_version +:+ suffix))).

Definition candidate_fails (forge_version suffix : string) : Prop :=
  candidate_status forge_version suffix <> 200%Z.

End Vocabulary.

(** The promotion feed was not needed, or it has none of the three keys. *)
Definition no_promotion `{Resolver} (game_version : string) (alias : bool) : Prop :=
  needs_promo game_version alias = false
  \/ exists promo,
       request_promo_versions = Returns promo
       /\ promo !! game_version = None
       /\ promo !! (game_version +:+ "-recommended") = None
       /\ promo !! (game_version +:+ "-latest") = None.


(** The claim that, for a library with a URL, the test of line 200 alone
    decides whether its entry gets into [self.dl]: whenever the loop body
    is run on an entry with a non-empty URL, whatever its outcome, the
    entry built for it is at the end of the list if and only if there is
    no file at the destination or the file has another size than the one
    declared. *)
Definition remote_library_queued_by_disk : Prop :=
  forall (C : Core) install_jar install_lib lib_name lib_spec lib_artifact url n paths
         lib_dl_entry (w w' : World) (outcome : result unit),
    library_entry install_lib lib_name lib_spec lib_artifact url ->
    Py.len url = Ok n ->
    n <> 0 ->
    forge_install_libraries (self w) = Some paths ->
    DownloadEntry_from_meta lib_artifact (lib_path_in w lib_spec) = Returns lib_dl_entry ->
    install_library install_jar install_lib w = (w', outcome) ->
    (dl (self w') = dl (self w) ++ [lib_dl_entry]
     <-> needs_download (files w) (lib_path_in w lib_spec) (DownloadEntry_size lib_dl_entry)
         = true).

(** The reading of "entries that have a download descriptor" by the
    presence of the ["downloads"] key: with a manifest and a metadata whose
    libraries are objects, the filter ends well and keeps the entries that
    have the key. *)
Definition libraries_filtered_by_key : Prop :=
  forall (C : Core) (B : Base) paths libs (w : World),
    forge_install_libraries (self w) = Some paths ->
    Py.getitem (version_meta (self w)) "libraries" = Ok (JArr libs) ->
    Forall is_object libs ->
    exists w',
      filter_version_libraries w = (w', Ok tt)
      /\ Py.getitem (version_meta (self w')) "libraries"
         = Ok (JArr (List.filter has_downloads_key libs)).

(** ** What a method leaves as it was *)

Section Keeping.
Context `{Core}.

(** Every run of [m], whatever its outcome, takes a world to one that is
    in relation [R] with it. *)
Record keeps (R : World -> World -> Prop) {A} (m : M A) : Prop := {
  kept : forall w w' r, m w = (w', r) -> R w w'
}.

(** Between a world and a later one: the attributes the fetch step does not
    assign and the processes run are the same, the download list only got
    longer at its end, and no file is gone. *)
Record grown (w w' : World) : Prop := {
  grown_id : id (self w') = id (self w);
  grown_forge_version : forge_version (self w') = forge_version (self w);
  grown_libraries_dir : libraries_dir (self w') = libraries_dir (self w);
  grown_jvm_exec : jvm_exec (self w') = jvm_exec (self w);
  grown_version_meta : version_meta (self w') = version_meta (self w);
  grown_install_lib_paths : install_lib_paths (self w') = install_lib_paths (self w);
  grown_install_processors : install_processors (self w') = install_processors (self w);
  grown_install_data : install_data (self w') = install_data (self w);
  grown_calls : calls w' = calls w;
  grown_dl : dl (self w) `prefix_of` dl (self w');
  grown_files : forall p, is_Some (files w !! p) -> is_Some (files w' !! p)
}.

(** The disk after the processes of a list of commands have run on it,
    one after the other. *)
Fixpoint after_processes (commands : list (list string))
    (disk : gmap string string * gset string) : gmap string string * gset string :=
  match commands with
  | [] => disk
  | command :: rest =>
      after_processes rest (fst (run_process command (fst disk) (snd disk)))
  end.

(** Between a world and a later one: one attribute of the object is the
    same. *)
Definition same_on {X} (attribute : ForgeVersion -> X) (w w' : World) : Prop :=
  attribute (self w') = attribute (self w).

End Keeping.

(** The three keys of a library that only old profiles have. *)
Definition legacy_keys : list string := ["serverreq"; "clientreq"; "checksums"].

(** A library after the cleaning of the legacy branch: still an object,
    without the three keys, every other key as before. *)
Definition cleaned (lib lib' : json) : Prop :=
  is_object lib'
  /\ (forall key, key ∈ legacy_keys -> Py.contains key lib' = Ok false)
  /\ (forall key, key ∉ legacy_keys -> Py.getitem lib' key = Py.getitem lib key)
  /\ ((forall key, key ∈ legacy_keys -> Py.contains key lib = Ok false) -> lib' = lib).

(** The ["client"] value of an entry of the profile's ["data"]. *)
Definition client_value (data : list (string * json)) (key : string) : option json :=
  match Py.assoc key data with
  | Some sides =>
      match Py.getitem sides "client" with
      | Ok client => Some client
      | Raise _ => None
      end
  | None => None
  end.

(** ** The command line of a processor *)

Section Commands.
Context `{Core}.

(** [command] is the command line lines 268-273 build for [processor]:
    the JVM, the class path made of the paths of the libraries the
    processor lists, the path of its jar, and its arguments with their
    variables replaced. *)
Definition processor_command (jvm : option string) (paths : gmap string string)
    (data : attr (gmap string json)) (processor : json) (command : list string) : Prop :=
  exists java jar_name jar_path listed names classpath given templates args,
    jvm = Some java
    /\ Py.getitem processor "jar" = Ok jar_name
    /\ lib_path_of paths jar_name = Ok jar_path
    /\ Py.get_or_empty processor "classpath" = Ok listed
    /\ Py.iter listed = Ok names
    /\ map_result (lib_path_of paths) names = Ok classpath
    /\ Py.get_or_empty processor "args" = Ok given
    /\ Py.iter given = Ok templates
    /\ map_result (replace_install_arg paths data) templates = Ok args
    /\ command
       = java :: "-cp" :: String.concat pathsep classpath :: "-jar" :: jar_path :: args.

End Commands.

(** ** Concrete inputs *)

(** A manifest whose latest release is 1.20.1, and a promotion feed. *)
Definition demo_filter_latest (version : string) : string * bool :=
  if String.eqb version "release" then ("1.20.1", true) else (version, false).

Definition demo_resolver (promos : gmap string string) : Resolver :=
  {| filter_latest := demo_filter_latest;
     request_promo_versions := Returns promos;
     forge_prefix := "forge" |}.

Definition demo_promos : gmap string string :=
  <["1.20.1-recommended" := "47.2.0"]> (<["1.20.1-latest" := "47.3.0"]> ∅).

Definition demo_old (version_id : string) : foreign unit := Throws "VersionError".

(** Two installers: a modern one for forge 1.20.1-47.2.0, whose profile has
    a library to download and one packed in the archive, and an old one
    for forge 1.7.10-10.13.4.1614, published under the suffix "-1.7.10". *)
Definition demo_library_remote : json :=
  JObj [("name", JStr "net.minecraftforge:binarypatcher:1.1.1");
        ("downloads", JObj [("artifact",
           JObj [("url", JStr "https://maven.minecraftforge.net/binarypatcher-1.1.1.jar");
                 ("size", JInt 5)])])].

(** A library whose URL the download list cannot fetch. *)
Definition demo_library_ftp : json :=
  JObj [("name", JStr "net.minecraftforge:installertools:1.3.0");
        ("downloads", JObj [("artifact",
           JObj [("url", JStr "ftp://files.minecraftforge.net/installertools-1.3.0.jar");
                 ("size", JInt 7)])])].

Definition demo_library_packed : json :=
  JObj [("name", JStr "net.minecraftforge:forge:1.20.1-47.2.0");
        ("downloads", JObj [("artifact", JObj [("url", JStr ""); ("size", JInt 11)])])].

Definition demo_processor : json :=
  JObj [("jar", JStr "net.minecraftforge:binarypatcher:1.1.1");
        ("classpath", JArr [JStr "net.minecraftforge:forge:1.20.1-47.2.0"]);
        ("args", JArr [JStr "--clean"; JStr "[net.minecraftforge:forge:1.20.1-47.2.0]"])].

Definition demo_install_profile : json :=
  JObj [("json", JStr "/version.json");
        ("processors", JArr [demo_processor]);
        ("libraries", JArr [demo_library_remote; demo_library_packed]);
        ("data", JObj [("MAPPINGS", JObj [("client", JStr "[mappings]");
                                           ("server", JStr "[server-mappings]")])])].

Definition demo_version_json : json :=
  JObj [("id", JStr "1.20.1-forge-47.2.0");
        ("libraries", JArr [JObj [("name", JStr "net.minecraftforge:forge:1.20.1-47.2.0")];
                            demo_library_remote])].

Definition demo_legacy_profile : json :=
  JObj [("install", JObj [("filePath", JStr "forge-universal.jar");
                          ("path", JStr "net.minecraftforge:forge:1.7.10-10.13.4.1614")]);
        ("versionInfo",
           JObj [("id", JStr "1.7.10-Forge10.13.4.1614");
                 ("libraries",
                    JArr [JObj [("name", JStr "net.minecraftforge:forge:1.7.10-10.13.4.1614");
                                ("serverreq", JBool true);
                                ("clientreq", JBool true);
                                ("checksums", JArr [JStr "0a1b"])]])])].

Definition demo_json_load (fp : string) : foreign json :=
  if String.eqb fp "modern profile" then Returns demo_install_profile
  else if String.eqb fp "modern version" then Returns demo_version_json
  else if String.eqb fp "legacy profile" then Returns demo_legacy_profile
  else Throws "JSONDecodeError".

Definition demo_modern_jar : gmap string string :=
  <["install_profile.json" := "modern profile"]>
    (<["version.json" := "modern version"]>
       (<["maven/net.minecraftforge:forge:1.20.1-47.2.0.jar" := "forge bytes"]> ∅)).

Definition demo_legacy_jar : gmap string string :=
  <["install_profile.json" := "legacy profile"]>
    (<["forge-universal.jar" := "universal bytes"]> ∅).

Definition demo_ZipFile_new (raw : string) : foreign (gmap string string) :=
  if String.eqb raw "modern installer" then Returns demo_modern_jar
  else if String.eqb raw "legacy installer" then Returns demo_legacy_jar
  else Throws "BadZipFile".

Definition demo_http_request (url : string) : Z * string :=
  if String.eqb url (install_jar_url "1.20.1-47.2.0") then (200%Z, "modern installer")
  else if String.eqb url (install_jar_url "1.7.10-10.13.4.1614-1.7.10")
       then (200%Z, "legacy installer")
  else (404%Z, "").

(** A download entry is kept as its URL, its destination and its declared
    size. *)
Record demo_entry := {
  entry_url : string;
  entry_dst : string;
  entry_size : option Z
}.

Definition demo_from_meta (info : json) (dst : string) : foreign demo_entry :=
  match info with
  | JObj members =>
      match Py.assoc "url" members with
      | Some (JStr url) =>
          Returns {| entry_url := url; entry_dst := dst;
                     entry_size := match Py.assoc "size" members with
                                   | Some (JInt n) => Some n
                                   | _ => None
                                   end |}
      | _ => Throws "KeyError"
      end
  | _ => Throws "TypeError"
  end.

(** The download list takes the entries of the schemes it can fetch. *)
Definition demo_append (entry : demo_entry) : foreign unit :=
  if Str.startswith (entry_url entry) "http://" || Str.startswith (entry_url entry) "https://"
  then Returns tt
  else Throws "ValueError".

(** A disk that never fails, and processes that leave where their last
    argument says the word they were run on. *)
Definition demo_makedirs (d : string) (fs : gmap string string) (ds : gset string)
    : gset string * foreign unit :=
  ({[d]} ∪ ds, Returns tt).

Definition demo_run_process (all_args : list string) (fs : gmap string string)
    (ds : gset string) : gmap string string * gset string * foreign unit :=
  (<[List.last all_args "" := "patched"]> fs, ds, Returns tt).

(** [os.path.dirname] on paths made with ["/"]. *)
Fixpoint demo_dirname_from (p : string) : option string :=
  match p with
  | EmptyString => None
  | String c rest =>
      match demo_dirname_from rest with
      | Some d => Some (String c d)
      | None => if Ascii.eqb c "/" then Some "" else None
      end
  end.

Definition demo_dirname (p : string) : string := default "" (demo_dirname_from p).

(** [replace_vars] leaves a text without braces as it is and refuses
    everything else. *)
Definition demo_replace_vars (txt : json) (data : gmap string json) : foreign string :=
  match txt with
  | JStr s => if Str.contains "{" s then Throws "ValueError" else Returns s
  | _ => Throws "AttributeError"
  end.

Definition demo_core : Core :=
  {| DownloadEntry := demo_entry;
     DownloadEntry_from_meta := demo_from_meta;
     DownloadEntry_size := entry_size;
     DownloadList_append := demo_append;
     LibrarySpecifier := string;
     LibrarySpecifier_from_str := Returns;
     file_path := fun spec => spec +:+ ".jar";
     replace_vars := demo_replace_vars;
     path_join := fun a b => a +:+ "/" +:+ b;
     path_dirname := demo_dirname;
     pathsep := ":";
     json_load := demo_json_load;
     ZipFile_new := demo_ZipFile_new;
     http_request := demo_http_request;
     os_makedirs := demo_makedirs;
     copyfileobj := fun _ _ _ _ => Complete;
     run_process := demo_run_process |}.

Definition demo_base : @Base demo_core :=
  {| Predicate := unit;
     super_fetch_version_meta := fun _ w => (w, Throws "VersionError");
     super_prepare_libraries := fun _ w => (w, Returns tt);
     super_prepare_post := fun w => (w, Returns tt) |}.

Definition demo_forge_version (forge_version : string) : @ForgeVersion demo_core :=
  __init__ "/libs" JNull [] None forge_version "forge".

Definition demo_world (forge_version : string) (files : gmap string string)
    : @World demo_core :=
  {| self := demo_forge_version forge_version; files := files; dirs := ∅; calls := [] |}.

(** A disk on which the library to download is already there, with the
    five bytes its artifact declares. *)
Definition demo_files_present : gmap string string :=
  <["/libs/net.minecraftforge:binarypatcher:1.1.1.jar" := "patch"]> ∅.

(** A version after a modern install whose metadata has a library with an
    empty ["downloads"] object. *)
Definition demo_library_no_url : json :=
  JObj [("name", JStr "net.minecraftforge:forge:1.20.1-47.2.0:client");
        ("downloads", JObj [])].

Definition demo_world_installed : @World demo_core :=
  with_self
    (fun o => set_version_meta
                (JObj [("id", JStr "forge-1.20.1-47.2.0");
                       ("libraries", JArr [demo_library_no_url; demo_library_remote])])
                (set_forge_install_libraries (Some ∅) o))
    (demo_world "1.20.1-47.2.0" ∅).

(** A version that somebody gave the three attributes [prepare_post]
    reads, with or without a JVM. *)
Definition demo_world_post (jvm_exec : option string) : @World demo_core :=
  {| self :=
       {| id := "forge-1.20.1-47.2.0";
          libraries_dir := "/libs";
          version_meta := JNull;
          dl := [];
          jvm_exec := jvm_exec;
          install_lib_paths :=
            Present
              (Some (<["net.minecraftforge:binarypatcher:1.1.1" := "/libs/binarypatcher.jar"]>
                       (<["net.minecraftforge:forge:1.20.1-47.2.0" := "/libs/forge.jar"]> ∅)));
          install_processors := Present (JArr [demo_processor]);
          install_data := Present ∅;
          forge_version := "1.20.1-47.2.0";
          forge_install_libraries := None;
          forge_install_processors := None;
          forge_install_data := None;
          forge_install_version_libraries := None |};
     files := ∅;
     dirs := ∅;
     calls := [] |}.

(** The world inside the loop of the modern branch, the manifest empty. *)
Definition demo_world_in_loop (files : gmap string string) : @World demo_core :=
  with_self (set_forge_install_libraries (Some ∅)) (demo_world "1.20.1-47.2.0" files).

(** ** Further concrete inputs *)

(** The body of the maven metadata. *)
Definition demo_maven_xml : string :=
  "<metadata><versioning><versions>"
  +:+ version_elements [("1.20.1-47.2.0", " "); ("1.7.10-10.13.4.1614", "")]
  +:+ "</versions></versioning></metadata>".

(** An installer without a profile, and one whose profile has neither a
    ["json"] key nor a ["versionInfo"]. *)
Definition demo_empty_jar : gmap string string :=
  <["META-INF/MANIFEST.MF" := "Manifest-Version: 1.0"]> ∅.

Definition demo_bare_profile : json := JObj [("install", JObj [])].

Definition demo_bare_jar : gmap string string :=
  <["install_profile.json" := "bare profile"]> ∅.

(** A maven server that also answers the metadata request and has these
    two installers, for forge 1.8.9-11.15.1.2318 and 1.8.8-11.15.0.1655. *)
Definition demo_more_http_request (url : string) : Z * string :=
  if String.eqb url maven_metadata_url then (200%Z, demo_maven_xml)
  else if String.eqb url (install_jar_url "1.8.9-11.15.1.2318") then (200%Z, "empty installer")
  else if String.eqb url (install_jar_url "1.8.8-11.15.0.1655") then (200%Z, "bare installer")
  else demo_http_request url.

Definition demo_more_ZipFile_new (raw : string) : foreign (gmap string string) :=
  if String.eqb raw "empty installer" then Returns demo_empty_jar
  else if String.eqb raw "bare installer" then Returns demo_bare_jar
  else demo_ZipFile_new raw.

Definition demo_more_json_load (fp : string) : foreign json :=
  if String.eqb fp "bare profile" then Returns demo_bare_profile
  else demo_json_load fp.

Definition demo_maven_core : Core :=
  {| DownloadEntry := demo_entry;
     DownloadEntry_from_meta := demo_from_meta;
     DownloadEntry_size := entry_size;
     DownloadList_append := demo_append;
     LibrarySpecifier := string;
     LibrarySpecifier_from_str := Returns;
     file_path := fun spec => spec +:+ ".jar";
     replace_vars := demo_replace_vars;
     path_join := fun a b => a +:+ "/" +:+ b;
     path_dirname := demo_dirname;
     pathsep := ":";
     json_load := demo_more_json_load;
     ZipFile_new := demo_more_ZipFile_new;
     http_request := demo_more_http_request;
     os_makedirs := demo_makedirs;
     copyfileobj := fun _ _ _ _ => Complete;
     run_process := demo_run_process |}.

Definition demo_maven_base : @Base demo_maven_core :=
  {| Predicate := unit;
     super_fetch_version_meta := fun _ w => (w, Throws "VersionError");
     super_prepare_libraries := fun _ w => (w, Returns tt);
     super_prepare_post := fun w => (w, Returns tt) |}.

(** A version of that launcher, as it is before anything is installed. *)
Definition demo_maven_world (forge_version : string) : @World demo_maven_core :=
  {| self :=
       {| id := "forge-" +:+ forge_version;
          libraries_dir := "/libs";
          version_meta := JNull;
          dl := [];
          jvm_exec := None;
          install_lib_paths := Absent;
          install_processors := Absent;
          install_data := Absent;
          forge_version := forge_version;
          forge_install_libraries := None;
          forge_install_processors := None;
          forge_install_data := None;
          forge_install_version_libraries := None |};
     files := ∅;
     dirs := ∅;
     calls := [] |}.

(** * Properties *)

(** ** Slices of a concatenation *)

Lemma append_cons (c : ascii) (a b : string) : String c a +:+ b = String c (a +:+ b).
Proof. reflexivity. Qed.

Lemma append_empty_l (s : string) : "" +:+ s = s.
Proof. reflexivity. Qed.

Lemma append_empty_r (s : string) : s +:+ "" = s.
Proof.
  induction s as [|a s IH]; [reflexivity|].
  now rewrite append_cons, IH.
Qed.

Lemma append_assoc (a b c : string) : (a +:+ b) +:+ c = a +:+ b +:+ c.
Proof.
  induction a as [|d a IH]; [reflexivity|].
  now rewrite !append_cons, IH.
Qed.

Lemma length_append (a b : string) :
  String.length (a +:+ b) = String.length a + String.length b.
Proof.
  induction a as [|c a IH]; [reflexivity|].
  rewrite append_cons. simpl. now rewrite IH.
Qed.

Lemma drop_append (a b : string) : Str.drop (String.length a) (a +:+ b) = b.
Proof.
  induction a as [|c a IH]; [reflexivity|].
  rewrite append_cons. exact IH.
Qed.

Lemma take_append (a b : string) : Str.take (String.length a) (a +:+ b) = a.
Proof.
  induction a as [|c a IH].
  - now destruct b.
  - rewrite append_cons. simpl. now rewrite IH.
Qed.

Lemma drop_last_append (a b : string) : Str.drop_last (String.length b) (a +:+ b) = a.
Proof.
  unfold Str.drop_last. rewrite length_append.
  replace (String.length a + String.length b - String.length b) with (String.length a) by lia.
  apply take_append.
Qed.

Lemma endswith_append (a b : string) : Str.endswith (a +:+ b) b = true.
Proof.
  unfold Str.endswith. rewrite length_append.
  replace (String.length a + String.length b - String.length b) with (String.length a) by lia.
  rewrite drop_append, String.eqb_refl, andb_true_r.
  apply Nat.leb_le. lia.
Qed.

Lemma take_drop (n : nat) (s : string) : Str.take n s +:+ Str.drop n s = s.
Proof.
  revert s. induction n as [|n IH]; intros s.
  - reflexivity.
  - destruct s as [|c s]; [reflexivity|].
    simpl. now rewrite append_cons, IH.
Qed.

Lemma endswith_inv (s p : string) :
  Str.endswith s p = true -> s = Str.drop_last (String.length p) s +:+ p.
Proof.
  unfold Str.endswith, Str.drop_last. intros Hend.
  apply andb_true_iff in Hend as [_ Heq].
  apply String.eqb_eq in Heq.
  set (n := String.length s - String.length p) in *.
  rewrite <- (take_drop n s) at 1. now rewrite Heq.
Qed.

(** The last character of a concatenation with a non-empty right part. *)
Lemma last_append (a : string) (c : ascii) (b : string) :
  Str.last (a +:+ String c b) = Str.last (String c b).
Proof.
  induction a as [|d a IH]; [reflexivity|].
  rewrite append_cons.
  cbn [Str.last]. destruct (a +:+ String c b) eqn:E.
  - destruct a; discriminate E.
  - exact IH.
Qed.

Lemma endswith_last (s q : string) (c : ascii) :
  Str.endswith s (q +:+ String c "") = true -> Str.last s = Ok c.
Proof.
  intros Hend. apply endswith_inv in Hend. rewrite Hend.
  rewrite <- append_assoc. now rewrite last_append.
Qed.

Lemma strip_promo_suffix_recommended (v : string) :
  strip_promo_suffix (v +:+ "-recommended") = v.
Proof.
  unfold strip_promo_suffix. rewrite endswith_append.
  apply (drop_last_append v "-recommended").
Qed.

Lemma strip_promo_suffix_latest (v : string) :
  strip_promo_suffix (v +:+ "-latest") = v.
Proof.
  unfold strip_promo_suffix.
  destruct (Str.endswith (v +:+ "-latest") "-recommended") eqn:E.
  - apply (endswith_last _ "-recommende" "d"%char) in E.
    pose proof (endswith_append v "-latest") as E'.
    apply (endswith_last _ "-lates" "t"%char) in E'.
    congruence.
  - rewrite endswith_append. apply (drop_last_append v "-latest").
Qed.

(** ** The version resolver *)

Lemma forge_prefix_split (rest : string) :
  Str.startswith ("forge:" +:+ rest) "forge:" = true
  /\ Str.drop 6 ("forge:" +:+ rest) = rest.
Proof. split; reflexivity. Qed.

Example resolve_release :
  new_version (H := demo_resolver (<["1.20.1" := "47.2.0"]> ∅)) demo_old "forge:release"
  = Ok (inl {| nv_forge_version := "1.20.1-47.2.0"; nv_prefix := "forge" |}).
Proof. vm_compute. reflexivity. Qed.

Example resolve_recommended :
  new_version (H := demo_resolver (<["1.20.1-recommended" := "47.2.0"]> ∅)) demo_old
    "forge:1.20.1-recommended"
  = Ok (inl {| nv_forge_version := "1.20.1-47.2.0"; nv_prefix := "forge" |}).
Proof. vm_compute. reflexivity. Qed.

Example resolve_explicit :
  new_version (H := demo_resolver ∅) demo_old "forge:1.20.1-47.2.0"
  = Ok (inl {| nv_forge_version := "1.20.1-47.2.0"; nv_prefix := "forge" |}).
Proof. vm_compute. reflexivity. Qed.

Lemma contains_split (c : ascii) (s : string) :
  Str.contains (String c "") s = true -> exists a b, s = a +:+ String c b.
Proof.
  induction s as [|d s IH]; cbn [Str.contains Str.startswith]; [discriminate|].
  rewrite andb_true_r. intros Hocc. apply orb_prop in Hocc as [Hhere | Hlater].
  - apply Ascii.eqb_eq in Hhere as ->. now exists "", s.
  - destruct (IH Hlater) as (a & b & ->). now exists (String d a), b.
Qed.

Lemma needs_promo_spelled (game_version : string) (alias : bool) :
  alias = true
  \/ (exists v, game_version = v +:+ "-recommended")
  \/ (exists v, game_version = v +:+ "-latest")
  \/ (forall a b, game_version <> a +:+ "-" +:+ b) ->
  needs_promo game_version alias = true.
Proof.
  unfold needs_promo. intros [-> | [[v ->] | [[v ->] | Hdash]]].
  - reflexivity.
  - now rewrite endswith_append, orb_true_r.
  - now rewrite endswith_append, !orb_true_r.
  - destruct (Str.contains "-" game_version) eqn:Hocc; [| now rewrite !orb_true_r].
    destruct (contains_split _ _ Hocc) as (a & b & ->). now destruct (Hdash a b).
Qed.

Lemma strip_promo_suffix_plain (game_version : string) :
  (forall v, game_version <> v +:+ "-recommended") ->
  (forall v, game_version <> v +:+ "-latest") ->
  strip_promo_suffix game_version = game_version.
Proof.
  intros Hrec Hlatest. unfold strip_promo_suffix.
  destruct (Str.endswith game_version "-recommended") eqn:E.
  { apply endswith_inv in E. now destruct (Hrec _ E). }
  destruct (Str.endswith game_version "-latest") eqn:E'; [| reflexivity].
  apply endswith_inv in E'. now destruct (Hlatest _ E').
Qed.

(** C1.  [game_version] and [alias] are what the manifest gave for the
    requested version.  When the promotion feed has to be asked (the game
    version is an alias, ends with "-recommended" or "-latest", or has no
    "-"), the keys [game_version], [game_version-recommended] and
    [game_version-latest] are tried in this order: [build] is the entry of
    the first of them that has one, the exact key deciding whatever the
    two other keys hold.  The resolver then returns [stem-build], where
    [stem] is the game version with its "-recommended" or "-latest"
    ending cut off, and the game version itself when it has neither. *)
Theorem new_version_promotion `{Resolver} {V : Type} (old : string -> foreign V)
    (rest game_version stem : string) (alias : bool)
    (promo : gmap string string) (build : string) :
  filter_latest (requested_game_version rest) = (game_version, alias) ->
  (alias = true
   \/ (exists v, game_version = v +:+ "-recommended")
   \/ (exists v, game_version = v +:+ "-latest")
   \/ (forall a b, game_version <> a +:+ "-" +:+ b)) ->
  request_promo_versions = Returns promo ->
  (promo !! game_version = Some build
   \/ (promo !! game_version = None
       /\ promo !! (game_version +:+ "-recommended") = Some build)
   \/ (promo !! game_version = None
       /\ promo !! (game_version +:+ "-recommended") = None
       /\ promo !! (game_version +:+ "-latest") = Some build)) ->
  (game_version = stem +:+ "-recommended"
   \/ game_version = stem +:+ "-latest"
   \/ (game_version = stem
       /\ (forall v, game_version <> v +:+ "-recommended")
       /\ (forall v, game_version <> v +:+ "-latest"))) ->
  new_version old ("forge:" +:+ rest)
  = Ok (inl {| nv_forge_version := stem +:+ "-" +:+ build; nv_prefix := forge_prefix |}).
Proof.
  intros Hmanifest Hneeds Hfeed Hhit Hstem.
  apply needs_promo_spelled in Hneeds.
  assert (Hcut : strip_promo_suffix game_version = stem).
  { destruct Hstem as [-> | [-> | (<- & Hrec & Hlatest)]].
    - apply strip_promo_suffix_recommended.
    - apply strip_promo_suffix_latest.
    - now apply strip_promo_suffix_plain. }
  unfold new_version.
  destruct (forge_prefix_split rest) as [-> ->].
  unfold new_forge_version. rewrite Hmanifest, Hneeds, Hfeed.
  cbn [call promo_suffixes promo_loop]. rewrite append_empty_r, Hcut.
  destruct Hhit as [Hexact | [[Hexact Hrec] | (Hexact & Hrec & Hlatest)]].
  - now rewrite Hexact.
  - now rewrite Hexact, Hrec.
  - now rewrite Hexact, Hrec, Hlatest.
Qed.

(** The feed has build 47.2.0 under "1.20.1-recommended": asked for that
    name, the resolver cuts the ending and returns "1.20.1-47.2.0". *)
Lemma new_version_promotion_witness :
  new_version (H := demo_resolver demo_promos) demo_old "forge:1.20.1-recommended"
  = Ok (inl {| nv_forge_version := "1.20.1-47.2.0"; nv_prefix := "forge" |}).
Proof.
  apply (new_version_promotion (H := demo_resolver demo_promos) demo_old
           "1.20.1-recommended" "1.20.1-recommended" "1.20.1" false demo_promos "47.2.0").
  - reflexivity.
  - right. left. now exists "1.20.1".
  - reflexivity.
  - left. vm_compute. reflexivity.
  - left. reflexivity.
Defined.

(** C2. When no promotion is found for the game version the manifest gave:
    a game version that came from an alias makes the resolver raise
    [ForgeError(MINECRAFT_VERSION_NOT_SUPPORTED, game_version)]; one that
    did not is returned as it is, as the forge version, and nothing is
    raised.  The manifest hands a name that is no alias back unchanged, so
    this is the remainder of the identifier. *)
Theorem new_version_no_promotion `{Resolver} {V : Type} (old : string -> foreign V)
    (rest game_version : string) (alias : bool) :
  filter_latest (requested_game_version rest) = (game_version, alias) ->
  no_promotion game_version alias ->
  new_version old ("forge:" +:+ rest)
  = if alias
    then Raise (ForgeError MINECRAFT_VERSION_NOT_SUPPORTED game_version)
    else Ok (inl {| nv_forge_version := game_version; nv_prefix := forge_prefix |}).
Proof.
  intros Hmanifest Hnone.
  unfold new_version.
  destruct (forge_prefix_split rest) as [-> ->].
  unfold new_forge_version. rewrite Hmanifest.
  destruct Hnone as [Hskip | (promo & Hfeed & Hexact & Hrec & Hlatest)].
  - rewrite Hskip. now destruct alias.
  - destruct (needs_promo game_version alias).
    + rewrite Hfeed. cbn [call promo_suffixes promo_loop].
      rewrite append_empty_r, Hexact, Hrec, Hlatest. now destruct alias.
    + now destruct alias.
Qed.

Lemma new_version_no_promotion_witness :
  new_version (H := demo_resolver ∅) demo_old "forge:1.20.1-47.2.0"
  = Ok (inl {| nv_forge_version := "1.20.1-47.2.0"; nv_prefix := "forge" |}).
Proof.
  apply (new_version_no_promotion (H := demo_resolver ∅) demo_old
           "1.20.1-47.2.0" "1.20.1-47.2.0" false).
  - reflexivity.
  - left. reflexivity.
Defined.

Example resolve_alias_unsupported :
  new_version (H := demo_resolver ∅) demo_old "forge:release"
  = Raise (ForgeError MINECRAFT_VERSION_NOT_SUPPORTED "1.20.1").
Proof. vm_compute. reflexivity. Qed.

(** ** Running a method: what a [bind] did *)

Section Running.
Context `{Core}.

Lemma bind_ok {A B} (m : M A) (k : A -> M B) (w w' : World) (b : B) :
  bind m k w = (w', Ok b) ->
  exists w1 a, m w = (w1, Ok a) /\ k a w1 = (w', Ok b).
Proof.
  unfold bind. destruct (m w) as [w1 [a | e]]; intros Hrun.
  - now exists w1, a.
  - discriminate Hrun.
Qed.

Lemma bind_raise {A B} (m : M A) (k : A -> M B) (w w' : World) (e : exn) :
  bind m k w = (w', Raise e) ->
  m w = (w', Raise e) \/ exists w1 a, m w = (w1, Ok a) /\ k a w1 = (w', Raise e).
Proof.
  unfold bind. destruct (m w) as [w1 [a | e']]; intros Hrun.
  - right. now exists w1, a.
  - left. now injection Hrun as -> ->.
Qed.

Lemma bind_step {A B} (m : M A) (k : A -> M B) (w w1 : World) (a : A) :
  m w = (w1, Ok a) -> bind m k w = k a w1.
Proof. unfold bind. now intros ->. Qed.

Lemma bind_stop {A B} (m : M A) (k : A -> M B) (w w1 : World) (e : exn) :
  m w = (w1, Raise e) -> bind m k w = (w1, Raise e).
Proof. unfold bind. now intros ->. Qed.

(** A method that never raises [ForgeError] with code [c]. *)
Definition silent (c : ForgeErrorCode) {A} (m : M A) : Prop :=
  forall w w' v, m w <> (w', Raise (ForgeError c v)).

Definition silent_result (c : ForgeErrorCode) {A} (r : result A) : Prop :=
  forall v, r <> Raise (ForgeError c v).

Lemma silent_bind c {A B} (m : M A) (k : A -> M B) :
  silent c m -> (forall a, silent c (k a)) -> silent c (bind m k).
Proof.
  intros Hm Hk w w' v Hrun. apply bind_raise in Hrun as [Hrun | (w1 & a & _ & Hrun)].
  - exact (Hm _ _ _ Hrun).
  - exact (Hk _ _ _ _ Hrun).
Qed.

Lemma silent_lift c {A} (r : result A) : silent_result c r -> silent c (lift r).
Proof. intros Hr w w' v Hrun. injection Hrun as _ Hrun. exact (Hr _ Hrun). Qed.

Lemma silent_ret c {A} (a : A) : silent c (ret a).
Proof. intros w w' v Hrun. discriminate Hrun. Qed.

Lemma silent_raise c {A} (e : exn) :
  (forall v, e <> ForgeError c v) -> silent c (raise (A := A) e).
Proof. intros He w w' v Hrun. injection Hrun as _ Hrun. exact (He _ Hrun). Qed.

Lemma silent_get_self c : silent c get_self.
Proof. intros w w' v Hrun. discriminate Hrun. Qed.

Lemma silent_get_files c : silent c get_files.
Proof. intros w w' v Hrun. discriminate Hrun. Qed.

Lemma silent_update_self c f : silent c (update_self f).
Proof. intros w w' v Hrun. discriminate Hrun. Qed.

Lemma silent_write_file c dst content : silent c (write_file dst content).
Proof.
  intros w w' v Hrun. unfold write_file in Hrun.
  destruct (copyfileobj _ _ _ _) as [|[part|] what]; discriminate Hrun.
Qed.

Lemma silent_makedirs c d : silent c (makedirs d).
Proof.
  intros w w' v Hrun. unfold makedirs in Hrun.
  destruct (snd (os_makedirs _ _ _)); discriminate Hrun.
Qed.

Lemma silent_subprocess_run c all_args : silent c (subprocess_run all_args).
Proof.
  intros w w' v Hrun. unfold subprocess_run in Hrun.
  destruct (snd (run_process _ _ _)); discriminate Hrun.
Qed.

Lemma silent_super c {A} (method : World -> World * foreign A) : silent c (super method).
Proof.
  intros w w' v Hrun. unfold super in Hrun.
  destruct (snd (method w)); discriminate Hrun.
Qed.

Lemma silent_for_each c {A} (body : A -> M unit) (xs : list A) :
  (forall x, silent c (body x)) -> silent c (for_each body xs).
Proof.
  intros Hbody. induction xs as [|x xs IH]; simpl.
  - apply silent_ret.
  - apply silent_bind; [apply Hbody | intros _; exact IH].
Qed.

Lemma silent_call c {A} (r : foreign A) : silent_result c (call r).
Proof. intros v. destruct r; discriminate. Qed.

Lemma silent_getattr c {A} (a : attr A) : silent_result c (getattr a).
Proof. intros v. destruct a; discriminate. Qed.

Lemma silent_getitem c d k : silent_result c (Py.getitem d k).
Proof.
  intros v. destruct d; try discriminate.
  simpl. destruct (Py.assoc k members); discriminate.
Qed.

Lemma silent_setitem c d k x : silent_result c (Py.setitem d k x).
Proof. intros v. destruct d; discriminate. Qed.

Lemma silent_delitem c d k : silent_result c (Py.delitem d k).
Proof.
  intros v. destruct d; try discriminate.
  simpl. destruct (Py.assoc k members); discriminate.
Qed.

Lemma silent_get c d k : silent_result c (Py.get d k).
Proof. intros v. destruct d; discriminate. Qed.

Lemma silent_get_or_empty c d k : silent_result c (Py.get_or_empty d k).
Proof. intros v. destruct d; discriminate. Qed.

Lemma silent_contains c k d : silent_result c (Py.contains k d).
Proof. intros v. destruct d; discriminate. Qed.

Lemma silent_len c d : silent_result c (Py.len d).
Proof. intros v. destruct d; discriminate. Qed.

Lemma silent_iter c d : silent_result c (Py.iter d).
Proof. intros v. destruct d; discriminate. Qed.

Lemma silent_getinfo c zf name : silent_result c (getinfo zf name).
Proof. intros v. unfold getinfo. destruct (zf !! name); discriminate. Qed.

Lemma silent_zip_open c zf entry_path : silent_result c (zip_open zf entry_path).
Proof. intros v. destruct entry_path; try discriminate. apply silent_getinfo. Qed.

End Running.

Create HintDb silent discriminated.
#[export] Hint Resolve silent_ret silent_get_self silent_get_files silent_update_self
  silent_write_file silent_makedirs silent_subprocess_run silent_super silent_call
  silent_getattr silent_getitem
  silent_setitem silent_delitem silent_get silent_get_or_empty silent_contains
  silent_len silent_iter silent_getinfo silent_zip_open : silent.

(** Goes through the binds and the branches of a method body. *)
Ltac silence :=
  repeat first
    [ solve [auto with silent]
    | apply silent_raise; intros ?; discriminate
    | apply silent_bind; [| intros ?]
    | apply silent_for_each; intros ?
    | apply silent_lift
    | match goal with
      | |- silent_result _ (Raise _) => intros ?; discriminate
      | |- silent_result _ (Ok _) => intros ?; discriminate
      | |- silent _ (match ?x with _ => _ end) => destruct x
      | |- silent _ (let '(_, _) := ?x in _) => destruct x
      end ].

(** ** The installer lookup *)

Section Installer.
Context `{Base}.

Lemma request_install_jar_fails forge_version suffix :
  candidate_fails forge_version suffix ->
  request_install_jar (forge_version +:+ suffix) = Ok None.
Proof.
  unfold candidate_fails, candidate_status, request_install_jar.
  destruct (http_request _) as [status raw]. simpl. intros Hstatus.
  now apply Z.eqb_neq in Hstatus as ->.
Qed.

Lemma request_install_jar_none forge_version suffix :
  request_install_jar (forge_version +:+ suffix) = Ok None ->
  candidate_fails forge_version suffix.
Proof.
  unfold candidate_fails, candidate_status, request_install_jar.
  destruct (http_request _) as [status raw]. simpl.
  destruct (Z.eqb_spec status 200) as [_ | Hstatus]; [| now intros _].
  destruct (call (ZipFile_new raw)); discriminate.
Qed.

Lemma find_install_jar_all_fail forge_version suffixes :
  Forall (candidate_fails forge_version) suffixes ->
  find_install_jar forge_version suffixes = Ok None.
Proof.
  induction 1 as [|suffix rest Hfail _ IH]; simpl; [reflexivity|].
  now rewrite (request_install_jar_fails _ _ Hfail).
Qed.

Lemma find_install_jar_none forge_version suffixes :
  find_install_jar forge_version suffixes = Ok None ->
  Forall (candidate_fails forge_version) suffixes.
Proof.
  induction suffixes as [|suffix rest IH]; simpl; intros Hfind; [constructor|].
  destruct (request_install_jar (forge_version +:+ suffix)) as [[jar|]|e] eqn:Hreq;
    try discriminate Hfind.
  constructor; [now apply request_install_jar_none | now apply IH].
Qed.

Lemma find_install_jar_first forge_version before suffix after raw :
  Forall (candidate_fails forge_version) before ->
  http_request (install_jar_url (forge_version +:+ suffix)) = (200%Z, raw) ->
  find_install_jar forge_version (before ++ suffix :: after)
  = match call (ZipFile_new raw) with
    | Ok install_jar => Ok (Some install_jar)
    | Raise e => Raise e
    end.
Proof.
  intros Hbefore Hhit. induction Hbefore as [|s rest Hfail _ IH]; simpl.
  - unfold request_install_jar. rewrite Hhit. simpl.
    now destruct (call (ZipFile_new raw)).
  - now rewrite (request_install_jar_fails _ _ Hfail).
Qed.

Lemma silent_find_install_jar c forge_version suffixes :
  silent_result c (find_install_jar forge_version suffixes).
Proof.
  intros v. induction suffixes as [|suffix rest IH]; simpl; [discriminate|].
  unfold request_install_jar. destruct (http_request _) as [status raw].
  destruct (status =? 200)%Z; [| exact IH].
  destruct (ZipFile_new raw); discriminate.
Qed.

Lemma silent_load_install_profile c forge_version install_jar :
  c <> INSTALL_PROFILE_NOT_FOUND ->
  silent_result c (load_install_profile forge_version install_jar).
Proof.
  intros Hc v. unfold load_install_profile, getinfo.
  destruct (install_jar !! "install_profile.json"); [| congruence].
  destruct (json_load s); simpl; discriminate.
Qed.

Lemma silent_zip_extract_file c zf entry_path dst_path :
  silent c (zip_extract_file zf entry_path dst_path).
Proof. unfold zip_extract_file. silence. Qed.

Lemma silent_install_library c install_jar install_lib :
  silent c (install_library install_jar install_lib).
Proof.
  unfold install_library, record_library. silence.
  all: try apply silent_zip_extract_file.
Qed.

Lemma silent_record_data c item : silent c (record_data item).
Proof. unfold record_data. silence. Qed.

Lemma silent_lstrip_slash c v : silent_result c (lstrip_slash v).
Proof. intros x. destruct v; discriminate. Qed.

Lemma silent_items c d : silent_result c (items d).
Proof. intros x. destruct d; discriminate. Qed.

Lemma silent_fetch_modern c install_jar install_profile :
  silent c (fetch_modern install_jar install_profile).
Proof.
  unfold fetch_modern. silence.
  all: first [ apply silent_lstrip_slash | apply silent_install_library
             | apply silent_items | apply silent_record_data ].
Qed.

End Installer.

Section InstallerNotFound.
Context `{Base}.

Lemma silent_and_then c {A B} (r : result A) (k : A -> result B) :
  silent_result c r -> (forall a, silent_result c (k a)) ->
  silent_result c (match r with Ok a => k a | Raise e => Raise e end).
Proof.
  intros Hr Hk v. destruct r as [a|e]; [apply Hk|].
  intros Heq. apply (Hr v). congruence.
Qed.

Lemma silent_del_if_in c key version_lib : silent_result c (del_if_in key version_lib).
Proof.
  unfold del_if_in.
  apply (silent_and_then c (Py.contains key version_lib)
           (fun b : bool => if b then Py.delitem version_lib key else Ok version_lib)).
  - apply silent_contains.
  - intros [|]; [apply silent_delitem | discriminate].
Qed.

Lemma silent_clean_library c version_lib : silent_result c (clean_library version_lib).
Proof.
  unfold clean_library.
  apply silent_and_then; [apply silent_del_if_in | intros lib1].
  apply silent_and_then; [apply silent_del_if_in | intros lib2].
  apply silent_del_if_in.
Qed.

Lemma silent_clean_each c libs : silent_result c (clean_each libs).
Proof.
  induction libs as [|lib rest IH]; simpl; [discriminate|].
  apply silent_and_then; [apply silent_clean_library | intros lib'].
  apply silent_and_then; [exact IH | discriminate].
Qed.

Lemma silent_clean_libraries c version_meta :
  silent_result c (clean_libraries version_meta).
Proof.
  unfold clean_libraries.
  apply silent_and_then; [apply silent_getitem | intros libs].
  assert (Hother : silent_result c
              (match Py.iter libs with
               | Ok xs => match clean_each xs with
                          | Ok _ => Ok version_meta
                          | Raise e => Raise e
                          end
               | Raise e => Raise e
               end)).
  { apply silent_and_then; [apply silent_iter | intros xs].
    apply silent_and_then; [apply silent_clean_each | discriminate]. }
  destruct libs; try exact Hother.
  apply silent_and_then; [apply silent_clean_each | intros libs'].
  apply silent_setitem.
Qed.

Lemma silent_from_str c v : silent_result c (from_str v).
Proof. intros x. destruct v; try discriminate. apply silent_call. Qed.

Lemma silent_fetch_legacy c install_jar install_profile :
  c <> VERSION_META_NOT_FOUND ->
  silent c (fetch_legacy install_jar install_profile).
Proof.
  intros Hc. unfold fetch_legacy. silence.
  all: first [ apply silent_clean_libraries | apply silent_from_str
             | apply silent_zip_extract_file
             | intros v Heq; injection Heq as Heq _; congruence ].
Qed.

Lemma silent_read_install_jar version_id install_jar :
  silent INSTALLER_NOT_FOUND (read_install_jar version_id install_jar).
Proof.
  unfold read_install_jar. silence.
  all: first [ apply silent_load_install_profile; discriminate
             | apply silent_lstrip_slash | apply silent_items
             | apply silent_clean_libraries | apply silent_from_str ].
Qed.

(** The method on the version's own identifier, once the object is read. *)
Lemma fetch_own_version (w : World) :
  _fetch_version_meta (id (self w)) w
  = match find_install_jar (forge_version (self w)) (suffixes_of (forge_version (self w))) with
    | Ok (Some install_jar) => read_install_jar (id (self w)) install_jar w
    | Ok None => (w, Raise (ForgeError INSTALLER_NOT_FOUND (forge_version (self w))))
    | Raise e => (w, Raise e)
    end.
Proof.
  unfold _fetch_version_meta, bind at 1, get_self.
  rewrite String.eqb_refl. cbn [negb]. unfold bind at 1, lift.
  now destruct (find_install_jar _ _) as [[jar|]|e].
Qed.

End InstallerNotFound.

Example suffixes_of_1_7_10 :
  suffixes_of "1.7.10-10.13.4.1614" = [""; "-1.7.10"; "-1710ls"; "-new"].
Proof. reflexivity. Qed.

Example suffixes_of_modern : suffixes_of "1.20.1-47.2.0" = [""].
Proof. reflexivity. Qed.

(** C7. The installer is looked for under the forge version followed by
    each suffix of [suffixes_of]: the empty suffix first, then the entries
    of the fixed table for the game version (for 1.7.10: "-1.7.10",
    "-1710ls", "-new").  The first suffix whose URL answers with status 200
    gives the archive the method goes on with, and the method raises
    [ForgeError(INSTALLER_NOT_FOUND, forge_version)] if and only if no
    suffix is answered with status 200. *)
Theorem fetch_installer_candidates `{Base} (w : World) (version_id : string) :
  version_id = id (self w) ->
  let fv := forge_version (self w) in
  suffixes_of fv = "" :: table_get legacy_suffix_table (Str.before_first "-" fv)
  /\ (Str.before_first "-" fv = "1.7.10" ->
      suffixes_of fv = [""; "-1.7.10"; "-1710ls"; "-new"])
  /\ (forall before suffix after raw,
        suffixes_of fv = before ++ suffix :: after ->
        Forall (candidate_fails fv) before ->
        http_request (install_jar_url (fv +:+ suffix)) = (200%Z, raw) ->
        _fetch_version_meta version_id w
        = match ZipFile_new raw with
          | Returns install_jar => read_install_jar version_id install_jar w
          | Throws what => (w, Raise (Foreign what))
          end)
  /\ (Forall (candidate_fails fv) (suffixes_of fv) ->
      _fetch_version_meta version_id w = (w, Raise (ForgeError INSTALLER_NOT_FOUND fv)))
  /\ (forall w' v,
        _fetch_version_meta version_id w = (w', Raise (ForgeError INSTALLER_NOT_FOUND v)) ->
        Forall (candidate_fails fv) (suffixes_of fv)).
Proof.
  intros -> fv. subst fv. repeat split.
  - unfold suffixes_of. now intros ->.
  - intros before suffix after raw Hsplit Hbefore Hhit.
    rewrite fetch_own_version, Hsplit, (find_install_jar_first _ _ _ _ _ Hbefore Hhit).
    now destruct (ZipFile_new raw).
  - intros Hall. now rewrite fetch_own_version, (find_install_jar_all_fail _ _ Hall).
  - intros w' v. rewrite fetch_own_version.
    destruct (find_install_jar _ _) as [[jar|]|e] eqn:Hfind.
    + intros Hrun. now apply silent_read_install_jar in Hrun.
    + intros _. now apply find_install_jar_none.
    + intros Hrun. injection Hrun as _ ->.
      now apply silent_find_install_jar in Hfind.
Qed.

Lemma fetch_installer_candidates_witness :
  Forall (candidate_fails (H := demo_core) "1.7.10-10.13.4.1614") [""]
  /\ @_fetch_version_meta demo_core demo_base "forge-1.7.10-10.13.4.1614"
       (demo_world "1.7.10-10.13.4.1614" ∅)
     = @read_install_jar demo_core "forge-1.7.10-10.13.4.1614" demo_legacy_jar
         (demo_world "1.7.10-10.13.4.1614" ∅).
Proof.
  assert (Hfirst : Forall (candidate_fails (H := demo_core) "1.7.10-10.13.4.1614") [""]).
  { repeat constructor. vm_compute. discriminate. }
  split; [exact Hfirst|].
  exact (proj1 (proj2 (proj2
    (@fetch_installer_candidates demo_core demo_base
       (demo_world "1.7.10-10.13.4.1614" ∅) "forge-1.7.10-10.13.4.1614" eq_refl)))
    [""] "-1.7.10" ["-1710ls"; "-new"] "legacy installer" eq_refl Hfirst eq_refl).
Defined.

(** ** Reading and writing the members of a document *)

Lemma assoc_store_eq (k : string) (v : json) (members : list (string * json)) :
  Py.assoc k (Py.store k v members) = Some v.
Proof.
  induction members as [|[k' v'] rest IH]; simpl.
  - now rewrite String.eqb_refl.
  - destruct (String.eqb k' k) eqn:E; simpl.
    + now rewrite String.eqb_refl.
    + now rewrite E.
Qed.

Lemma assoc_remove_ne (k k0 : string) (members : list (string * json)) :
  k0 <> k -> Py.assoc k0 (Py.remove k members) = Py.assoc k0 members.
Proof.
  intros Hne. assert (Hkk : String.eqb k k0 = false) by (apply String.eqb_neq; congruence).
  induction members as [|[k' v'] rest IH]; simpl; [reflexivity|].
  destruct (String.eqb k' k) eqn:E; simpl.
  - apply String.eqb_eq in E as ->. now rewrite Hkk.
  - now rewrite IH.
Qed.

Lemma assoc_store_ne (k k0 : string) (v : json) (members : list (string * json)) :
  k0 <> k -> Py.assoc k0 (Py.store k v members) = Py.assoc k0 members.
Proof.
  intros Hne. assert (Hkk : String.eqb k k0 = false) by (apply String.eqb_neq; congruence).
  induction members as [|[k' v'] rest IH]; simpl.
  - now rewrite Hkk.
  - destruct (String.eqb k' k) eqn:E; simpl.
    + apply String.eqb_eq in E as ->. rewrite Hkk.
      now apply assoc_remove_ne.
    + now rewrite IH.
Qed.

Lemma getitem_setitem (d d' : json) (k : string) (v : json) :
  Py.setitem d k v = Ok d' -> Py.getitem d' k = Ok v.
Proof.
  destruct d; try discriminate. intros [= <-].
  simpl. now rewrite assoc_store_eq.
Qed.

Lemma getitem_setitem_ne (d d' : json) (k k0 : string) (v : json) :
  k0 <> k -> Py.setitem d k v = Ok d' -> Py.getitem d' k0 = Py.getitem d k0.
Proof.
  intros Hne. destruct d; try discriminate. intros [= <-].
  simpl. now rewrite assoc_store_ne.
Qed.

(** ** The identifier of the metadata *)

Lemma lift_run `{Core} {A} (r : result A) (w w' : World) (x : result A) :
  lift r w = (w', x) -> w' = w /\ x = r.
Proof. now intros [= <- <-]. Qed.

Lemma read_install_jar_id `{Core} (version_id : string) (install_jar : ZipFile)
    (w w' : World) (meta : json) :
  read_install_jar version_id install_jar w = (w', Ok meta) ->
  Py.getitem meta "id" = Ok (JStr version_id).
Proof.
  unfold read_install_jar. intros Hrun.
  apply bind_ok in Hrun as (w1 & o & _ & Hrun).
  apply bind_ok in Hrun as (w2 & install_profile & _ & Hrun).
  apply bind_ok in Hrun as (w3 & modern & _ & Hrun).
  apply bind_ok in Hrun as (w4 & version_meta & _ & Hrun).
  apply bind_ok in Hrun as (w5 & version_meta' & Hset & Hrun).
  apply lift_run in Hset as [_ Hset]. injection Hrun as _ <-.
  symmetry in Hset. now apply getitem_setitem in Hset.
Qed.

(** C8. Whenever the method, called on the version's own identifier,
    returns a metadata document, whichever of the two profile forms the
    installer had, the ["id"] of that document is the [version_id] of the
    call; the identifier written in the archive is overwritten. *)
Theorem fetch_version_meta_id `{Base} (version_id : string) (w w' : World) (meta : json) :
  version_id = id (self w) ->
  _fetch_version_meta version_id w = (w', Ok meta) ->
  Py.getitem meta "id" = Ok (JStr version_id).
Proof.
  intros -> Hrun. rewrite fetch_own_version in Hrun.
  destruct (find_install_jar _ _) as [[install_jar|]|e]; try discriminate Hrun.
  exact (read_install_jar_id _ _ _ _ _ Hrun).
Qed.

Lemma fetch_version_meta_id_witness :
  (exists w' meta,
      @_fetch_version_meta demo_core demo_base "forge-1.20.1-47.2.0"
        (demo_world "1.20.1-47.2.0" ∅) = (w', Ok meta)
      /\ Py.getitem meta "id" = Ok (JStr "forge-1.20.1-47.2.0"))
  /\ (exists w' meta,
      @_fetch_version_meta demo_core demo_base "forge-1.7.10-10.13.4.1614"
        (demo_world "1.7.10-10.13.4.1614" ∅) = (w', Ok meta)
      /\ Py.getitem meta "id" = Ok (JStr "forge-1.7.10-10.13.4.1614")).
Proof.
  assert (Hrun : forall forge_version,
            let run := @_fetch_version_meta demo_core demo_base ("forge-" +:+ forge_version)
                         (demo_world forge_version ∅) in
            is_Some (match snd run with Ok meta => Some meta | Raise _ => None end) ->
            exists w' meta, run = (w', Ok meta)
              /\ Py.getitem meta "id" = Ok (JStr ("forge-" +:+ forge_version))).
  { intros forge_version run [meta Hmeta].
    exists (fst run), meta.
    assert (Heq : run = (fst run, Ok meta)).
    { destruct run as [w' [meta'|e]]; simpl in *; congruence. }
    split; [exact Heq|].
    exact (@fetch_version_meta_id demo_core demo_base ("forge-" +:+ forge_version)
             (demo_world forge_version ∅) (fst run) meta eq_refl Heq). }
  split.
  - apply (Hrun "1.20.1-47.2.0"). vm_compute. eexists. reflexivity.
  - apply (Hrun "1.7.10-10.13.4.1614"). vm_compute. eexists. reflexivity.
Defined.

Example modern_archive_id_is_overwritten :
  Py.getitem demo_version_json "id" = Ok (JStr "1.20.1-forge-47.2.0").
Proof. reflexivity. Qed.

(** ** The libraries of a modern profile *)

Section Libraries.
Context `{Core}.


(** The extraction assigns no attribute and runs no process. *)
Lemma zip_extract_file_self zf entry_path dst_path (w w' : World) r :
  zip_extract_file zf entry_path dst_path w = (w', r) ->
  self w' = self w /\ calls w' = calls w.
Proof.
  unfold zip_extract_file, bind, makedirs, lift, write_file.
  destruct (call (snd (os_makedirs _ _ _))); [| now intros [= <- _]].
  destruct (zip_open zf entry_path); [| now intros [= <- _]].
  destruct (copyfileobj _ _ _ _) as [|[part|] what]; now intros [= <- _].
Qed.

(** One run of the loop body on an entry that has the four parts. *)
Lemma install_library_run install_jar install_lib lib_name lib_spec lib_artifact url n
    paths w :
  library_entry install_lib lib_name lib_spec lib_artifact url ->
  Py.len url = Ok n ->
  forge_install_libraries (self w) = Some paths ->
  let lib_path := lib_path_in w lib_spec in
  let w1 := recorded lib_name lib_path paths w in
  install_library install_jar install_lib w
  = if (n =? 0)%nat then
      zip_extract_file install_jar (JStr ("maven/" +:+ file_path lib_spec)) lib_path w1
    else
      match DownloadEntry_from_meta lib_artifact lib_path with
      | Returns lib_dl_entry =>
          if needs_download (files w) lib_path (DownloadEntry_size lib_dl_entry)
          then match DownloadList_append lib_dl_entry with
               | Returns _ => (queued lib_dl_entry w1, Ok tt)
               | Throws what => (w1, Raise (Foreign what))
               end
          else (w1, Ok tt)
      | Throws what => (w1, Raise (Foreign what))
      end.
Proof.
  intros (Hname & Hspec & (downloads & Hdownloads & Hartifact) & Hurl) Hlen Hpaths
    lib_path w1.
  unfold install_library, record_library, bind, lift, get_self.
  rewrite Hname, Hspec. cbn [call].
  rewrite Hdownloads, Hartifact, Hpaths. cbn [update_self].
  rewrite Hurl, Hlen. destruct (n =? 0)%nat; [reflexivity|].
  subst w1 lib_path. unfold lib_path_in.
  destruct (DownloadEntry_from_meta lib_artifact _); cbn; [| reflexivity].
  destruct (needs_download _ _ _); [| reflexivity].
  unfold dl_append, bind, lift. now destruct (DownloadList_append _).
Qed.

(** A run of the loop body that ends well was on such an entry. *)
Lemma install_library_ok install_jar install_lib w w' :
  install_library install_jar install_lib w = (w', Ok tt) ->
  exists lib_name lib_spec lib_artifact url n paths,
    library_entry install_lib lib_name lib_spec lib_artifact url
    /\ Py.len url = Ok n
    /\ forge_install_libraries (self w) = Some paths.
Proof.
  unfold install_library. intros Hrun.
  apply bind_ok in Hrun as (w1 & lib_name & Hname & Hrun).
  apply lift_run in Hname as [-> Hname].
  destruct lib_name as [| | |lib_name| |]; try discriminate Hrun.
  apply bind_ok in Hrun as (w1 & lib_spec & Hspec & Hrun).
  apply lift_run in Hspec as [-> Hspec].
  apply bind_ok in Hrun as (w1 & downloads & Hdownloads & Hrun).
  apply lift_run in Hdownloads as [-> Hdownloads].
  apply bind_ok in Hrun as (w1 & lib_artifact & Hartifact & Hrun).
  apply lift_run in Hartifact as [-> Hartifact].
  apply bind_ok in Hrun as (w1 & o & Hself & Hrun).
  injection Hself as <- <-.
  apply bind_ok in Hrun as (w1 & [] & Hrecord & Hrun).
  unfold record_library, bind, get_self in Hrecord.
  destruct (forge_install_libraries (self w)) as [paths|] eqn:Hpaths;
    [| discriminate Hrecord].
  apply bind_ok in Hrun as (w2 & url & Hurl & Hrun).
  apply lift_run in Hurl as [-> Hurl].
  apply bind_ok in Hrun as (w2 & n & Hlen & Hrun).
  apply lift_run in Hlen as [-> Hlen].
  destruct (LibrarySpecifier_from_str lib_name) as [spec|] eqn:Hparse;
    [| discriminate Hspec].
  injection Hspec as ->.
  exists lib_name, spec, lib_artifact, url, n, paths.
  repeat split; try congruence. now exists downloads.
Qed.

(** What a run of the loop body that ends well leaves in the manifest. *)
Lemma install_library_manifest install_jar install_lib w w' :
  install_library install_jar install_lib w = (w', Ok tt) ->
  exists lib_name lib_spec paths,
    Py.getitem install_lib "name" = Ok (JStr lib_name)
    /\ LibrarySpecifier_from_str lib_name = Returns lib_spec
    /\ forge_install_libraries (self w) = Some paths
    /\ forge_install_libraries (self w')
       = Some (<[lib_name := lib_path_in w lib_spec]> paths)
    /\ libraries_dir (self w') = libraries_dir (self w).
Proof.
  intros Hrun.
  destruct (install_library_ok _ _ _ _ Hrun)
    as (lib_name & lib_spec & lib_artifact & url & n & paths & Hentry & Hlen & Hpaths).
  rewrite (install_library_run _ _ _ _ _ _ _ _ _ Hentry Hlen Hpaths) in Hrun.
  exists lib_name, lib_spec, paths.
  destruct Hentry as (Hname & Hspec & _).
  repeat split; try assumption.
  all: destruct (n =? 0)%nat;
    [ apply zip_extract_file_self in Hrun as [-> _]
    | destruct (DownloadEntry_from_meta _ _); [| discriminate Hrun];
      destruct (needs_download _ _ _);
      [ destruct (DownloadList_append _); [| discriminate Hrun] |];
      injection Hrun as <- ];
    reflexivity.
Qed.

End Libraries.

Section Manifest.
Context `{Core}.

Lemma destination_same_dir (w w' : World) (lib_name : string) :
  libraries_dir (self w') = libraries_dir (self w) ->
  destination w' lib_name = destination w lib_name.
Proof. unfold destination, lib_path_in. now intros ->. Qed.

(** The loop over the profile's libraries: afterwards the manifest has
    the destination of every name the loop went through, and what it had
    before for the other names. *)
Lemma install_libraries_manifest install_jar install_libs w w' paths0 :
  for_each (install_library install_jar) install_libs w = (w', Ok tt) ->
  forge_install_libraries (self w) = Some paths0 ->
  libraries_dir (self w') = libraries_dir (self w)
  /\ exists paths,
      forge_install_libraries (self w') = Some paths
      /\ forall lib_name,
          paths !! lib_name
          = if bool_decide (lib_name ∈ library_names install_libs)
            then destination w lib_name
            else paths0 !! lib_name.
Proof.
  revert w paths0. induction install_libs as [|install_lib rest IH]; intros w paths0 Hrun Hpaths.
  - injection Hrun as <-. split; [reflexivity|].
    exists paths0. split; [assumption|]. intros lib_name.
    rewrite bool_decide_eq_false_2; [reflexivity | apply not_elem_of_nil].
  - cbn [for_each] in Hrun.
    apply bind_ok in Hrun as (w1 & [] & Hstep & Hrun).
    destruct (install_library_manifest _ _ _ _ Hstep)
      as (name & spec & paths & Hname & Hspec & Hpaths' & Hpaths1 & Hdir).
    assert (paths = paths0) as -> by congruence.
    destruct (IH _ _ Hrun Hpaths1) as (Hdir' & paths' & Hfinal & Hlookup).
    split; [congruence|].
    exists paths'. split; [assumption|]. intros lib_name.
    rewrite Hlookup, (destination_same_dir _ _ _ Hdir).
    assert (Hnames : library_names (install_lib :: rest) = name :: library_names rest).
    { unfold library_names. cbn [omap list_omap]. unfold library_name at 1.
      now rewrite Hname. }
    rewrite Hnames.
    destruct (decide (lib_name ∈ library_names rest)) as [Hin | Hout].
    + rewrite !bool_decide_eq_true_2; [reflexivity | now right | assumption].
    + rewrite (bool_decide_eq_false_2 _ Hout).
      destruct (decide (lib_name = name)) as [-> | Hne].
      * rewrite bool_decide_eq_true_2 by now left.
        rewrite lookup_insert_eq. unfold destination. now rewrite Hspec.
      * rewrite bool_decide_eq_false_2.
        -- now rewrite lookup_insert_ne by congruence.
        -- intros Hin. apply elem_of_cons in Hin as [?|?]; contradiction.
Qed.

Lemma record_data_keeps item w w' :
  record_data item w = (w', Ok tt) ->
  forge_install_libraries (self w') = forge_install_libraries (self w)
  /\ libraries_dir (self w') = libraries_dir (self w).
Proof.
  unfold record_data. intros Hrun.
  apply bind_ok in Hrun as (w1 & client & Hclient & Hrun).
  apply lift_run in Hclient as [-> _].
  unfold bind, get_self in Hrun.
  destruct (forge_install_data (self w)); [| discriminate Hrun].
  now injection Hrun as <-.
Qed.

Lemma record_all_data_keeps data w w' :
  for_each record_data data w = (w', Ok tt) ->
  forge_install_libraries (self w') = forge_install_libraries (self w)
  /\ libraries_dir (self w') = libraries_dir (self w).
Proof.
  revert w. induction data as [|item rest IH]; intros w Hrun.
  - now injection Hrun as <-.
  - cbn [for_each] in Hrun.
    apply bind_ok in Hrun as (w1 & [] & Hstep & Hrun).
    apply record_data_keeps in Hstep as [Hlibs Hdir].
    apply IH in Hrun as [Hlibs' Hdir']. split; congruence.
Qed.

(** The modern branch: the manifest it leaves is made from the names of
    the profile's own libraries. *)
Lemma fetch_modern_manifest install_jar install_profile install_libs w w' meta :
  fetch_modern install_jar install_profile w = (w', Ok meta) ->
  profile_libraries install_profile = Ok install_libs ->
  exists paths,
    forge_install_libraries (self w') = Some paths
    /\ forall lib_name,
        paths !! lib_name
        = if bool_decide (lib_name ∈ library_names install_libs)
          then destination w lib_name
          else None.
Proof.
  unfold fetch_modern, profile_libraries. intros Hrun Hlibs.
  apply bind_ok in Hrun as (w1 & json_entry & Hstep & Hrun).
  apply lift_run in Hstep as [-> _].
  apply bind_ok in Hrun as (w1 & entry & Hstep & Hrun).
  apply lift_run in Hstep as [-> _].
  apply bind_ok in Hrun as (w1 & fp & Hstep & Hrun).
  apply lift_run in Hstep as [-> _].
  apply bind_ok in Hrun as (w1 & version_meta & Hstep & Hrun).
  apply lift_run in Hstep as [-> _].
  apply bind_ok in Hrun as (w1 & version_libraries & Hstep & Hrun).
  apply lift_run in Hstep as [-> _].
  apply bind_ok in Hrun as (w1 & [] & Hstep & Hrun).
  injection Hstep as <-.
  apply bind_ok in Hrun as (w1 & processors & Hstep & Hrun).
  apply lift_run in Hstep as [-> _].
  apply bind_ok in Hrun as (w1 & [] & Hstep & Hrun).
  injection Hstep as <-.
  apply bind_ok in Hrun as (w1 & [] & Hstep & Hrun).
  injection Hstep as <-.
  apply bind_ok in Hrun as (w1 & [] & Hstep & Hrun).
  injection Hstep as <-.
  apply bind_ok in Hrun as (w1 & libraries & Hstep & Hrun).
  apply lift_run in Hstep as [-> Hlibraries].
  apply bind_ok in Hrun as (w1 & libs & Hstep & Hrun).
  apply lift_run in Hstep as [-> Hiter].
  rewrite <- Hlibraries, <- Hiter in Hlibs. injection Hlibs as ->.
  apply bind_ok in Hrun as (w1 & [] & Hloop & Hrun).
  apply bind_ok in Hrun as (w2 & data & Hstep & Hrun).
  apply lift_run in Hstep as [-> _].
  apply bind_ok in Hrun as (w2 & data_items & Hstep & Hrun).
  apply lift_run in Hstep as [-> _].
  apply bind_ok in Hrun as (w2 & [] & Hdata & Hrun).
  injection Hrun as <- _.
  apply install_libraries_manifest with (paths0 := ∅) in Hloop; [| reflexivity].
  destruct Hloop as (Hdir & paths & Hpaths & Hlookup).
  apply record_all_data_keeps in Hdata as [Hkept _].
  exists paths. split; [congruence|]. intros lib_name.
  rewrite Hlookup, lookup_empty. reflexivity.
Qed.

(** The test of line 200, in words. *)
Lemma needs_download_spec fs lib_path size :
  needs_download fs lib_path size = true
  <-> (fs !! lib_path = None
       \/ exists n, size = Some n /\ getsize fs lib_path <> n).
Proof.
  unfold needs_download, isfile. rewrite orb_true_iff, negb_true_iff.
  rewrite bool_decide_eq_false, <- eq_None_not_Some.
  split; (intros [Hgone | Hsize]; [now left | right]).
  - destruct size as [n|]; [| discriminate Hsize].
    exists n. split; [reflexivity|]. now apply negb_true_iff, Z.eqb_neq in Hsize.
  - destruct Hsize as (n & -> & Hne). now apply negb_true_iff, Z.eqb_neq.
Qed.

End Manifest.

Example demo_library_remote_entry :
  library_entry (H := demo_core) demo_library_remote
    "net.minecraftforge:binarypatcher:1.1.1" "net.minecraftforge:binarypatcher:1.1.1"
    (JObj [("url", JStr "https://maven.minecraftforge.net/binarypatcher-1.1.1.jar");
           ("size", JInt 5)])
    (JStr "https://maven.minecraftforge.net/binarypatcher-1.1.1.jar").
Proof. repeat split. eexists. split; reflexivity. Qed.


(** The whole method on a disk that already has the library: it ends well
    and [self.dl] stays empty. *)
Example fetch_skips_library_on_disk :
  let run := @_fetch_version_meta demo_core demo_base "forge-1.20.1-47.2.0"
               (demo_world "1.20.1-47.2.0" demo_files_present) in
  (exists meta, snd run = Ok meta) /\ dl (self (fst run)) = [].
Proof. vm_compute. split; [eexists; reflexivity | reflexivity]. Qed.




Example demo_library_ftp_entry :
  library_entry (H := demo_core) demo_library_ftp
    "net.minecraftforge:installertools:1.3.0" "net.minecraftforge:installertools:1.3.0"
    (JObj [("url", JStr "ftp://files.minecraftforge.net/installertools-1.3.0.jar");
           ("size", JInt 7)])
    (JStr "ftp://files.minecraftforge.net/installertools-1.3.0.jar").
Proof. repeat split. eexists. split; reflexivity. Qed.

(** C9, as the sentence reads: refuted.  The library has a URL, of a
    scheme the download list does not fetch, and is not on disk: the test
    of line 200 holds, the list refuses the entry, and [self.dl] stays
    empty. *)
Lemma remote_library_queued_by_disk_fails : ~ remote_library_queued_by_disk.
Proof.
  intros Hall.
  pose (w := demo_world_in_loop ∅).
  pose (lib_dl_entry :=
          {| entry_url := "ftp://files.minecraftforge.net/installertools-1.3.0.jar";
             entry_dst := "/libs/net.minecraftforge:installertools:1.3.0.jar";
             entry_size := Some 7%Z |} : @DownloadEntry demo_core).
  pose (lib_spec := "net.minecraftforge:installertools:1.3.0" : @LibrarySpecifier demo_core).
  pose (url := JStr "ftp://files.minecraftforge.net/installertools-1.3.0.jar").
  pose (lib_artifact := JObj [("url", url); ("size", JInt 7)]).
  assert (Hentry : library_entry demo_library_ftp
                     "net.minecraftforge:installertools:1.3.0" lib_spec lib_artifact url)
    by exact demo_library_ftp_entry.
  assert (Hmeta : DownloadEntry_from_meta lib_artifact (lib_path_in w lib_spec)
                  = Returns lib_dl_entry) by reflexivity.
  assert (Hneeds : needs_download (files w) (lib_path_in w lib_spec)
                     (DownloadEntry_size lib_dl_entry) = true)
    by (vm_compute; reflexivity).
  pose proof (install_library_run demo_modern_jar demo_library_ftp _ lib_spec
                lib_artifact url 55 ∅ w Hentry eq_refl eq_refl) as Hrun.
  cbv zeta in Hrun. cbn [Nat.eqb] in Hrun. rewrite Hmeta, Hneeds in Hrun.
  change (DownloadList_append lib_dl_entry) with (@Throws unit "ValueError") in Hrun.
  pose proof (proj2 (Hall demo_core demo_modern_jar demo_library_ftp _ lib_spec lib_artifact
                       url 55 ∅ lib_dl_entry w _ _
                       Hentry eq_refl ltac:(discriminate) eq_refl Hmeta Hrun) Hneeds)
    as Hqueued.
  discriminate Hqueued.
Qed.

(** C9, amended.  For a library of the modern profile whose URL is not
    empty, the loop body hands its download entry to the download list if
    and only if there is no file at the destination, or the entry declares
    a size and the file on disk has another size.  The list then takes the
    entry, which is put at the end of [self.dl], or refuses it: its error
    comes out of the loop body and [self.dl] is as it was.  A library whose
    file is there with the declared size is skipped: the loop body ends
    well and leaves [self.dl] as it was. *)
Theorem remote_library_queued_iff `{Core} install_jar install_lib lib_name lib_spec
    lib_artifact url n paths lib_dl_entry (w : World) :
  library_entry install_lib lib_name lib_spec lib_artifact url ->
  Py.len url = Ok n ->
  n <> 0 ->
  forge_install_libraries (self w) = Some paths ->
  DownloadEntry_from_meta lib_artifact (lib_path_in w lib_spec) = Returns lib_dl_entry ->
  let lib_path := lib_path_in w lib_spec in
  let missing_or_resized :=
    files w !! lib_path = None
    \/ exists size, DownloadEntry_size lib_dl_entry = Some size
                    /\ getsize (files w) lib_path <> size in
  exists w' outcome,
    install_library install_jar install_lib w = (w', outcome)
    /\ (missing_or_resized ->
        match DownloadList_append lib_dl_entry with
        | Returns _ => outcome = Ok tt /\ dl (self w') = dl (self w) ++ [lib_dl_entry]
        | Throws what => outcome = Raise (Foreign what) /\ dl (self w') = dl (self w)
        end)
    /\ (~ missing_or_resized -> outcome = Ok tt /\ dl (self w') = dl (self w))
    /\ (is_Some (files w !! lib_path) ->
        DownloadEntry_size lib_dl_entry = Some (getsize (files w) lib_path) ->
        outcome = Ok tt /\ dl (self w') = dl (self w)).
Proof.
  intros Hentry Hlen Hn Hpaths Hmeta lib_path missing_or_resized.
  pose proof (install_library_run install_jar _ _ _ _ _ _ _ _ Hentry Hlen Hpaths) as Hrun.
  cbv zeta in Hrun. apply Nat.eqb_neq in Hn. rewrite Hn, Hmeta in Hrun.
  pose proof (needs_download_spec (files w) lib_path (DownloadEntry_size lib_dl_entry))
    as Hspec.
  fold lib_path in Hrun.
  assert (Hskip : ~ missing_or_resized ->
                  needs_download (files w) lib_path (DownloadEntry_size lib_dl_entry) = false).
  { intros Hnot. destruct (needs_download _ _ _); [| reflexivity].
    exfalso. apply Hnot, Hspec. reflexivity. }
  destruct (needs_download (files w) lib_path (DownloadEntry_size lib_dl_entry)) eqn:Hneeds.
  - assert (Hyes : missing_or_resized) by now apply Hspec.
    assert (Hthere : is_Some (files w !! lib_path) ->
                     DownloadEntry_size lib_dl_entry <> Some (getsize (files w) lib_path)).
    { intros [content Hfile] Hsize.
      destruct Hyes as [Hgone | (size & Hdeclared & Hne)]; [congruence|].
      apply Hne. congruence. }
    destruct (DownloadList_append lib_dl_entry) as [[]|what];
      (do 2 eexists; split; [exact Hrun|]; split; [|split]).
    all: try (intros _; now split).
    all: try (intros Hnot; apply Hskip in Hnot; discriminate Hnot).
    all: intros Hfile Hsize; now destruct (Hthere Hfile).
  - do 2 eexists. split; [exact Hrun|]. split; [|split].
    + intros Hyes. apply Hspec in Hyes. discriminate Hyes.
    + intros _. now split.
    + intros _ _. now split.
Qed.

(** The demo library is on disk with its five bytes: skipped. *)
Lemma remote_library_queued_iff_witness :
  exists w',
    @install_library demo_core demo_modern_jar demo_library_remote
      (demo_world_in_loop demo_files_present) = (w', Ok tt)
    /\ dl (self w') = [].
Proof.
  destruct (@remote_library_queued_iff demo_core demo_modern_jar demo_library_remote
              _ _ _ _ 56 ∅
              {| entry_url := "https://maven.minecraftforge.net/binarypatcher-1.1.1.jar";
                 entry_dst := "/libs/net.minecraftforge:binarypatcher:1.1.1.jar";
                 entry_size := Some 5%Z |}
              (demo_world_in_loop demo_files_present) demo_library_remote_entry
              eq_refl ltac:(discriminate) eq_refl eq_refl)
    as (w' & outcome & Hrun & _ & _ & Hskip).
  destruct Hskip as [-> Hdl];
    [vm_compute; eexists; reflexivity | vm_compute; reflexivity |].
  exists w'. split; [exact Hrun | exact Hdl].
Defined.

(** ** The libraries handed to the generic preparation *)

Section PrepareLibraries.
Context `{Base}.

Lemma libraries_with_downloads_objects (libs : list json) :
  Forall is_object libs ->
  libraries_with_downloads libs = Ok (List.filter has_downloads libs).
Proof.
  induction 1 as [|lib rest Hobject _ IH]; [reflexivity|].
  destruct lib; try contradiction.
  cbn [libraries_with_downloads Py.get List.filter has_downloads].
  rewrite IH. now destruct (Py.truthy _).
Qed.

(** The filter on a metadata whose libraries are a list of objects. *)
Lemma filter_version_libraries_run paths libs (w : World) :
  forge_install_libraries (self w) = Some paths ->
  Py.getitem (version_meta (self w)) "libraries" = Ok (JArr libs) ->
  Forall is_object libs ->
  exists meta,
    Py.setitem (version_meta (self w)) "libraries" (JArr (List.filter has_downloads libs))
      = Ok meta
    /\ filter_version_libraries w = (with_self (set_version_meta meta) w, Ok tt).
Proof.
  intros Hpaths Hlibs Hobjects.
  unfold filter_version_libraries, bind, get_self, lift. rewrite Hpaths, Hlibs.
  cbn [Py.iter]. rewrite (libraries_with_downloads_objects _ Hobjects).
  destruct (version_meta (self w)) as [| | | | |members] eqn:Hmeta; try discriminate Hlibs.
  eexists. split; reflexivity.
Qed.

End PrepareLibraries.

Example filter_drops_empty_downloads :
  exists w',
    @filter_version_libraries demo_core demo_world_installed = (w', Ok tt)
    /\ Py.getitem (version_meta (self w')) "libraries" = Ok (JArr [demo_library_remote]).
Proof. eexists. split; reflexivity. Qed.

(** C4, as the sentence reads: refuted.  A library whose ["downloads"] is
    an empty object has the key, and the filter drops it. *)
Lemma libraries_filtered_by_key_fails : ~ libraries_filtered_by_key.
Proof.
  intros Hall.
  destruct (Hall demo_core demo_base ∅ [demo_library_no_url; demo_library_remote]
              demo_world_installed eq_refl eq_refl)
    as (w' & Hrun & Hlibs).
  { repeat constructor. }
  injection Hrun as <-. discriminate Hlibs.
Qed.

(** C4, amended.  With a library manifest ([forge_install_libraries] is
    not [None]) and a metadata whose ["libraries"] is a list of objects,
    [prepare_libraries] replaces that list, before it calls the method of
    the base class, by the entries whose ["downloads"] value counts as
    true (it is there and is neither [null] nor empty), in their order;
    the other keys of the metadata stay.  Without a manifest the base
    method is called on the world as it is. *)
Theorem prepare_libraries_filter `{Base} (predicate : option Predicate) (w : World) :
  (forall paths libs,
      forge_install_libraries (self w) = Some paths ->
      Py.getitem (version_meta (self w)) "libraries" = Ok (JArr libs) ->
      Forall is_object libs ->
      exists meta,
        prepare_libraries predicate w
        = super (super_prepare_libraries predicate) (with_self (set_version_meta meta) w)
        /\ Py.getitem meta "libraries" = Ok (JArr (List.filter has_downloads libs))
        /\ forall key, key <> "libraries" ->
             Py.getitem meta key = Py.getitem (version_meta (self w)) key)
  /\ (forge_install_libraries (self w) = None ->
      prepare_libraries predicate w = super (super_prepare_libraries predicate) w).
Proof.
  split.
  - intros paths libs Hpaths Hlibs Hobjects.
    destruct (filter_version_libraries_run _ _ _ Hpaths Hlibs Hobjects) as (meta & Hset & Hrun).
    exists meta. repeat split.
    + unfold prepare_libraries. now rewrite (bind_step _ _ _ _ _ Hrun).
    + exact (getitem_setitem _ _ _ _ Hset).
    + intros key Hkey. exact (getitem_setitem_ne _ _ _ _ _ Hkey Hset).
  - intros Hnone. unfold prepare_libraries, filter_version_libraries.
    unfold bind at 1 2, get_self. now rewrite Hnone.
Qed.

Lemma prepare_libraries_filter_witness :
  exists meta,
    @prepare_libraries demo_core demo_base None demo_world_installed
    = (with_self (set_version_meta meta) demo_world_installed, Ok tt)
    /\ Py.getitem meta "libraries" = Ok (JArr [demo_library_remote]).
Proof.
  destruct (proj1 (@prepare_libraries_filter demo_core demo_base None demo_world_installed)
              ∅ [demo_library_no_url; demo_library_remote] eq_refl eq_refl)
    as (meta & Hrun & Hlibs & _).
  { repeat constructor. }
  exists meta. split; [exact Hrun | exact Hlibs].
Defined.

(** ** The arguments of a processor *)

Lemma last_nonempty (c : ascii) (s : string) : exists d, Str.last (String c s) = Ok d.
Proof.
  revert c. induction s as [|a s IH]; intros c.
  - now exists c.
  - destruct (IH a) as [d Hd]. exists d. exact Hd.
Qed.

Lemma last_inv (s : string) (c : ascii) :
  Str.last s = Ok c -> exists a, s = a +:+ String c "".
Proof.
  induction s as [|d s IH]; [discriminate|].
  destruct s as [|e s].
  - intros [= ->]. now exists "".
  - intros Hlast. destruct (IH Hlast) as [a Ha].
    exists (String d a). now rewrite append_cons, <- Ha.
Qed.

Section ProcessorArguments.
Context `{Core}.

(** The test holds on a name between brackets, and what is between the
    brackets is the name. *)
Lemma is_lib_ref_bracket (name : string) : is_lib_ref ("[" +:+ name +:+ "]") = Ok true.
Proof.
  unfold is_lib_ref. rewrite append_cons. cbn [Str.first Ascii.eqb Bool.eqb].
  change (String "[" ("" +:+ name +:+ "]")) with (("[" +:+ name) +:+ String "]" "").
  now rewrite last_append.
Qed.

Lemma inner_bracket (name : string) : Str.inner ("[" +:+ name +:+ "]") = name.
Proof.
  unfold Str.inner. change (Str.drop 1 ("[" +:+ name +:+ "]")) with (name +:+ "]").
  apply (drop_last_append name "]").
Qed.

(** The test holds on nothing else. *)
Lemma is_lib_ref_true (txt : string) :
  is_lib_ref txt = Ok true -> exists name, txt = "[" +:+ name +:+ "]".
Proof.
  unfold is_lib_ref. destruct txt as [|c rest]; [discriminate|].
  cbn [Str.first]. destruct (Ascii.eqb_spec c "[") as [-> | _]; [| discriminate].
  destruct (Str.last (String "[" rest)) as [d|e] eqn:Hlast; [| discriminate].
  intros [= Hd]. apply Ascii.eqb_eq in Hd as ->.
  destruct rest as [|c rest]; [discriminate Hlast|].
  change (Str.last (String "[" (String c rest))) with (Str.last (String c rest)) in Hlast.
  destruct (last_inv _ _ Hlast) as [name ->]. now exists name.
Qed.

Lemma is_lib_ref_nonempty (txt : string) :
  txt <> "" -> exists b, is_lib_ref txt = Ok b.
Proof.
  destruct txt as [|c rest]; [contradiction|]. intros _.
  unfold is_lib_ref. cbn [Str.first].
  destruct (last_nonempty c rest) as [d ->].
  destruct (Ascii.eqb c "["); eauto.
Qed.

(** A template between brackets is the path of the library, with no
    call of [replace_vars]. *)
Lemma replace_install_vars_bracket paths data (name : string) :
  replace_install_vars paths data ("[" +:+ name +:+ "]")
  = match paths !! name with
    | Some lib_path => Ok lib_path
    | None => Raise (KeyError (JStr name))
    end.
Proof.
  unfold replace_install_vars.
  now rewrite is_lib_ref_bracket, inner_bracket.
Qed.

(** A template that is not empty and not between brackets goes through
    [replace_vars]. *)
Lemma replace_install_vars_plain paths data (txt : string) :
  txt <> "" ->
  (forall name, txt <> "[" +:+ name +:+ "]") ->
  replace_install_vars paths data txt = substitute data (JStr txt).
Proof.
  intros Hnonempty Hplain. unfold replace_install_vars.
  destruct (is_lib_ref_nonempty _ Hnonempty) as [[|] Href]; rewrite Href.
  - destruct (is_lib_ref_true _ Href) as [name ->]. now destruct (Hplain name).
  - reflexivity.
Qed.

End ProcessorArguments.

Example replace_install_vars_foo :
  replace_install_vars (H := demo_core) (<["foo" := "/libs/foo.jar"]> ∅) (Present ∅)
    "[foo]"
  = Ok "/libs/foo.jar".
Proof.
  rewrite (replace_install_vars_bracket (H := demo_core) _ _ "foo").
  vm_compute. reflexivity.
Qed.

(** C5, at the template the code misses.  The empty template is not of the
    form [[name]], so the sentence sends it through [replace_vars]; the
    function raises [IndexError] on it, whatever the manifest and the
    data, which is nothing [replace_vars] gives or raises. *)
Theorem replace_install_vars_empty `{Core} (paths : gmap string string)
    (data : attr (gmap string json)) :
  (forall name, "" <> "[" +:+ name +:+ "]")
  /\ replace_install_vars paths data "" = Raise IndexError
  /\ (forall replacements,
        replace_install_vars paths data "" <> call (replace_vars (JStr "") replacements)).
Proof.
  repeat split; try (intros; discriminate).
  intros replacements. cbn. destruct (replace_vars _ _); discriminate.
Qed.

(** C10.  The bracket test reads [txt[0]] and [txt[-1]] with no test of
    the length.  On a template that is not empty it gives a truth value,
    and the function goes to the manifest or to [replace_vars] (with the
    install data, when the object has them) by it; on the empty template
    the test raises [IndexError] and so does the function, which returns
    no value. *)
Theorem replace_install_vars_nonempty `{Core} (paths : gmap string string)
    (data : attr (gmap string json)) (txt : string) :
  (txt <> "" ->
   exists b, is_lib_ref txt = Ok b
     /\ replace_install_vars paths data txt
        = if b then lib_path_of paths (JStr (Str.inner txt))
          else match data with
               | Present replacements => call (replace_vars (JStr txt) replacements)
               | Absent => Raise AttributeError
               end)
  /\ (txt = "" ->
      is_lib_ref txt = Raise IndexError
      /\ replace_install_vars paths data txt = Raise IndexError
      /\ forall value, replace_install_vars paths data txt <> Ok value).
Proof.
  split.
  - intros Hnonempty. destruct (is_lib_ref_nonempty _ Hnonempty) as [b Href].
    exists b. split; [assumption|]. unfold replace_install_vars. rewrite Href.
    destruct b; [reflexivity|]. now destruct data.
  - intros ->. repeat split. discriminate.
Qed.

Lemma replace_install_vars_nonempty_witness :
  (exists b, is_lib_ref "--clean" = Ok b
     /\ replace_install_vars (H := demo_core) ∅ (Present ∅) "--clean"
        = if b then lib_path_of ∅ (JStr (Str.inner "--clean"))
          else call (replace_vars (Core := demo_core) (JStr "--clean") ∅))
  /\ replace_install_vars (H := demo_core) ∅ (Present ∅) "" = Raise IndexError.
Proof.
  split.
  - apply (proj1 (replace_install_vars_nonempty (H := demo_core) ∅ (Present ∅) "--clean")).
    discriminate.
  - apply (proj2 (replace_install_vars_nonempty (H := demo_core) ∅ (Present ∅) "")).
    reflexivity.
Defined.

(** ** Relations a method keeps *)

Section KeepingLemmas.
Context `{Core}.
Context (R : World -> World -> Prop) `{!Reflexive R} `{!Transitive R}.

Lemma keeps_bind {A B} (m : M A) (k : A -> M B) :
  keeps R m -> (forall a, keeps R (k a)) -> keeps R (bind m k).
Proof.
  intros [Hm] Hk. split. intros w w' r. unfold bind.
  destruct (m w) as [w1 [a|e]] eqn:Hrun.
  - intros Hrest. etransitivity; [exact (Hm _ _ _ Hrun) | exact (kept _ _ (Hk a) _ _ _ Hrest)].
  - intros [= <- <-]. exact (Hm _ _ _ Hrun).
Qed.

Lemma keeps_lift {A} (r : result A) : keeps R (lift r).
Proof. split. intros w w' x [= <- <-]. reflexivity. Qed.

Lemma keeps_ret {A} (a : A) : keeps R (ret a).
Proof. split. intros w w' x [= <- <-]. reflexivity. Qed.

Lemma keeps_raise {A} (e : exn) : keeps R (raise (A := A) e).
Proof. split. intros w w' x [= <- <-]. reflexivity. Qed.

Lemma keeps_get_self : keeps R get_self.
Proof. split. intros w w' x [= <- <-]. reflexivity. Qed.

Lemma keeps_get_files : keeps R get_files.
Proof. split. intros w w' x [= <- <-]. reflexivity. Qed.

Lemma keeps_update_self f : (forall w, R w (with_self f w)) -> keeps R (update_self f).
Proof. intros Hf. split. intros w w' x [= <- <-]. apply Hf. Qed.

Lemma keeps_write_file dst content :
  (forall part w, R w (with_file dst part w)) -> keeps R (write_file dst content).
Proof.
  intros Hf. split. intros w w' x. unfold write_file.
  destruct (copyfileobj _ _ _ _) as [|[part|] what]; intros [= <- <-];
    first [apply Hf | reflexivity].
Qed.

Lemma keeps_makedirs d :
  (forall ds w, R w (with_dirs ds w)) -> keeps R (makedirs d).
Proof. intros Hf. split. intros w w' x [= <- <-]. apply Hf. Qed.

Lemma keeps_subprocess_run all_args :
  (forall w, R w (with_call all_args w)) -> keeps R (subprocess_run all_args).
Proof. intros Hf. split. intros w w' x [= <- <-]. apply Hf. Qed.

Lemma keeps_for_each {A} (body : A -> M unit) (xs : list A) :
  (forall x, keeps R (body x)) -> keeps R (for_each body xs).
Proof.
  intros Hbody. induction xs as [|x xs IH]; cbn [for_each].
  - apply keeps_ret.
  - apply keeps_bind; [apply Hbody | intros _; exact IH].
Qed.

End KeepingLemmas.

(** Goes through the binds and the branches of a method body. *)
Ltac keeping :=
  repeat first
    [ refine (keeps_lift _ _)
    | refine (keeps_ret _ _)
    | refine (keeps_raise _ _)
    | refine (keeps_get_self _)
    | refine (keeps_get_files _)
    | refine (keeps_bind _ _ _ _ _); [| intros ?]
    | refine (keeps_for_each _ _ _ _); intros ?
    | match goal with
      | |- keeps _ (match ?x with _ => _ end) => destruct x
      end ].

Section Grown.
Context `{Core}.

#[local] Instance grown_refl : Reflexive grown.
Proof. intros w. split; try reflexivity. auto. Qed.

#[local] Instance grown_trans : Transitive grown.
Proof.
  intros w1 w2 w3 [] []. split; try congruence.
  - etransitivity; eassumption.
  - auto.
Qed.

Lemma grown_with_file dst content (w : World) : grown w (with_file dst content w).
Proof.
  split; try reflexivity. intros p Hfile. cbn [files with_file].
  destruct (decide (dst = p)) as [-> | Hne].
  - rewrite lookup_insert_eq. eauto.
  - now rewrite lookup_insert_ne.
Qed.

Lemma grown_update_self f :
  (forall o,
      id (f o) = id o /\ forge_version (f o) = forge_version o
      /\ libraries_dir (f o) = libraries_dir o /\ jvm_exec (f o) = jvm_exec o
      /\ version_meta (f o) = version_meta o
      /\ install_lib_paths (f o) = install_lib_paths o
      /\ install_processors (f o) = install_processors o
      /\ install_data (f o) = install_data o
      /\ dl o `prefix_of` dl (f o)) ->
  keeps grown (update_self f).
Proof.
  intros Hf. apply keeps_update_self. intros w.
  destruct (Hf (self w)) as (? & ? & ? & ? & ? & ? & ? & ? & ?).
  split; cbn [self with_self files calls]; auto.
Qed.

Lemma grown_with_dirs ds (w : World) : grown w (with_dirs ds w).
Proof. split; try reflexivity. auto. Qed.

Lemma grown_makedirs d : keeps grown (makedirs d).
Proof. apply keeps_makedirs. intros ds w. apply grown_with_dirs. Qed.

Lemma grown_write_file dst content : keeps grown (write_file dst content).
Proof. apply keeps_write_file; [exact _ | intros part w; apply grown_with_file]. Qed.

Lemma grown_assign f :
  (forall o, set_forge_install_libraries (forge_install_libraries (f o))
               (set_forge_install_processors (forge_install_processors (f o))
                  (set_forge_install_data (forge_install_data (f o))
                     (set_forge_install_version_libraries
                        (forge_install_version_libraries (f o)) o))) = f o) ->
  keeps grown (update_self f).
Proof.
  intros Hf. apply grown_update_self. intros o. rewrite <- (Hf o).
  repeat split; reflexivity.
Qed.

Lemma grown_append entry :
  keeps grown (update_self (fun o => set_dl (dl o ++ [entry]) o)).
Proof.
  apply grown_update_self. intros o. repeat split; try reflexivity.
  apply prefix_app_r. reflexivity.
Qed.

(** The steps of the fetch that change the world. *)
Ltac grown_step :=
  first [ apply grown_makedirs | apply grown_write_file | apply grown_append
        | apply grown_assign; intros o; reflexivity ].

Lemma grown_zip_extract_file zf entry_path dst_path :
  keeps grown (zip_extract_file zf entry_path dst_path).
Proof. unfold zip_extract_file. keeping; grown_step. Qed.

Lemma grown_install_library install_jar install_lib :
  keeps grown (install_library install_jar install_lib).
Proof. unfold install_library, record_library, dl_append. keeping; grown_step. Qed.

Lemma grown_record_data item : keeps grown (record_data item).
Proof. unfold record_data. keeping; grown_step. Qed.

Lemma grown_fetch_modern install_jar install_profile :
  keeps grown (fetch_modern install_jar install_profile).
Proof.
  unfold fetch_modern. keeping.
  all: first [ apply grown_install_library | apply grown_record_data | grown_step ].
Qed.

Lemma grown_fetch_legacy install_jar install_profile :
  keeps grown (fetch_legacy install_jar install_profile).
Proof.
  unfold fetch_legacy. keeping.
  all: first [ apply grown_zip_extract_file | grown_step ].
Qed.

Lemma grown_read_install_jar version_id install_jar :
  keeps grown (read_install_jar version_id install_jar).
Proof.
  unfold read_install_jar. keeping.
  all: first [ apply grown_fetch_modern | apply grown_fetch_legacy | grown_step ].
Qed.

End Grown.

(** The method on the version's own identifier, whatever its outcome. *)
Lemma fetch_version_meta_keeps `{Base} (w w' : World) (outcome : result json) :
  _fetch_version_meta (id (self w)) w = (w', outcome) -> grown w w'.
Proof.
  intros Hrun. rewrite fetch_own_version in Hrun.
  destruct (find_install_jar _ _) as [[install_jar|]|e].
  - exact (kept _ _ (grown_read_install_jar _ _) _ _ _ Hrun).
  - injection Hrun as <- _. apply grown_refl.
  - injection Hrun as <- _. apply grown_refl.
Qed.

(** ** The JVM of the processors *)

Section RequiresJvm.
Context `{Base}.

Lemma silent_lib_path_of c paths name : silent_result c (lib_path_of paths name).
Proof.
  intros v. destruct name; try discriminate.
  simpl. destruct (paths !! s); discriminate.
Qed.

Lemma silent_is_lib_ref c txt : silent_result c (is_lib_ref txt).
Proof.
  intros v. unfold is_lib_ref. destruct (Str.first txt) as [a|e] eqn:Hfirst.
  - destruct (Ascii.eqb a "["); [| discriminate].
    destruct (Str.last txt) as [d|e] eqn:Hlast; [discriminate|].
    destruct txt; [discriminate Hfirst|].
    destruct (last_nonempty a0 txt) as [d Hd]. congruence.
  - destruct txt; [| discriminate Hfirst]. injection Hfirst as <-. discriminate.
Qed.

Lemma silent_substitute c data txt : silent_result c (substitute data txt).
Proof.
  unfold substitute. apply silent_and_then; [apply silent_getattr | intros d].
  apply silent_call.
Qed.

Lemma silent_replace_install_vars c paths data txt :
  silent_result c (replace_install_vars paths data txt).
Proof.
  unfold replace_install_vars.
  apply (silent_and_then c (is_lib_ref txt)
           (fun b : bool => if b then lib_path_of paths (JStr (Str.inner txt))
                            else substitute data (JStr txt))).
  - apply silent_is_lib_ref.
  - intros [|]; [apply silent_lib_path_of | apply silent_substitute].
Qed.

Lemma silent_replace_install_arg c paths data arg :
  silent_result c (replace_install_arg paths data arg).
Proof.
  destruct arg as [| | |txt|items|members]; try (intros v; discriminate).
  - apply silent_replace_install_vars.
  - destruct items as [|first rest]; [intros v; discriminate|].
    cbn [replace_install_arg].
    destruct (Py.is_str "[" first && Py.is_str "]" (List.last rest first));
      [intros v; discriminate | apply silent_substitute].
Qed.

Lemma silent_map_result c {A B} (f : A -> result B) (xs : list A) :
  (forall x, silent_result c (f x)) -> silent_result c (map_result f xs).
Proof.
  intros Hf. induction xs as [|x rest IH]; simpl; [discriminate|].
  apply silent_and_then; [apply Hf | intros y].
  apply silent_and_then; [exact IH | discriminate].
Qed.

Lemma silent_run_processor c paths processor : silent c (run_processor paths processor).
Proof.
  unfold run_processor. silence.
  all: first [ apply silent_lib_path_of
             | apply silent_map_result; intros ?;
               first [apply silent_lib_path_of | apply silent_replace_install_arg] ].
Qed.

(** The method after the call of the base method. *)
Lemma prepare_post_after_super (w : World) :
  snd (super_prepare_post w) = Returns tt ->
  prepare_post w
  = (o <- get_self ;;
     paths <- lift (getattr (install_lib_paths o)) ;;
     match paths with
     | Some paths =>
         n <- lift (processors_len o) ;;
         if negb (n =? 0)%nat && bool_decide (jvm_exec o = None)
         then raise (ForgeError REQUIRES_JVM (forge_version o))
         else
           processors <- lift (processors_iter o) ;;
           for_each (run_processor paths) processors
     | None => ret tt
     end) (fst (super_prepare_post w)).
Proof.
  intros Hsuper. unfold prepare_post, bind at 1, super. now rewrite Hsuper.
Qed.

Lemma silent_processors_len c o : silent_result c (processors_len o).
Proof.
  unfold processors_len. apply silent_and_then; [apply silent_getattr | intros d].
  apply silent_len.
Qed.

Lemma silent_processors_iter c o : silent_result c (processors_iter o).
Proof.
  unfold processors_iter. apply silent_and_then; [apply silent_getattr | intros d].
  apply silent_iter.
Qed.

(** The guard of line 256 on an object that was given the attributes
    [prepare_post] reads.  [w1] is the world the base method leaves.  With
    library paths, a processor list that is not empty and no JVM, the
    method raises [ForgeError(REQUIRES_JVM, forge_version)] and runs
    nothing.  With a JVM, or an empty list, no [ForgeError] with that code
    comes out of the method. *)
Lemma prepare_post_guard (w : World) :
  let w1 := fst (super_prepare_post w) in
  (forall paths n,
      snd (super_prepare_post w) = Returns tt ->
      install_lib_paths (self w1) = Present (Some paths) ->
      processors_len (self w1) = Ok n ->
      n <> 0 ->
      jvm_exec (self w1) = None ->
      prepare_post w = (w1, Raise (ForgeError REQUIRES_JVM (forge_version (self w1)))))
  /\ ((exists java, jvm_exec (self w1) = Some java)
      \/ processors_len (self w1) = Ok 0 ->
      forall w' version, prepare_post w <> (w', Raise (ForgeError REQUIRES_JVM version))).
Proof.
  intros w1. split.
  - intros paths n Hsuper Hpaths Hlen Hn Hjvm.
    rewrite (prepare_post_after_super _ Hsuper). fold w1.
    unfold bind, get_self, lift. rewrite Hpaths. cbn [getattr]. rewrite Hlen, Hjvm.
    apply Nat.eqb_neq in Hn as ->. reflexivity.
  - intros Hfine w' version Hrun.
    destruct (snd (super_prepare_post w)) as [[]|what] eqn:Hsuper.
    + rewrite (prepare_post_after_super _ Hsuper) in Hrun. fold w1 in Hrun.
      unfold bind at 1, get_self in Hrun. unfold bind at 1, lift in Hrun.
      destruct (getattr (install_lib_paths (self w1))) as [[paths|]|e] eqn:Hattr;
        [| discriminate Hrun |].
      * unfold bind at 1, lift in Hrun.
        destruct (processors_len (self w1)) as [n|e] eqn:Hlen.
        -- destruct (negb (n =? 0)%nat && bool_decide (jvm_exec (self w1) = None)) eqn:Htest.
           ++ apply andb_true_iff in Htest as [Hn Hjvm].
              apply negb_true_iff, Nat.eqb_neq in Hn. apply bool_decide_eq_true in Hjvm.
              destruct Hfine as [[java Hjava] | Hzero]; congruence.
           ++ revert Hrun.
              apply silent_bind; [apply silent_lift, silent_processors_iter | intros xs].
              apply silent_for_each. intros processor. apply silent_run_processor.
        -- injection Hrun as _ ->. exact (silent_processors_len REQUIRES_JVM _ _ Hlen).
      * injection Hrun as _ ->. exact (silent_getattr REQUIRES_JVM _ _ Hattr).
    + unfold prepare_post, bind at 1, super in Hrun. rewrite Hsuper in Hrun.
      discriminate Hrun.
Qed.

End RequiresJvm.

(** C6, where the code misses it.  [w0] is a version as the constructor
    leaves it: it has no attribute [install_lib_paths].  The install fills
    [forge_install_libraries], [forge_install_processors] and
    [forge_install_data] and leaves the object without that attribute,
    whatever the profile and the outcome ([w1]).  When [prepare_post] is
    called later ([w2]), on an object still without the attribute, the
    test of line 254 raises [AttributeError] as soon as the base method
    has returned: the guard of line 256 is not reached, whatever the
    processors and the JVM are, and [ForgeError(REQUIRES_JVM, ...)] is not
    raised. *)
Theorem prepare_post_requires_jvm `{Base} (w0 w1 w2 : World) (outcome : result json) :
  install_lib_paths (self w0) = Absent ->
  _fetch_version_meta (id (self w0)) w0 = (w1, outcome) ->
  install_lib_paths (self w2) = install_lib_paths (self w1) ->
  snd (super_prepare_post w2) = Returns tt ->
  install_lib_paths (self (fst (super_prepare_post w2))) = install_lib_paths (self w2) ->
  prepare_post w2 = (fst (super_prepare_post w2), Raise AttributeError)
  /\ forall w' version, prepare_post w2 <> (w', Raise (ForgeError REQUIRES_JVM version)).
Proof.
  intros Habsent Hfetch Hbetween Hsuper Hbase.
  apply fetch_version_meta_keeps in Hfetch.
  assert (Hrun : prepare_post w2 = (fst (super_prepare_post w2), Raise AttributeError)).
  { rewrite (prepare_post_after_super _ Hsuper).
    unfold bind, get_self, lift.
    now rewrite Hbase, Hbetween, (grown_install_lib_paths _ _ Hfetch), Habsent. }
  split; [exact Hrun|]. intros w' version. rewrite Hrun. discriminate.
Qed.

(** The constructor leaves the object without the attribute. *)
Example init_install_lib_paths `{Core} dir meta dl0 jvm forge_version prefix :
  install_lib_paths (__init__ dir meta dl0 jvm forge_version prefix) = Absent.
Proof. reflexivity. Qed.

(** A version of forge 1.20.1-47.2.0 is made, with no JVM, and installed
    from the demo archive, whose profile has one processor: the install
    returns a document, and [prepare_post] then raises [AttributeError]. *)
Lemma prepare_post_requires_jvm_witness :
  let w0 := demo_world "1.20.1-47.2.0" ∅ in
  let run := @_fetch_version_meta demo_core demo_base "forge-1.20.1-47.2.0" w0 in
  self w0 = __init__ "/libs" JNull [] None "1.20.1-47.2.0" "forge"
  /\ (exists meta, snd run = Ok meta)
  /\ forge_install_processors (self (fst run)) = Some (JArr [demo_processor])
  /\ jvm_exec (self (fst run)) = None
  /\ @prepare_post demo_core demo_base (fst run) = (fst run, Raise AttributeError).
Proof.
  intros w0 run.
  split; [reflexivity|].
  split; [vm_compute; eexists; reflexivity|].
  split; [vm_compute; reflexivity|].
  split; [vm_compute; reflexivity|].
  generalize (surjective_pairing run). generalize (fst run) (snd run).
  intros w1 outcome Hrun.
  exact (proj1 (@prepare_post_requires_jvm demo_core demo_base w0 w1 w1 outcome
                  eq_refl Hrun eq_refl eq_refl eq_refl)
         : @prepare_post demo_core demo_base w1 = (w1, Raise AttributeError)).
Defined.

Example processor_command_line :
  calls (fst (@prepare_post demo_core demo_base (demo_world_post (Some "/usr/bin/java"))))
  = [["/usr/bin/java"; "-cp"; "/libs/forge.jar"; "-jar"; "/libs/binarypatcher.jar";
      "--clean"; "/libs/forge.jar"]].
Proof. vm_compute. reflexivity. Qed.

(** ** The scan of the maven metadata *)

Lemma startswith_append (p s : string) : Str.startswith (p +:+ s) p = true.
Proof.
  induction p as [|c p IH]; [reflexivity|].
  rewrite append_cons. cbn [Str.startswith]. now rewrite Ascii.eqb_refl, IH.
Qed.

Lemma startswith_length (s p : string) :
  Str.startswith s p = true -> String.length p <= String.length s.
Proof.
  revert s. induction p as [|c p IH]; intros s Hstart; simpl; [lia|].
  destruct s as [|d s]; [discriminate|]. cbn [Str.startswith] in Hstart.
  apply andb_true_iff in Hstart as [_ Hstart]. apply IH in Hstart. simpl. lia.
Qed.

Lemma startswith_inv (s p : string) :
  Str.startswith s p = true -> s = p +:+ Str.drop (String.length p) s.
Proof.
  revert s. induction p as [|c p IH]; intros s Hstart; [reflexivity|].
  destruct s as [|d s]; [discriminate|]. cbn [Str.startswith] in Hstart.
  apply andb_true_iff in Hstart as [Hc Hstart]. apply Ascii.eqb_eq in Hc as ->.
  rewrite append_cons. cbn [String.length Str.drop]. now rewrite <- IH.
Qed.

Lemma startswith_app (s p q : string) :
  Str.startswith s (p +:+ q)
  = Str.startswith s p && Str.startswith (Str.drop (String.length p) s) q.
Proof.
  revert s. induction p as [|c p IH]; intros s; [reflexivity|].
  rewrite append_cons. destruct s as [|d s].
  - reflexivity.
  - cbn [Str.startswith String.length Str.drop]. rewrite IH. now rewrite andb_assoc.
Qed.

Lemma drop_drop (a b : nat) (s : string) : Str.drop a (Str.drop b s) = Str.drop (b + a) s.
Proof.
  revert s. induction b as [|b IH]; intros s; [reflexivity|].
  destruct s as [|c s]; [now destruct a | exact (IH s)].
Qed.

Lemma length_drop (n : nat) (s : string) :
  String.length (Str.drop n s) = String.length s - n.
Proof.
  revert s. induction n as [|n IH]; intros s; simpl; [lia|].
  destruct s as [|c s]; [reflexivity | exact (IH s)].
Qed.

Lemma length_take (n : nat) (s : string) :
  n <= String.length s -> String.length (Str.take n s) = n.
Proof.
  revert s. induction n as [|n IH]; intros s Hn; [reflexivity|].
  destruct s as [|c s]; simpl in *; [lia|]. rewrite IH; lia.
Qed.

Lemma find_at_spec (sub s : string) (i j : nat) :
  find_at sub s i = Some j ->
  exists k, j = i + k /\ k <= String.length s /\ Str.startswith (Str.drop k s) sub = true.
Proof.
  revert i. induction s as [|c s IH]; intros i; cbn [find_at].
  - destruct (Str.startswith "" sub) eqn:Hhere; [| discriminate].
    intros [= <-]. exists 0. split; [lia | split; [simpl; lia | exact Hhere]].
  - destruct (Str.startswith (String c s) sub) eqn:Hhere.
    + intros [= <-]. exists 0. split; [lia | split; [simpl; lia | exact Hhere]].
    + intros Hfind. destruct (IH _ Hfind) as (k & -> & Hk & Hstart).
      exists (S k). split; [lia | split; [simpl; lia | exact Hstart]].
Qed.

(** What [find] found: an occurrence at or after the start, inside the text. *)
Lemma find_spec (sub text : string) (start j : nat) :
  find sub text start = Some j ->
  start <= j
  /\ j + String.length sub <= String.length text
  /\ Str.startswith (Str.drop j text) sub = true.
Proof.
  unfold find. destruct (Nat.leb_spec start (String.length text)) as [Hstart|]; [| discriminate].
  intros Hfind. destruct (find_at_spec _ _ _ _ Hfind) as (k & -> & Hk & Hocc).
  rewrite drop_drop in Hocc. rewrite length_drop in Hk.
  split; [lia | split; [| exact Hocc]].
  apply startswith_length in Hocc. rewrite length_drop in Hocc. lia.
Qed.

Lemma find_at_here (sub s : string) (i : nat) :
  Str.startswith s sub = true -> find_at sub s i = Some i.
Proof. intros Hhere. destruct s; cbn [find_at]; now rewrite Hhere. Qed.

Lemma find_at_none (sub s : string) (i : nat) :
  Str.contains sub s = false -> find_at sub s i = None.
Proof.
  revert i. induction s as [|c s IH]; intros i; cbn [Str.contains find_at];
    intros Hnone; apply orb_false_iff in Hnone as [-> Hrest]; [reflexivity|].
  now apply IH.
Qed.

Lemma contains_drop (p s : string) (k : nat) :
  Str.startswith (Str.drop k s) p = true -> Str.contains p s = true.
Proof.
  revert s. induction k as [|k IH]; intros s Hocc.
  - destruct s; cbn [Str.contains Str.drop] in *; now rewrite Hocc.
  - destruct s as [|c s]; cbn [Str.contains Str.drop] in *.
    + now rewrite Hocc.
    + rewrite (IH _ Hocc). apply orb_true_r.
Qed.

Lemma startswith_before_head (c : ascii) (a p b : string) :
  lacks c p = true ->
  Str.startswith (a +:+ String c b) p = true -> Str.startswith a p = true.
Proof.
  revert p. induction a as [|d a IH]; intros p Hlacks Hstart.
  - destruct p as [|e p]; [reflexivity|]. exfalso.
    rewrite append_empty_l in Hstart. cbn [Str.startswith lacks] in *.
    apply andb_true_iff in Hstart as [He _]. apply andb_true_iff in Hlacks as [Hce _].
    apply Ascii.eqb_eq in He as ->. now rewrite Ascii.eqb_refl in Hce.
  - destruct p as [|e p]; [reflexivity|].
    rewrite append_cons in Hstart. cbn [Str.startswith lacks] in *.
    apply andb_true_iff in Hstart as [-> Hstart]. apply andb_true_iff in Hlacks as [_ Hlacks].
    now rewrite (IH _ Hlacks Hstart).
Qed.

(** A pattern that has its first character only once is found right after
    a stretch of text that does not contain it. *)
Lemma find_at_first (c : ascii) (p junk rest : string) (i : nat) :
  lacks c p = true ->
  Str.contains (String c p) junk = false ->
  find_at (String c p) (junk +:+ String c p +:+ rest) i = Some (i + String.length junk).
Proof.
  intros Hlacks. revert i. induction junk as [|d junk IH]; intros i Hnone.
  - rewrite append_empty_l, (find_at_here _ _ _ (startswith_append _ _)).
    f_equal. simpl. lia.
  - cbn [Str.contains] in Hnone. apply orb_false_iff in Hnone as [Hhere Hnone].
    rewrite append_cons. cbn [find_at].
    destruct (Str.startswith (String d (junk +:+ String c p +:+ rest)) (String c p)) eqn:Hstart.
    + exfalso. cbn [Str.startswith] in Hstart, Hhere.
      apply andb_true_iff in Hstart as [Hcd Hstart].
      rewrite append_cons in Hstart.
      rewrite (startswith_before_head c junk p (p +:+ rest) Hlacks Hstart) in Hhere.
      rewrite Hcd in Hhere. discriminate Hhere.
    + rewrite (IH (S i) Hnone). f_equal. simpl. lia.
Qed.

(** The loop ends when it is given more rounds than the text has
    characters left after [last_idx]. *)
Lemma scan_versions_ends (rounds : nat) (text : string) (last_idx : nat)
    (versions : gset string) :
  String.length text < rounds + last_idx ->
  0 < rounds ->
  exists found, scan_versions rounds text last_idx versions = Done found.
Proof.
  revert last_idx versions. induction rounds as [|rounds IH]; intros last_idx versions Hlen Hpos;
    [lia|].
  cbn [scan_versions].
  destruct (find "<version>" text last_idx) as [start_idx|] eqn:Hstart; [| eauto].
  destruct (find "</version>" text (start_idx + 9)) as [end_idx|] eqn:Hend; [| eauto].
  apply find_spec in Hstart as (Hs & _ & _). apply find_spec in Hend as (He & Hfit & _).
  cbn [String.length] in Hfit. apply IH; lia.
Qed.

(** What the loop adds to the set was found between the two tags. *)
Lemma scan_versions_sound (rounds : nat) (text : string) (last_idx : nat)
    (versions found : gset string) :
  scan_versions rounds text last_idx versions = Done found ->
  forall version,
    version ∈ found ->
    version ∈ versions \/ Str.contains (version_element version) text = true.
Proof.
  revert last_idx versions. induction rounds as [|rounds IH]; intros last_idx versions;
    [discriminate|].
  cbn [scan_versions].
  destruct (find "<version>" text last_idx) as [start_idx|] eqn:Hstart;
    [| intros [= <-]; now left].
  destruct (find "</version>" text (start_idx + 9)) as [end_idx|] eqn:Hend;
    [| intros [= <-]; now left].
  intros Hscan version Hin.
  destruct (IH _ _ Hscan version Hin) as [Hold | Hfound]; [| now right].
  apply elem_of_union in Hold as [Hnew | Hold]; [| now left].
  right. apply elem_of_singleton in Hnew as ->.
  apply find_spec in Hstart as (_ & _ & Hopen). apply find_spec in Hend as (He & Hfit & Hclose).
  apply (contains_drop _ _ start_idx). unfold version_element.
  rewrite startswith_app, Hopen. cbn [andb String.length].
  rewrite drop_drop, startswith_app. unfold slice.
  rewrite length_take by (rewrite length_drop; cbn [String.length] in Hfit; lia).
  rewrite !drop_drop.
  replace (start_idx + 9 + (end_idx - (start_idx + 9))) with end_idx by lia.
  rewrite Hclose, andb_true_r.
  rewrite <- (take_drop (end_idx - (start_idx + 9)) (Str.drop (start_idx + 9) text)) at 1.
  apply startswith_append.
Qed.

(** A document of elements, read from the end of what is before them. *)
Lemma scan_versions_elements (elements : list (string * string)) :
  forall (before between : string) (versions : gset string) (rounds : nat),
    Str.contains "<version>" between = false ->
    Forall (fun element =>
              Str.contains "</version>" (fst element) = false
              /\ Str.contains "<version>" (snd element) = false) elements ->
    length elements < rounds ->
    scan_versions rounds (before +:+ between +:+ version_elements elements)
      (String.length before) versions
    = Done (list_to_set (fst <$> elements) ∪ versions).
Proof.
  induction elements as [|[version after] rest IH];
    intros before between versions rounds Hbetween Helements Hrounds;
    (destruct rounds as [|rounds]; [simpl in Hrounds; lia|]); cbn [scan_versions].
  - unfold find. rewrite length_append, drop_append.
    destruct (Nat.leb_spec (String.length before)
                (String.length before + String.length (between +:+ version_elements [])))
      as [_|]; [| lia].
    cbn [version_elements]. rewrite append_empty_r, (find_at_none _ _ _ Hbetween).
    f_equal. cbn [fmap list_fmap list_to_set]. now rewrite (left_id_L ∅ (∪)).
  - apply Forall_cons in Helements as [[Hversion Hafter] Helements]. cbn [fst snd] in *.
    cbn [version_elements]. unfold version_element.
    assert (Hstart : find "<version>"
                       (before +:+ between +:+ ("<version>" +:+ version +:+ "</version>")
                          +:+ after +:+ version_elements rest)
                       (String.length before)
                     = Some (String.length before + String.length between)).
    { unfold find. rewrite length_append, drop_append.
      destruct (Nat.leb_spec (String.length before)
                  (String.length before
                   + String.length (between +:+ ("<version>" +:+ version +:+ "</version>")
                                      +:+ after +:+ version_elements rest)))
        as [_|]; [| lia].
      rewrite !append_assoc.
      exact (find_at_first "<" "version>" between _ _ eq_refl Hbetween). }
    rewrite Hstart.
    remember (before +:+ between +:+ ("<version>" +:+ version +:+ "</version>")
                +:+ after +:+ version_elements rest) as text eqn:Etext.
    assert (Htext : text = (before +:+ between +:+ "<version>")
                             +:+ version +:+ "</version>" +:+ after +:+ version_elements rest).
    { rewrite Etext. now rewrite !append_assoc. }
    assert (Hopened : String.length (before +:+ between +:+ "<version>")
                      = String.length before + String.length between + 9).
    { rewrite !length_append. simpl. lia. }
    assert (Hend : find "</version>" text (String.length before + String.length between + 9)
                   = Some (String.length before + String.length between + 9
                           + String.length version)).
    { unfold find. rewrite <- Hopened, Htext, drop_append.
      destruct (Nat.leb_spec (String.length (before +:+ between +:+ "<version>"))
                  (String.length ((before +:+ between +:+ "<version>") +:+ version
                                    +:+ "</version>" +:+ after +:+ version_elements rest)))
        as [_|Hbad]; [| rewrite (length_append (before +:+ between +:+ "<version>")) in Hbad; lia].
      exact (find_at_first "<" "/version>" version _ _ eq_refl Hversion). }
    rewrite Hend.
    assert (Hslice : slice text (String.length before + String.length between + 9)
                       (String.length before + String.length between + 9
                        + String.length version)
                     = version).
    { unfold slice. rewrite <- Hopened. rewrite Htext, drop_append.
      replace (String.length (before +:+ between +:+ "<version>") + String.length version
               - String.length (before +:+ between +:+ "<version>"))
        with (String.length version) by lia.
      apply take_append. }
    rewrite Hslice.
    assert (Hnext : text = (before +:+ between +:+ "<version>" +:+ version +:+ "</version>")
                             +:+ after +:+ version_elements rest).
    { rewrite Etext. now rewrite !append_assoc. }
    assert (Hread : String.length before + String.length between + 9 + String.length version + 10
                    = String.length (before +:+ between +:+ "<version>" +:+ version
                                       +:+ "</version>")).
    { rewrite !length_append. simpl. lia. }
    rewrite Hread, Hnext, (IH _ after _ rounds Hafter Helements) by (simpl in Hrounds; lia).
    f_equal. cbn [fmap list_fmap fst list_to_set].
    now rewrite (assoc_L (∪)), (comm_L (∪) _ {[version]}).
Qed.

Lemma version_elements_length (elements : list (string * string)) :
  length elements <= String.length (version_elements elements).
Proof.
  induction elements as [|[version between] rest IH]; [reflexivity|].
  cbn [version_elements length]. unfold version_element.
  rewrite !length_append. cbn [String.length]. lia.
Qed.

(** X1.  [request_maven_versions] answers [None] for a status other than
    200; for status 200 and a body that decodes, the [while True] loop
    comes to an end, whatever the text is, and the function returns a set. *)
Theorem request_maven_versions_returns `{Core} (decode : string -> foreign string) :
  (fst (http_request maven_metadata_url) <> 200%Z ->
   request_maven_versions decode = Ok None)
  /\ (forall raw text,
        http_request maven_metadata_url = (200%Z, raw) ->
        decode raw = Returns text ->
        exists versions, request_maven_versions decode = Ok (Some (Done versions))).
Proof.
  unfold request_maven_versions. split.
  - destruct (http_request maven_metadata_url) as [status raw]. cbn [fst].
    intros Hstatus. now apply Z.eqb_neq in Hstatus as ->.
  - intros raw text -> ->. cbn [Z.eqb Pos.eqb negb call].
    destruct (scan_versions_ends (S (String.length text)) text 0 ∅) as [versions ->];
      [lia | lia |].
    now exists versions.
Qed.

Lemma request_maven_versions_returns_witness :
  exists versions,
    request_maven_versions (H := demo_maven_core) Returns = Ok (Some (Done versions)).
Proof.
  exact (proj2 (request_maven_versions_returns (H := demo_maven_core) Returns)
           demo_maven_xml demo_maven_xml eq_refl eq_refl).
Defined.

(** X2.  Every version the function returns stands in the text between an
    opening and a closing tag: [<version>v</version>] occurs in the body. *)
Theorem request_maven_versions_sound `{Core} (decode : string -> foreign string)
    (raw text : string) (versions : gset string) :
  http_request maven_metadata_url = (200%Z, raw) ->
  decode raw = Returns text ->
  request_maven_versions decode = Ok (Some (Done versions)) ->
  forall version,
    version ∈ versions -> Str.contains (version_element version) text = true.
Proof.
  unfold request_maven_versions. intros -> ->. cbn [Z.eqb Pos.eqb negb call].
  intros Hrun version Hin.
  assert (Hscan : scan_versions (S (String.length text)) text 0 ∅ = Done versions)
    by congruence.
  destruct (scan_versions_sound _ _ _ _ _ Hscan version Hin) as [Hempty | Hfound];
    [| exact Hfound].
  now apply not_elem_of_empty in Hempty.
Qed.

(** X3.  On a body made of some text without ["<version>"] followed by
    version elements, each followed by text without ["<version>"], where no
    version contains ["</version>"], the function returns exactly the set
    of the versions of the elements (none for a body without elements). *)
Theorem request_maven_versions_elements `{Core} (decode : string -> foreign string)
    (raw head : string) (elements : list (string * string)) :
  http_request maven_metadata_url = (200%Z, raw) ->
  decode raw = Returns (head +:+ version_elements elements) ->
  Str.contains "<version>" head = false ->
  Forall (fun element =>
            Str.contains "</version>" (fst element) = false
            /\ Str.contains "<version>" (snd element) = false) elements ->
  request_maven_versions decode = Ok (Some (Done (list_to_set (fst <$> elements)))).
Proof.
  unfold request_maven_versions. intros -> -> Hhead Helements.
  cbn [Z.eqb Pos.eqb negb call]. do 3 f_equal.
  pose proof (scan_versions_elements elements "" head ∅
                (S (String.length (head +:+ version_elements elements)))
                Hhead Helements) as Hscan.
  rewrite append_empty_l in Hscan. cbn [String.length] in Hscan.
  rewrite Hscan.
  - now rewrite (right_id_L ∅ (∪)).
  - pose proof (version_elements_length elements). rewrite length_append. lia.
Qed.

Lemma request_maven_versions_elements_witness :
  request_maven_versions (H := demo_maven_core) Returns
  = Ok (Some (Done (list_to_set ["1.20.1-47.2.0"; "1.7.10-10.13.4.1614"]))).
Proof.
  apply (request_maven_versions_elements (H := demo_maven_core) Returns
           demo_maven_xml "<metadata><versioning><versions>"
           [("1.20.1-47.2.0", " ");
            ("1.7.10-10.13.4.1614", "</versions></versioning></metadata>")]).
  - reflexivity.
  - vm_compute. reflexivity.
  - reflexivity.
  - repeat constructor.
Defined.

Lemma demo_maven_scan :
  scan_versions (S (String.length demo_maven_xml)) demo_maven_xml 0 ∅
  = Done (list_to_set ["1.20.1-47.2.0"; "1.7.10-10.13.4.1614"] ∪ ∅).
Proof.
  exact (scan_versions_elements
           [("1.20.1-47.2.0", " ");
            ("1.7.10-10.13.4.1614", "</versions></versioning></metadata>")]
           "" "<metadata><versioning><versions>" ∅ (S (String.length demo_maven_xml)) eq_refl
           ltac:(repeat constructor) ltac:(apply Nat.ltb_lt; vm_compute; reflexivity)).
Qed.

Lemma request_maven_versions_sound_witness :
  Str.contains (version_element "1.20.1-47.2.0") demo_maven_xml = true.
Proof.
  apply (request_maven_versions_sound (H := demo_maven_core) Returns
           demo_maven_xml demo_maven_xml
           (list_to_set ["1.20.1-47.2.0"; "1.7.10-10.13.4.1614"] ∪ ∅) eq_refl eq_refl).
  - unfold request_maven_versions.
    change (http_request maven_metadata_url) with (200%Z, demo_maven_xml).
    cbn [Z.eqb Pos.eqb negb call]. now rewrite demo_maven_scan.
  - set_solver.
Defined.

(** ** The errors of the profile *)

Section ProfileErrors.
Context `{Base}.

Lemma load_install_profile_missing forge_version (install_jar : ZipFile) :
  install_jar !! "install_profile.json" = None ->
  load_install_profile forge_version install_jar
  = Raise (ForgeError INSTALL_PROFILE_NOT_FOUND forge_version).
Proof. unfold load_install_profile, getinfo. now intros ->. Qed.

Lemma load_install_profile_found forge_version (install_jar : ZipFile) fp :
  install_jar !! "install_profile.json" = Some fp ->
  load_install_profile forge_version install_jar = call (json_load fp).
Proof.
  unfold load_install_profile, getinfo. intros ->. now destruct (json_load fp).
Qed.

(** What follows the loading of the profile raises neither of the two
    errors of the loading and of the search. *)
Lemma silent_after_profile c version_id install_jar install_profile :
  c <> VERSION_META_NOT_FOUND ->
  silent c
    (modern <- lift (Py.contains "json" install_profile) ;;
     version_meta <-
       (if modern : bool then fetch_modern install_jar install_profile
        else fetch_legacy install_jar install_profile) ;;
     version_meta <- lift (Py.setitem version_meta "id" (JStr version_id)) ;;
     ret version_meta).
Proof.
  intros Hc. apply silent_bind; [apply silent_lift, silent_contains | intros modern].
  apply silent_bind.
  - destruct modern; [apply silent_fetch_modern | now apply silent_fetch_legacy].
  - intros version_meta. apply silent_bind; [apply silent_lift, silent_setitem | intros ?].
    apply silent_ret.
Qed.

End ProfileErrors.

(** X4.  Once an installer is found, the method raises
    [ForgeError(INSTALL_PROFILE_NOT_FOUND, forge_version)] if and only if
    the archive has no entry [install_profile.json]; it then has changed
    nothing. *)
Theorem fetch_install_profile_not_found `{Base} (w : World) (version_id : string)
    (install_jar : ZipFile) :
  version_id = id (self w) ->
  find_install_jar (forge_version (self w)) (suffixes_of (forge_version (self w)))
    = Ok (Some install_jar) ->
  (install_jar !! "install_profile.json" = None ->
   _fetch_version_meta version_id w
   = (w, Raise (ForgeError INSTALL_PROFILE_NOT_FOUND (forge_version (self w)))))
  /\ (forall w' version,
        _fetch_version_meta version_id w
          = (w', Raise (ForgeError INSTALL_PROFILE_NOT_FOUND version)) ->
        install_jar !! "install_profile.json" = None).
Proof.
  intros -> Hfind. rewrite fetch_own_version, Hfind. unfold read_install_jar. split.
  - intros Hmissing. unfold bind at 1, get_self. unfold bind at 1, lift.
    now rewrite (load_install_profile_missing _ _ Hmissing).
  - intros w' version Hrun.
    destruct (install_jar !! "install_profile.json") as [fp|] eqn:Hentry; [exfalso | reflexivity].
    unfold bind at 1, get_self in Hrun. unfold bind at 1, lift in Hrun.
    rewrite (load_install_profile_found _ _ _ Hentry) in Hrun.
    destruct (json_load fp) as [install_profile|what]; cbn [call] in Hrun;
      [| discriminate Hrun].
    revert Hrun. apply silent_after_profile. discriminate.
Qed.

Lemma fetch_install_profile_not_found_witness :
  @_fetch_version_meta demo_maven_core demo_maven_base "forge-1.8.9-11.15.1.2318"
    (demo_maven_world "1.8.9-11.15.1.2318")
  = (demo_maven_world "1.8.9-11.15.1.2318",
     Raise (ForgeError INSTALL_PROFILE_NOT_FOUND "1.8.9-11.15.1.2318")).
Proof.
  apply (proj1 (@fetch_install_profile_not_found demo_maven_core demo_maven_base
                  (demo_maven_world "1.8.9-11.15.1.2318") "forge-1.8.9-11.15.1.2318"
                  demo_empty_jar eq_refl eq_refl)).
  vm_compute. reflexivity.
Defined.

Lemma read_install_jar_loaded `{Core} version_id install_jar install_profile (w : World) :
  load_install_profile (forge_version (self w)) install_jar = Ok install_profile ->
  read_install_jar version_id install_jar w
  = (modern <- lift (Py.contains "json" install_profile) ;;
     version_meta <-
       (if modern : bool then fetch_modern install_jar install_profile
        else fetch_legacy install_jar install_profile) ;;
     version_meta <- lift (Py.setitem version_meta "id" (JStr version_id)) ;;
     ret version_meta) w.
Proof.
  intros Hload. unfold read_install_jar. unfold bind at 1. unfold get_self.
  now rewrite Hload.
Qed.

(** X5.  Once the profile is loaded, the method raises
    [ForgeError(VERSION_META_NOT_FOUND, forge_version)] if and only if the
    profile has no ["json"] key and its ["versionInfo"] is missing or
    [null]; it then has changed nothing. *)
Theorem fetch_version_meta_not_found `{Base} (w : World) (version_id : string)
    (install_jar : ZipFile) (install_profile : json) :
  version_id = id (self w) ->
  find_install_jar (forge_version (self w)) (suffixes_of (forge_version (self w)))
    = Ok (Some install_jar) ->
  load_install_profile (forge_version (self w)) install_jar = Ok install_profile ->
  (Py.contains "json" install_profile = Ok false ->
   Py.get install_profile "versionInfo" = Ok JNull ->
   _fetch_version_meta version_id w
   = (w, Raise (ForgeError VERSION_META_NOT_FOUND (forge_version (self w)))))
  /\ (forall w' version,
        _fetch_version_meta version_id w
          = (w', Raise (ForgeError VERSION_META_NOT_FOUND version)) ->
        Py.contains "json" install_profile = Ok false
        /\ Py.get install_profile "versionInfo" = Ok JNull).
Proof.
  intros -> Hfind Hload.
  rewrite fetch_own_version, Hfind, (read_install_jar_loaded _ _ _ _ Hload). split.
  - intros Hlegacy Hnone. unfold bind at 1, lift. rewrite Hlegacy.
    unfold bind at 1, fetch_legacy. unfold bind at 1, lift. now rewrite Hnone.
  - intros w' version Hrun.
    apply bind_raise in Hrun as [Hrun | (w1 & modern & Hjson & Hrun)].
    { apply lift_run in Hrun as [_ Hrun]. symmetry in Hrun.
      now apply silent_contains in Hrun. }
    apply lift_run in Hjson as [-> Hjson].
    apply bind_raise in Hrun as [Hrun | (w1 & version_meta & _ & Hrun)].
    + destruct modern; [now apply silent_fetch_modern in Hrun|].
      split; [now symmetry|].
      unfold fetch_legacy in Hrun.
      apply bind_raise in Hrun as [Hrun | (w1 & version_info & Hinfo & Hrun)].
      { apply lift_run in Hrun as [_ Hrun]. symmetry in Hrun.
        now apply silent_get in Hrun. }
      apply lift_run in Hinfo as [-> Hinfo]. rewrite <- Hinfo.
      destruct version_info; try reflexivity; exfalso; revert Hrun; silence.
      all: first [ apply silent_clean_libraries | apply silent_from_str
                 | apply silent_zip_extract_file ].
    + exfalso. revert Hrun.
      apply silent_bind; [apply silent_lift, silent_setitem | intros ?]. apply silent_ret.
Qed.

Lemma fetch_version_meta_not_found_witness :
  @_fetch_version_meta demo_maven_core demo_maven_base "forge-1.8.8-11.15.0.1655"
    (demo_maven_world "1.8.8-11.15.0.1655")
  = (demo_maven_world "1.8.8-11.15.0.1655",
     Raise (ForgeError VERSION_META_NOT_FOUND "1.8.8-11.15.0.1655")).
Proof.
  apply (proj1 (@fetch_version_meta_not_found demo_maven_core demo_maven_base
                  (demo_maven_world "1.8.8-11.15.0.1655") "forge-1.8.8-11.15.0.1655"
                  demo_bare_jar demo_bare_profile eq_refl eq_refl eq_refl));
    reflexivity.
Defined.

(** X6.  Whatever the outcome of the method on the version's own
    identifier (a document or any exception), it has kept the identifier,
    the forge version, the libraries directory, the JVM, the metadata and
    the installer attributes of the object and has run no process; the
    download list it leaves starts with the one it found, and every file
    that was on disk is still there. *)
Theorem fetch_version_meta_grows `{Base} (w w' : World) (version_id : string)
    (outcome : result json) :
  version_id = id (self w) ->
  _fetch_version_meta version_id w = (w', outcome) ->
  grown w w'.
Proof. intros ->. apply fetch_version_meta_keeps. Qed.

Lemma fetch_version_meta_grows_witness :
  grown (demo_world "1.20.1-47.2.0" demo_files_present)
    (fst (@_fetch_version_meta demo_core demo_base "forge-1.20.1-47.2.0"
            (demo_world "1.20.1-47.2.0" demo_files_present))).
Proof.
  apply (@fetch_version_meta_grows demo_core demo_base
           (demo_world "1.20.1-47.2.0" demo_files_present) _ "forge-1.20.1-47.2.0"
           (snd (@_fetch_version_meta demo_core demo_base "forge-1.20.1-47.2.0"
                   (demo_world "1.20.1-47.2.0" demo_files_present))) eq_refl).
  apply surjective_pairing.
Defined.

(** ** The cleaning of the legacy libraries *)

Lemma remove_absent (key : string) (members : list (string * json)) :
  Py.assoc key members = None -> Py.remove key members = members.
Proof.
  induction members as [|[k v] rest IH]; [reflexivity|]. cbn [Py.assoc Py.remove].
  destruct (String.eqb k key); [discriminate|]. intros Hrest. now rewrite IH.
Qed.

Lemma assoc_remove_eq (key : string) (members : list (string * json)) :
  Py.assoc key (Py.remove key members) = None.
Proof.
  induction members as [|[k v] rest IH]; [reflexivity|]. cbn [Py.remove].
  destruct (String.eqb k key) eqn:E; [exact IH|]. cbn [Py.assoc]. now rewrite E.
Qed.

Lemma del_if_in_object (key : string) (members : list (string * json)) :
  del_if_in key (JObj members) = Ok (JObj (Py.remove key members)).
Proof.
  unfold del_if_in. cbn [Py.contains Py.delitem].
  destruct (Py.assoc key members) as [v|] eqn:Hkey.
  - rewrite bool_decide_eq_true_2 by eauto. reflexivity.
  - rewrite bool_decide_eq_false_2 by (intros [? ?]; discriminate).
    now rewrite remove_absent.
Qed.

Lemma clean_library_object (members : list (string * json)) :
  clean_library (JObj members)
  = Ok (JObj (Py.remove "checksums" (Py.remove "clientreq" (Py.remove "serverreq" members)))).
Proof. unfold clean_library. now rewrite !del_if_in_object. Qed.

Lemma legacy_keys_spec (key : string) :
  key ∈ legacy_keys <-> key = "serverreq" \/ key = "clientreq" \/ key = "checksums".
Proof. unfold legacy_keys. rewrite !elem_of_cons, elem_of_nil. tauto. Qed.

Lemma clean_library_cleaned (lib : json) :
  is_object lib -> exists lib', clean_library lib = Ok lib' /\ cleaned lib lib'.
Proof.
  destruct lib as [| | | | |members]; try contradiction. intros _.
  eexists. split; [apply clean_library_object|]. split; [exact I|]. split; [|split].
  - intros key Hkey. cbn [Py.contains]. f_equal. apply bool_decide_eq_false_2.
    intros [v Hv]. revert Hv.
    apply legacy_keys_spec in Hkey as [-> | [-> | ->]].
    + rewrite !assoc_remove_ne by discriminate. now rewrite assoc_remove_eq.
    + rewrite assoc_remove_ne by discriminate. now rewrite assoc_remove_eq.
    + now rewrite assoc_remove_eq.
  - intros key Hkey. cbn [Py.getitem].
    rewrite !assoc_remove_ne; [reflexivity | | |];
      intros ->; apply Hkey, legacy_keys_spec; tauto.
  - intros Hnone.
    assert (Habsent : forall key, key ∈ legacy_keys -> Py.assoc key members = None).
    { intros key Hkey. specialize (Hnone key Hkey). cbn [Py.contains] in Hnone.
      injection Hnone as Hnone. apply bool_decide_eq_false in Hnone.
      now apply eq_None_not_Some. }
    rewrite (remove_absent "serverreq"), (remove_absent "clientreq"),
      (remove_absent "checksums"); try reflexivity;
      apply Habsent, legacy_keys_spec; tauto.
Qed.

Lemma clean_each_cleaned (libs : list json) :
  Forall is_object libs ->
  exists libs', clean_each libs = Ok libs' /\ Forall2 cleaned libs libs'.
Proof.
  induction 1 as [|lib rest Hobject _ (rest' & Hrest & Hcleaned)].
  - exists []. split; [reflexivity | constructor].
  - destruct (clean_library_cleaned _ Hobject) as (lib' & Hlib & Hclean).
    exists (lib' :: rest'). cbn [clean_each]. rewrite Hlib, Hrest.
    split; [reflexivity | now constructor].
Qed.

(** X7.  The cleaning of the legacy branch, on a metadata whose
    ["libraries"] is a list of objects: it ends well; the metadata keeps
    its other keys; the list keeps its length and its order, and each
    library comes out without ["serverreq"], ["clientreq"] and
    ["checksums"], with every other key as it was, and unchanged when it
    had none of the three. *)
Theorem clean_libraries_cleaned (version_meta : json) (libs : list json) :
  Py.getitem version_meta "libraries" = Ok (JArr libs) ->
  Forall is_object libs ->
  exists meta libs',
    clean_libraries version_meta = Ok meta
    /\ Py.getitem meta "libraries" = Ok (JArr libs')
    /\ Forall2 cleaned libs libs'
    /\ forall key, key <> "libraries" ->
         Py.getitem meta key = Py.getitem version_meta key.
Proof.
  intros Hlibs Hobjects. unfold clean_libraries. rewrite Hlibs.
  destruct (clean_each_cleaned _ Hobjects) as (libs' & -> & Hcleaned).
  destruct version_meta as [| | | | |members]; try discriminate Hlibs.
  exists (JObj (Py.store "libraries" (JArr libs') members)), libs'.
  split; [reflexivity|]. split; [|split].
  - cbn [Py.getitem]. now rewrite assoc_store_eq.
  - exact Hcleaned.
  - intros key Hkey. cbn [Py.getitem]. now rewrite assoc_store_ne.
Qed.

Lemma clean_libraries_cleaned_witness :
  exists meta,
    clean_libraries
      (JObj [("id", JStr "1.7.10-Forge10.13.4.1614");
             ("libraries",
                JArr [JObj [("name", JStr "net.minecraftforge:forge:1.7.10-10.13.4.1614");
                            ("serverreq", JBool true);
                            ("clientreq", JBool true);
                            ("checksums", JArr [JStr "0a1b"])]])])
    = Ok meta
    /\ Py.getitem meta "id" = Ok (JStr "1.7.10-Forge10.13.4.1614").
Proof.
  destruct (clean_libraries_cleaned
              (JObj [("id", JStr "1.7.10-Forge10.13.4.1614");
                     ("libraries",
                        JArr [JObj [("name", JStr "net.minecraftforge:forge:1.7.10-10.13.4.1614");
                                    ("serverreq", JBool true);
                                    ("clientreq", JBool true);
                                    ("checksums", JArr [JStr "0a1b"])]])])
              _ eq_refl ltac:(repeat constructor))
    as (meta & libs' & Hrun & _ & _ & Hkeys).
  exists meta. split; [exact Hrun|]. rewrite Hkeys by discriminate. reflexivity.
Defined.

(** ** What the legacy branch does *)

Section LegacyEffect.
Context `{Core}.

(** What [zip_extract_file] does to the world, by its outcome. *)
Lemma zip_extract_file_effect zf entry_path dst_path (w w' : World) outcome :
  zip_extract_file zf entry_path dst_path w = (w', outcome) ->
  self w' = self w
  /\ calls w' = calls w
  /\ match outcome with
     | Ok _ =>
         exists content,
           zip_open zf entry_path = Ok content
           /\ files w' = <[dst_path := content]> (files w)
           /\ dirs w' = fst (os_makedirs (path_dirname dst_path) (files w) (dirs w))
     | Raise e =>
         files w' = files w
         \/ exists content part what,
              zip_open zf entry_path = Ok content
              /\ e = Foreign what
              /\ files w' = <[dst_path := part]> (files w)
     end.
Proof.
  unfold zip_extract_file, bind, makedirs, lift, write_file.
  destruct (call (snd (os_makedirs _ _ _))) as [[]|e].
  2: { intros [= <- <-]. repeat split. now left. }
  destruct (zip_open zf entry_path) as [content|e].
  2: { intros [= <- <-]. repeat split. now left. }
  cbn [files dirs with_dirs].
  destruct (copyfileobj _ _ _ _) as [|[part|] what]; intros [= <- <-]; repeat split.
  - now exists content.
  - right. now exists content, part, what.
  - now left.
Qed.

Lemma fetch_legacy_effect install_jar install_profile (w w' : World) outcome :
  fetch_legacy install_jar install_profile w = (w', outcome) ->
  self w' = self w
  /\ calls w' = calls w
  /\ match outcome with
     | Raise e =>
         files w' = files w
         \/ exists install coordinate jar_spec part what,
              Py.getitem install_profile "install" = Ok install
              /\ Py.getitem install "path" = Ok (JStr coordinate)
              /\ LibrarySpecifier_from_str coordinate = Returns jar_spec
              /\ e = Foreign what
              /\ files w' = <[lib_path_in w jar_spec := part]> (files w)
     | Ok meta =>
         exists version_info install jar_entry_path coordinate jar_spec content,
           Py.get install_profile "versionInfo" = Ok version_info
           /\ clean_libraries version_info = Ok meta
           /\ Py.getitem install_profile "install" = Ok install
           /\ Py.getitem install "filePath" = Ok jar_entry_path
           /\ Py.getitem install "path" = Ok (JStr coordinate)
           /\ LibrarySpecifier_from_str coordinate = Returns jar_spec
           /\ zip_open install_jar jar_entry_path = Ok content
           /\ files w' = <[lib_path_in w jar_spec := content]> (files w)
           /\ dirs w'
              = fst (os_makedirs (path_dirname (lib_path_in w jar_spec)) (files w) (dirs w))
     end.
Proof.
  unfold fetch_legacy. unfold bind at 1, lift.
  destruct (Py.get install_profile "versionInfo") as [version_info|e] eqn:Hinfo.
  2: { intros [= <- <-]. repeat split. now left. }
  assert (Hnull : version_info = JNull
                  \/ forall A (none some : A),
                       match version_info with JNull => none | _ => some end = some).
  { destruct version_info; [now left | right; reflexivity ..]. }
  destruct Hnull as [-> | Hsome].
  { unfold bind, get_self, raise. intros [= <- <-]. repeat split. now left. }
  rewrite Hsome. clear Hsome. unfold get_self, ret.
  unfold bind at 1, lift.
  destruct (clean_libraries version_info) as [meta|e] eqn:Hclean.
  2: { intros [= <- <-]. repeat split. now left. }
  unfold bind at 1, lift.
  destruct (Py.getitem install_profile "install") as [install|e] eqn:Hinstall.
  2: { intros [= <- <-]. repeat split. now left. }
  unfold bind at 1, lift.
  destruct (Py.getitem install "filePath") as [jar_entry_path|e] eqn:Hentry.
  2: { intros [= <- <-]. repeat split. now left. }
  unfold bind at 1, lift.
  destruct (Py.getitem install "path") as [jar_coordinate|e] eqn:Hpath.
  2: { intros [= <- <-]. repeat split. now left. }
  unfold bind at 1, lift.
  destruct (from_str jar_coordinate) as [jar_spec|e] eqn:Hspec.
  2: { intros [= <- <-]. repeat split. now left. }
  destruct jar_coordinate as [| | |coordinate| |]; try discriminate Hspec.
  cbn [from_str] in Hspec.
  destruct (LibrarySpecifier_from_str coordinate) as [spec|] eqn:Hparse; [| discriminate Hspec].
  injection Hspec as ->.
  unfold bind at 1. unfold bind at 1.
  destruct (zip_extract_file install_jar jar_entry_path _ w) as [w1 [[]|e]] eqn:Hextract;
    apply zip_extract_file_effect in Hextract as (Hself & Hcalls & Hfiles);
    intros [= <- <-]; (split; [assumption|]); (split; [assumption|]).
  - destruct Hfiles as (content & Hopen & Hfiles & Hdirs).
    now exists version_info, install, jar_entry_path, coordinate, jar_spec, content.
  - destruct Hfiles as [Hsame | (content & part & what & Hopen & -> & Hfiles)];
      [now left | right].
    now exists install, coordinate, jar_spec, part, what.
Qed.

End LegacyEffect.

Lemma clean_libraries_object (version_meta meta : json) :
  clean_libraries version_meta = Ok meta -> is_object meta.
Proof.
  unfold clean_libraries. destruct version_meta as [| | | | |members]; try discriminate.
  cbn [Py.getitem]. destruct (Py.assoc "libraries" members) as [libs|]; [| discriminate].
  destruct libs; cbn [Py.iter]; try discriminate.
  - destruct (clean_each (Py.chars s)); [| discriminate]. now intros [= <-].
  - destruct (clean_each items0); [| discriminate]. now intros [= <-].
  - destruct (clean_each _); [| discriminate]. now intros [= <-].
Qed.

(** X8.  An install from a profile without a ["json"] key, whatever its
    outcome, assigns no attribute of the object and runs no process.  When
    it returns, the document is the cleaned ["versionInfo"] with its
    ["id"] set; the directories are what [os.makedirs] left, asked for the
    directory of the destination on the disk as it was; and the only
    regular file that changed is the destination, the maven path of
    [install.path] under the libraries directory, which holds the archive
    entry named by [install.filePath].  When it raises, no regular file
    has changed, unless it is the copy to the destination that broke: then
    the destination holds what the copy left, and the other files are as
    they were; directories may have been made before. *)
Theorem fetch_legacy_install `{Base} (w w' : World) (version_id : string)
    (install_jar : ZipFile) (install_profile : json) (outcome : result json) :
  version_id = id (self w) ->
  find_install_jar (forge_version (self w)) (suffixes_of (forge_version (self w)))
    = Ok (Some install_jar) ->
  load_install_profile (forge_version (self w)) install_jar = Ok install_profile ->
  Py.contains "json" install_profile = Ok false ->
  _fetch_version_meta version_id w = (w', outcome) ->
  self w' = self w
  /\ calls w' = calls w
  /\ match outcome with
     | Raise e =>
         files w' = files w
         \/ exists install coordinate jar_spec part what,
              Py.getitem install_profile "install" = Ok install
              /\ Py.getitem install "path" = Ok (JStr coordinate)
              /\ LibrarySpecifier_from_str coordinate = Returns jar_spec
              /\ e = Foreign what
              /\ files w' = <[lib_path_in w jar_spec := part]> (files w)
     | Ok meta =>
         exists version_info cleaned_meta install jar_entry_path coordinate jar_spec content,
           Py.get install_profile "versionInfo" = Ok version_info
           /\ clean_libraries version_info = Ok cleaned_meta
           /\ Py.setitem cleaned_meta "id" (JStr version_id) = Ok meta
           /\ Py.getitem install_profile "install" = Ok install
           /\ Py.getitem install "filePath" = Ok jar_entry_path
           /\ Py.getitem install "path" = Ok (JStr coordinate)
           /\ LibrarySpecifier_from_str coordinate = Returns jar_spec
           /\ zip_open install_jar jar_entry_path = Ok content
           /\ files w' = <[lib_path_in w jar_spec := content]> (files w)
           /\ dirs w'
              = fst (os_makedirs (path_dirname (lib_path_in w jar_spec)) (files w) (dirs w))
     end.
Proof.
  intros -> Hfind Hload Hlegacy.
  rewrite fetch_own_version, Hfind, (read_install_jar_loaded _ _ _ _ Hload).
  unfold bind at 1, lift. rewrite Hlegacy. unfold bind at 1.
  destruct (fetch_legacy install_jar install_profile w) as [w1 [cleaned_meta|e]] eqn:Hbranch;
    apply fetch_legacy_effect in Hbranch as (Hself & Hcalls & Hfiles).
  - destruct Hfiles as (version_info & install & jar_entry_path & coordinate & jar_spec
                        & content & Hinfo & Hclean & Hinstall & Hentry & Hpath & Hspec
                        & Hopen & Hfiles & Hdirs).
    pose proof (clean_libraries_object _ _ Hclean) as Hobject.
    destruct cleaned_meta as [| | | | |members]; try contradiction.
    unfold bind, lift, ret. cbn [Py.setitem]. intros [= <- <-].
    split; [assumption|]. split; [assumption|].
    now exists version_info, (JObj members), install, jar_entry_path, coordinate, jar_spec,
      content.
  - now intros [= <- <-].
Qed.

(** The old demo installer on an empty disk: the forge jar is the one
    file there is afterwards. *)
Lemma fetch_legacy_install_witness :
  let run := @_fetch_version_meta demo_core demo_base "forge-1.7.10-10.13.4.1614"
               (demo_world "1.7.10-10.13.4.1614" ∅) in
  self (fst run) = demo_forge_version "1.7.10-10.13.4.1614"
  /\ calls (fst run) = []
  /\ files (fst run)
     = <["/libs/net.minecraftforge:forge:1.7.10-10.13.4.1614.jar" := "universal bytes"]> ∅.
Proof.
  intros run.
  assert (Hsome : is_Some (match snd run with Ok meta => Some meta | Raise _ => None end)).
  { vm_compute. eexists. reflexivity. }
  destruct Hsome as [meta Hmeta].
  assert (Hrun : run = (fst run, Ok meta)).
  { destruct run as [w' [meta'|e]]; simpl in *; congruence. }
  destruct (@fetch_legacy_install demo_core demo_base
              (demo_world "1.7.10-10.13.4.1614" ∅) (fst run) "forge-1.7.10-10.13.4.1614"
              demo_legacy_jar demo_legacy_profile (Ok meta) eq_refl)
    as (Hself & Hcalls & version_info & cleaned_meta & install & jar_entry_path
        & coordinate & jar_spec & content & _ & _ & _ & Hinstall & Hentry & Hpath & Hspec
        & Hopen & Hfiles & _).
  - vm_compute. reflexivity.
  - vm_compute. reflexivity.
  - vm_compute. reflexivity.
  - exact Hrun.
  - split; [exact Hself|]. split; [exact Hcalls|].
    injection Hinstall as <-. injection Hentry as <-. injection Hpath as <-.
    injection Hspec as <-. injection Hopen as <-. exact Hfiles.
Defined.

(** X9.  After an install from a profile without a ["json"] key, on a
    version that had no library manifest, [prepare_libraries] filters
    nothing: whatever metadata the version then holds, it is handed to the
    base method as it is. *)
Theorem prepare_libraries_after_legacy `{Base} (w w' : World) (version_id : string)
    (install_jar : ZipFile) (install_profile : json) (outcome : result json)
    (predicate : option Predicate) (meta : json) :
  version_id = id (self w) ->
  find_install_jar (forge_version (self w)) (suffixes_of (forge_version (self w)))
    = Ok (Some install_jar) ->
  load_install_profile (forge_version (self w)) install_jar = Ok install_profile ->
  Py.contains "json" install_profile = Ok false ->
  forge_install_libraries (self w) = None ->
  _fetch_version_meta version_id w = (w', outcome) ->
  prepare_libraries predicate (with_self (set_version_meta meta) w')
  = super (super_prepare_libraries predicate) (with_self (set_version_meta meta) w').
Proof.
  intros -> Hfind Hload Hlegacy Hnone.
  rewrite fetch_own_version, Hfind, (read_install_jar_loaded _ _ _ _ Hload).
  unfold bind at 1, lift. rewrite Hlegacy. unfold bind at 1.
  destruct (fetch_legacy install_jar install_profile w) as [w1 r] eqn:Hbranch.
  apply fetch_legacy_effect in Hbranch as (Hself & _).
  assert (Hstill : forge_install_libraries (self w1) = None) by now rewrite Hself.
  intros Hrun.
  assert (w' = w1) as ->.
  { destruct r as [cleaned_meta|e]; [| now injection Hrun].
    unfold bind, lift, ret in Hrun. now destruct (Py.setitem _ _ _); injection Hrun. }
  unfold prepare_libraries, filter_version_libraries.
  unfold bind at 1 2, get_self. cbn [self with_self]. 
  destruct (self w1); cbn in *. now rewrite Hstill.
Qed.

Lemma prepare_libraries_after_legacy_witness :
  let run := @_fetch_version_meta demo_core demo_base "forge-1.7.10-10.13.4.1614"
               (demo_world "1.7.10-10.13.4.1614" ∅) in
  @prepare_libraries demo_core demo_base None
    (with_self (set_version_meta demo_version_json) (fst run))
  = super (@super_prepare_libraries demo_core demo_base None)
      (with_self (set_version_meta demo_version_json) (fst run)).
Proof.
  intros run.
  apply (@prepare_libraries_after_legacy demo_core demo_base
           (demo_world "1.7.10-10.13.4.1614" ∅) (fst run) "forge-1.7.10-10.13.4.1614"
           demo_legacy_jar demo_legacy_profile (snd run) None demo_version_json eq_refl).
  - vm_compute. reflexivity.
  - vm_compute. reflexivity.
  - vm_compute. reflexivity.
  - reflexivity.
  - apply surjective_pairing.
Defined.

(** ** What the modern branch leaves in the object *)

Section ModernResult.
Context `{Core}.

#[local] Instance same_on_refl {X} (attribute : ForgeVersion -> X) :
  Reflexive (same_on attribute).
Proof. intros w. reflexivity. Qed.

#[local] Instance same_on_trans {X} (attribute : ForgeVersion -> X) :
  Transitive (same_on attribute).
Proof. intros w1 w2 w3. unfold same_on. congruence. Qed.

Lemma same_on_install_library {X} (attribute : ForgeVersion -> X) install_jar install_lib :
  (forall v o, attribute (set_forge_install_libraries v o) = attribute o) ->
  (forall v o, attribute (set_dl v o) = attribute o) ->
  keeps (same_on attribute) (install_library install_jar install_lib).
Proof.
  intros Hlibs Hdl. unfold install_library, record_library, zip_extract_file, dl_append.
  keeping.
  - apply keeps_update_self. intros w. apply Hlibs.
  - apply keeps_makedirs. intros ds w. reflexivity.
  - apply keeps_write_file; [exact _ | intros part w; reflexivity].
  - apply keeps_update_self. intros w. apply Hdl.
Qed.

Lemma same_on_record_data {X} (attribute : ForgeVersion -> X) item :
  (forall v o, attribute (set_forge_install_data v o) = attribute o) ->
  keeps (same_on attribute) (record_data item).
Proof.
  intros Hdata. unfold record_data. keeping.
  apply keeps_update_self. intros w. apply Hdata.
Qed.

Lemma record_data_ok item (w w' : World) :
  record_data item w = (w', Ok tt) ->
  exists client data,
    Py.getitem (snd item) "client" = Ok client
    /\ forge_install_data (self w) = Some data
    /\ forge_install_data (self w') = Some (<[fst item := client]> data).
Proof.
  unfold record_data. intros Hrun.
  apply bind_ok in Hrun as (w1 & client & Hclient & Hrun).
  apply lift_run in Hclient as [-> Hclient].
  unfold bind, get_self in Hrun.
  destruct (forge_install_data (self w)) as [data|] eqn:Hdata; [| discriminate Hrun].
  injection Hrun as <-. now exists client, data.
Qed.

Lemma assoc_absent (key : string) (members : list (string * json)) :
  key ∉ members.*1 -> Py.assoc key members = None.
Proof.
  induction members as [|[k v] rest IH]; [reflexivity|]. cbn [fmap list_fmap fst Py.assoc].
  intros Hnot. apply not_elem_of_cons in Hnot as [Hne Hrest].
  assert (String.eqb k key = false) as -> by (apply String.eqb_neq; congruence).
  now apply IH.
Qed.

(** The loop over the profile's ["data"]: afterwards the install data has
    the ["client"] value of every key the loop went through. *)
Lemma record_all_data_values (data : list (string * json)) (w w' : World) before :
  for_each record_data data w = (w', Ok tt) ->
  forge_install_data (self w) = Some before ->
  NoDup data.*1 ->
  exists after,
    forge_install_data (self w') = Some after
    /\ forall key,
        after !! key
        = if bool_decide (key ∈ data.*1) then client_value data key else before !! key.
Proof.
  revert w before. induction data as [|[k sides] rest IH]; intros w before Hrun Hbefore Hnodup.
  - injection Hrun as <-. exists before. split; [assumption|]. intros key.
    rewrite bool_decide_eq_false_2; [reflexivity | apply not_elem_of_nil].
  - cbn [for_each] in Hrun. apply bind_ok in Hrun as (w1 & [] & Hstep & Hrun).
    apply record_data_ok in Hstep as (client & data0 & Hclient & Hdata0 & Hdata1).
    cbn [fst snd] in *. assert (data0 = before) as -> by congruence.
    cbn [fmap list_fmap fst] in Hnodup. apply NoDup_cons in Hnodup as [Hfresh Hnodup].
    destruct (IH _ _ Hrun Hdata1 Hnodup) as (after & Hafter & Hvalues).
    exists after. split; [assumption|]. intros key. rewrite Hvalues.
    cbn [fmap list_fmap fst]. unfold client_value. cbn [Py.assoc].
    destruct (decide (key = k)) as [-> | Hne].
    + rewrite (bool_decide_eq_false_2 _ Hfresh), bool_decide_eq_true_2 by now left.
      now rewrite lookup_insert_eq, String.eqb_refl, Hclient.
    + assert (String.eqb k key = false) as -> by (apply String.eqb_neq; congruence).
      destruct (decide (key ∈ rest.*1)) as [Hin | Hout].
      * now rewrite !bool_decide_eq_true_2 by (assumption || now right).
      * rewrite !bool_decide_eq_false_2;
          [now rewrite lookup_insert_ne by congruence | | assumption].
        intros Hin. apply elem_of_cons in Hin as [?|?]; contradiction.
Qed.

Lemma record_all_data_some (data : list (string * json)) (w w' : World) :
  for_each record_data data w = (w', Ok tt) ->
  is_Some (forge_install_data (self w)) ->
  is_Some (forge_install_data (self w')).
Proof.
  revert w. induction data as [|item rest IH]; intros w Hrun Hsome.
  - injection Hrun as <-. assumption.
  - cbn [for_each] in Hrun. apply bind_ok in Hrun as (w1 & [] & Hstep & Hrun).
    apply record_data_ok in Hstep as (client & before & _ & _ & Hafter).
    apply (IH _ Hrun). eauto.
Qed.

(** Everything a run of the modern branch that ends well has read and
    left behind. *)
Lemma fetch_modern_result install_jar install_profile (w w' : World) meta :
  fetch_modern install_jar install_profile w = (w', Ok meta) ->
  exists json_entry fp version_libraries processors install_libs data,
    Py.getitem install_profile "json" = Ok (JStr json_entry)
    /\ install_jar !! Str.lstrip "/" json_entry = Some fp
    /\ json_load fp = Returns meta
    /\ Py.getitem meta "libraries" = Ok version_libraries
    /\ Py.getitem install_profile "processors" = Ok processors
    /\ profile_libraries install_profile = Ok install_libs
    /\ Py.getitem install_profile "data" = Ok (JObj data)
    /\ forge_install_version_libraries (self w') = Some version_libraries
    /\ forge_install_processors (self w') = Some processors
    /\ exists values,
        forge_install_data (self w') = Some values
        /\ (NoDup data.*1 -> forall key, values !! key = client_value data key).
Proof.
  unfold fetch_modern, profile_libraries. intros Hrun.
  apply bind_ok in Hrun as (w1 & json_value & Hstep & Hrun).
  apply lift_run in Hstep as [-> Hjson].
  apply bind_ok in Hrun as (w1 & entry & Hstep & Hrun).
  apply lift_run in Hstep as [-> Hentry].
  destruct json_value as [| | |json_entry| |]; try discriminate Hentry.
  injection Hentry as ->.
  apply bind_ok in Hrun as (w1 & fp & Hstep & Hrun).
  apply lift_run in Hstep as [-> Hfp].
  unfold getinfo in Hfp.
  destruct (install_jar !! Str.lstrip "/" json_entry) as [fp'|] eqn:Hfile; [| discriminate Hfp].
  injection Hfp as ->.
  apply bind_ok in Hrun as (w1 & version_meta & Hstep & Hrun).
  apply lift_run in Hstep as [-> Hload].
  destruct (json_load fp') as [loaded|] eqn:Hloaded; [| discriminate Hload].
  injection Hload as ->.
  apply bind_ok in Hrun as (w1 & version_libraries & Hstep & Hrun).
  apply lift_run in Hstep as [-> Hversion_libraries].
  apply bind_ok in Hrun as (w1 & [] & Hstep & Hrun). injection Hstep as <-.
  apply bind_ok in Hrun as (w1 & processors & Hstep & Hrun).
  apply lift_run in Hstep as [-> Hprocessors].
  apply bind_ok in Hrun as (w1 & [] & Hstep & Hrun). injection Hstep as <-.
  apply bind_ok in Hrun as (w1 & [] & Hstep & Hrun). injection Hstep as <-.
  apply bind_ok in Hrun as (w1 & [] & Hstep & Hrun). injection Hstep as <-.
  apply bind_ok in Hrun as (w1 & libraries & Hstep & Hrun).
  apply lift_run in Hstep as [-> Hlibraries].
  apply bind_ok in Hrun as (w1 & install_libs & Hstep & Hrun).
  apply lift_run in Hstep as [-> Hiter].
  apply bind_ok in Hrun as (w1 & [] & Hloop & Hrun).
  apply bind_ok in Hrun as (w2 & data_value & Hstep & Hrun).
  apply lift_run in Hstep as [-> Hdata].
  apply bind_ok in Hrun as (w2 & data & Hstep & Hrun).
  apply lift_run in Hstep as [-> Hitems].
  destruct data_value as [| | | | |members]; try discriminate Hitems.
  injection Hitems as ->. rename members into data.
  apply bind_ok in Hrun as (w2 & [] & Hrecord & Hrun).
  injection Hrun as <- <-.
  pose proof (kept _ _ (keeps_for_each (same_on forge_install_version_libraries) _ install_libs
                (fun lib => same_on_install_library forge_install_version_libraries install_jar lib
                              (fun _ _ => eq_refl) (fun _ _ => eq_refl))) _ _ _ Hloop) as Hvl.
  pose proof (kept _ _ (keeps_for_each (same_on forge_install_processors) _ install_libs
                (fun lib => same_on_install_library forge_install_processors install_jar lib
                              (fun _ _ => eq_refl) (fun _ _ => eq_refl))) _ _ _ Hloop) as Hpr.
  pose proof (kept _ _ (keeps_for_each (same_on forge_install_data) _ install_libs
                (fun lib => same_on_install_library forge_install_data install_jar lib
                              (fun _ _ => eq_refl) (fun _ _ => eq_refl))) _ _ _ Hloop) as Hda.
  pose proof (kept _ _ (keeps_for_each (same_on forge_install_version_libraries) _ data
                (fun item => same_on_record_data forge_install_version_libraries item (fun _ _ => eq_refl)))
                _ _ _ Hrecord) as Hvl'.
  pose proof (kept _ _ (keeps_for_each (same_on forge_install_processors) _ data
                (fun item => same_on_record_data forge_install_processors item (fun _ _ => eq_refl)))
                _ _ _ Hrecord) as Hpr'.
  unfold same_on in *. cbn [self with_self] in *.
  exists json_entry, fp', version_libraries, processors, install_libs, data.
  repeat split; try congruence.
  - now rewrite <- Hlibraries.
  - rewrite Hvl', Hvl. reflexivity.
  - rewrite Hpr', Hpr. reflexivity.
  - destruct (forge_install_data (self w1)) as [before|] eqn:Hbefore.
    + destruct (decide (NoDup data.*1)) as [Hnodup | Hdup].
      * destruct (record_all_data_values _ _ _ _ Hrecord Hbefore Hnodup)
          as (values & Hvalues & Hlookup).
        exists values. split; [assumption|]. intros _ key. rewrite Hlookup.
        assert (before = ∅) as -> by (cbn in Hda; congruence).
        rewrite lookup_empty. destruct (bool_decide (key ∈ data.*1)) eqn:Hin; [reflexivity|].
        apply bool_decide_eq_false in Hin. unfold client_value.
        now rewrite assoc_absent.
      * destruct (record_all_data_some _ _ _ Hrecord) as [values Hvalues]; [eauto|].
        exists values. split; [assumption|]. intros Hnodup. contradiction.
    + cbn in Hda. congruence.
Qed.

End ModernResult.

(** X10.  A modern install that returns has read the version document
    from the archive entry the profile's ["json"] names (leading slashes
    dropped), returns it with only its ["id"] replaced, and leaves in the
    object: the document's ["libraries"], the profile's ["processors"] as
    they are, and for the profile's ["data"] one value per key, the
    ["client"] side of that key (the keys of a JSON object being
    distinct).  No process is run. *)
Theorem fetch_modern_install `{Base} (w w' : World) (version_id : string)
    (install_jar : ZipFile) (install_profile meta : json) :
  version_id = id (self w) ->
  find_install_jar (forge_version (self w)) (suffixes_of (forge_version (self w)))
    = Ok (Some install_jar) ->
  load_install_profile (forge_version (self w)) install_jar = Ok install_profile ->
  Py.contains "json" install_profile = Ok true ->
  _fetch_version_meta version_id w = (w', Ok meta) ->
  exists json_entry fp version_json version_libraries processors data values,
    Py.getitem install_profile "json" = Ok (JStr json_entry)
    /\ install_jar !! Str.lstrip "/" json_entry = Some fp
    /\ json_load fp = Returns version_json
    /\ Py.setitem version_json "id" (JStr version_id) = Ok meta
    /\ (forall key, key <> "id" -> Py.getitem meta key = Py.getitem version_json key)
    /\ Py.getitem version_json "libraries" = Ok version_libraries
    /\ forge_install_version_libraries (self w') = Some version_libraries
    /\ Py.getitem install_profile "processors" = Ok processors
    /\ forge_install_processors (self w') = Some processors
    /\ Py.getitem install_profile "data" = Ok (JObj data)
    /\ forge_install_data (self w') = Some values
    /\ (NoDup data.*1 -> forall key, values !! key = client_value data key)
    /\ calls w' = calls w.
Proof.
  intros -> Hfind Hload Hmodern.
  rewrite fetch_own_version, Hfind, (read_install_jar_loaded _ _ _ _ Hload).
  unfold bind at 1, lift. rewrite Hmodern. intros Hrun.
  apply bind_ok in Hrun as (w1 & version_json & Hbranch & Hrun).
  apply bind_ok in Hrun as (w2 & named & Hstep & Hrun).
  apply lift_run in Hstep as [-> Hnamed]. injection Hrun as <- <-.
  pose proof (kept _ _ (grown_fetch_modern install_jar install_profile) _ _ _ Hbranch)
    as Hgrown.
  apply fetch_modern_result in Hbranch
    as (json_entry & fp & version_libraries & processors & install_libs & data & Hjson
        & Hfp & Hloaded & Hlibs & Hprocessors & _ & Hdata & Hvl & Hpr & values & Hvalues
        & Hclient).
  exists json_entry, fp, version_json, version_libraries, processors, data, values.
  repeat split; try assumption; try congruence.
  - intros key Hkey. now apply getitem_setitem_ne with (k := "id") (v := JStr (id (self w))).
  - apply Hgrown.
Qed.

(** For version ["1.20.1-47.2.0"] the demo archive's profile names
    ["/version.json"]; the install keeps its one processor and the client
    side of its one data key. *)
Lemma fetch_modern_install_witness :
  exists w' meta values,
    @_fetch_version_meta demo_core demo_base "forge-1.20.1-47.2.0"
      (demo_world "1.20.1-47.2.0" ∅) = (w', Ok meta)
    /\ forge_install_processors (self w') = Some (JArr [demo_processor])
    /\ forge_install_data (self w') = Some values
    /\ values !! "MAPPINGS" = Some (JStr "[mappings]").
Proof.
  pose (run := @_fetch_version_meta demo_core demo_base "forge-1.20.1-47.2.0"
                 (demo_world "1.20.1-47.2.0" ∅)).
  assert (Hsome : is_Some (match snd run with Ok meta => Some meta | Raise _ => None end)).
  { vm_compute. eexists. reflexivity. }
  destruct Hsome as [meta Hmeta].
  assert (Hrun : run = (fst run, Ok meta)).
  { destruct run as [w' [meta'|e]]; simpl in *; congruence. }
  destruct (@fetch_modern_install demo_core demo_base (demo_world "1.20.1-47.2.0" ∅)
              (fst run) "forge-1.20.1-47.2.0" demo_modern_jar demo_install_profile meta
              eq_refl)
    as (json_entry & fp & version_json & version_libraries & processors & data & values
        & _ & _ & _ & _ & _ & _ & _ & Hprocessors & Hpr & Hdata & Hvalues & Hclient & _).
  - vm_compute. reflexivity.
  - vm_compute. reflexivity.
  - vm_compute. reflexivity.
  - exact Hrun.
  - exists (fst run), meta, values. split; [exact Hrun|].
    injection Hprocessors as <-. injection Hdata as <-.
    split; [exact Hpr|]. split; [exact Hvalues|].
    rewrite Hclient; [reflexivity|]. repeat constructor. apply not_elem_of_nil.
Defined.

(** X11.  After a modern install that returned a document whose
    ["libraries"] is a list of objects, [prepare_libraries] on that
    document hands the base method the same document with the libraries
    that have no non-empty ["downloads"] taken out, in their order. *)
Theorem prepare_libraries_after_modern `{Base} (w w' : World) (version_id : string)
    (install_jar : ZipFile) (install_profile meta : json)
    (predicate : option Predicate) (libs : list json) :
  version_id = id (self w) ->
  find_install_jar (forge_version (self w)) (suffixes_of (forge_version (self w)))
    = Ok (Some install_jar) ->
  load_install_profile (forge_version (self w)) install_jar = Ok install_profile ->
  Py.contains "json" install_profile = Ok true ->
  _fetch_version_meta version_id w = (w', Ok meta) ->
  Py.getitem meta "libraries" = Ok (JArr libs) ->
  Forall is_object libs ->
  exists filtered,
    Py.setitem meta "libraries" (JArr (List.filter has_downloads libs)) = Ok filtered
    /\ prepare_libraries predicate (with_self (set_version_meta meta) w')
       = super (super_prepare_libraries predicate)
           (with_self (set_version_meta filtered) w').
Proof.
  intros -> Hfind Hload Hmodern.
  rewrite fetch_own_version, Hfind, (read_install_jar_loaded _ _ _ _ Hload).
  unfold bind at 1, lift. rewrite Hmodern. intros Hrun Hlibs Hobjects.
  apply bind_ok in Hrun as (w1 & version_json & Hbranch & Hrun).
  apply bind_ok in Hrun as (w2 & named & Hstep & Hrun).
  apply lift_run in Hstep as [-> Hnamed]. injection Hrun as <- <-.
  pose proof Hbranch as Hresult.
  apply fetch_modern_result in Hresult
    as (_ & _ & _ & _ & install_libs & _ & _ & _ & _ & _ & _ & Hinstall_libs & _).
  destruct (fetch_modern_manifest _ _ _ _ _ _ Hbranch Hinstall_libs) as (paths & Hpaths & _).
  destruct (filter_version_libraries_run paths libs (with_self (set_version_meta named) w1))
    as (filtered & Hfiltered & Hfilter); try assumption.
  exists filtered. split; [exact Hfiltered|].
  unfold prepare_libraries. unfold bind at 1. rewrite Hfilter.
  reflexivity.
Qed.

(** The version document of the demo archive lists one library without
    ["downloads"] and one with: only the second reaches the base method. *)
Lemma prepare_libraries_after_modern_witness :
  exists w' meta filtered,
    @_fetch_version_meta demo_core demo_base "forge-1.20.1-47.2.0"
      (demo_world "1.20.1-47.2.0" ∅) = (w', Ok meta)
    /\ Py.getitem filtered "libraries" = Ok (JArr [demo_library_remote])
    /\ @prepare_libraries demo_core demo_base None (with_self (set_version_meta meta) w')
       = super (@super_prepare_libraries demo_core demo_base None)
           (with_self (set_version_meta filtered) w').
Proof.
  pose (run := @_fetch_version_meta demo_core demo_base "forge-1.20.1-47.2.0"
                 (demo_world "1.20.1-47.2.0" ∅)).
  pose (meta := JObj [("id", JStr "forge-1.20.1-47.2.0");
                      ("libraries",
                         JArr [JObj [("name", JStr "net.minecraftforge:forge:1.20.1-47.2.0")];
                               demo_library_remote])]).
  assert (Hmeta : snd run = Ok meta) by (vm_compute; reflexivity).
  assert (Hrun : run = (fst run, Ok meta)).
  { destruct run as [w' r]; simpl in *; congruence. }
  destruct (@prepare_libraries_after_modern demo_core demo_base
              (demo_world "1.20.1-47.2.0" ∅) (fst run) "forge-1.20.1-47.2.0"
              demo_modern_jar demo_install_profile meta None
              [JObj [("name", JStr "net.minecraftforge:forge:1.20.1-47.2.0")];
               demo_library_remote] eq_refl)
    as (filtered & Hfiltered & Hprepare).
  - vm_compute. reflexivity.
  - vm_compute. reflexivity.
  - vm_compute. reflexivity.
  - exact Hrun.
  - reflexivity.
  - repeat constructor.
  - exists (fst run), meta, filtered. split; [exact Hrun|]. split; [| exact Hprepare].
    injection Hfiltered as <-. reflexivity.
Defined.

(** ** The processes of [prepare_post] *)

Section PostCommands.
Context `{Base}.

(** One processor: either its command line could not be built, and
    nothing happened, or the command was handed to [subprocess.run]. *)
Lemma run_processor_effect paths processor (w w' : World) outcome :
  run_processor paths processor w = (w', outcome) ->
  (w' = w /\ exists e, outcome = Raise e)
  \/ exists command,
       processor_command (jvm_exec (self w)) paths (install_data (self w)) processor command
       /\ w' = with_call command w
       /\ outcome = call (snd (run_process command (files w) (dirs w))).
Proof.
  unfold run_processor, bind, lift, get_self.
  destruct (Py.getitem processor "jar") as [jar_name|e] eqn:Hjar;
    [| intros [= <- <-]; left; eauto].
  destruct (lib_path_of paths jar_name) as [jar_path|e] eqn:Hpath;
    [| intros [= <- <-]; left; eauto].
  destruct (Py.get_or_empty processor "classpath") as [listed|e] eqn:Hlisted;
    [| intros [= <- <-]; left; eauto].
  destruct (Py.iter listed) as [names|e] eqn:Hnames; [| intros [= <- <-]; left; eauto].
  destruct (map_result (lib_path_of paths) names) as [classpath|e] eqn:Hclasspath;
    [| intros [= <- <-]; left; eauto].
  destruct (Py.get_or_empty processor "args") as [given|e] eqn:Hgiven;
    [| intros [= <- <-]; left; eauto].
  destruct (Py.iter given) as [templates|e] eqn:Htemplates;
    [| intros [= <- <-]; left; eauto].
  destruct (map_result (replace_install_arg paths (install_data (self w))) templates)
    as [args|e] eqn:Hargs; [| intros [= <- <-]; left; eauto].
  destruct (jvm_exec (self w)) as [java|] eqn:Hjvm; [| intros [= <- <-]; left; eauto].
  unfold subprocess_run. intros [= <- <-]. right.
  eexists. split; [| split; reflexivity].
  now exists java, jar_name, jar_path, listed, names, classpath, given, templates, args.
Qed.

(** The loop of lines 266-276 from any world: the processors are run in
    their order, one command each, until one fails. *)
Lemma run_processors_effect paths processors (w w' : World) outcome :
  for_each (run_processor paths) processors w = (w', outcome) ->
  self w' = self w
  /\ exists ran_processors commands,
      calls w' = calls w ++ commands
      /\ (files w', dirs w') = after_processes commands (files w, dirs w)
      /\ Forall2 (processor_command (jvm_exec (self w)) paths (install_data (self w)))
           ran_processors commands
      /\ match outcome with
         | Ok _ => ran_processors = processors
         | Raise e =>
             (exists failed rest, processors = ran_processors ++ failed :: rest)
             \/ (exists rest what,
                   processors = ran_processors ++ rest
                   /\ ran_processors <> []
                   /\ e = Foreign what)
         end.
Proof.
  revert w. induction processors as [|processor rest IH]; intros w; cbn [for_each].
  - intros [= <- <-]. split; [reflexivity|].
    exists [], []. now rewrite app_nil_r.
  - unfold bind at 1.
    destruct (run_processor paths processor w) as [w1 first] eqn:Hfirst.
    apply run_processor_effect in Hfirst
      as [(-> & e & ->) | (command & Hcommand & -> & ->)].
    + intros [= <- <-]. split; [reflexivity|].
      exists [], []. rewrite app_nil_r. split; [reflexivity|]. split; [reflexivity|].
      split; [constructor|]. left. now exists processor, rest.
    + destruct (snd (run_process command (files w) (dirs w))) as [[]|what] eqn:Hcall;
        cbn [call].
      * intros Hrest.
        apply IH in Hrest as (Hself & ran_processors & commands & Hcalls & Hdisk & Hall & Hend).
        cbn [self files dirs calls with_call] in *.
        split; [assumption|].
        exists (processor :: ran_processors), (command :: commands).
        split; [now rewrite Hcalls, <- app_assoc|].
        split; [rewrite Hdisk; cbn [after_processes fst snd]; now rewrite <- surjective_pairing|].
        split; [now constructor|].
        destruct outcome as [[]|e].
        -- now rewrite Hend.
        -- destruct Hend as [(failed & rest' & ->) | (rest' & what & -> & _ & ->)].
           ++ left. now exists failed, rest'.
           ++ right. now exists rest', what.
      * intros [= <- <-]. split; [reflexivity|].
        exists [processor], [command]. split; [reflexivity|].
        split; [cbn [after_processes fst snd files dirs with_call];
                now rewrite <- !surjective_pairing|].
        split; [now repeat constructor|].
        right. now exists rest, what.
Qed.

Lemma len_iter (v : json) (n : nat) :
  Py.len v = Ok n -> exists items, Py.iter v = Ok items /\ length items = n.
Proof.
  destruct v as [| | |s|items|members]; try discriminate; intros [= <-]; cbn [Py.iter].
  - exists (Py.chars s). split; [reflexivity|]. induction s; cbn; congruence.
  - now exists items.
  - eexists. split; [reflexivity|]. now rewrite length_map.
Qed.

Lemma len_raises (v : json) (e : exn) :
  Py.len v = Raise e -> Py.iter v = Raise e.
Proof. destruct v; try discriminate; now intros [= <-]. Qed.

Lemma processors_len_iter o (n : nat) :
  processors_len o = Ok n ->
  exists items, processors_iter o = Ok items /\ length items = n.
Proof.
  unfold processors_len, processors_iter.
  destruct (getattr (install_processors o)); [apply len_iter | discriminate].
Qed.

Lemma processors_len_raises o (e : exn) :
  processors_len o = Raise e -> processors_iter o = Raise e.
Proof.
  unfold processors_len, processors_iter.
  destruct (getattr (install_processors o)); [apply len_raises | now intros [= <-]].
Qed.

End PostCommands.

(** X12.  [w1] is the world the base method leaves.  Whatever its
    outcome, [prepare_post] then leaves the object as the base method left
    it.  On an object without the attribute [install_lib_paths], as the
    constructor and the install leave it, the method raises
    [AttributeError] and does nothing; when the attribute is [None], it
    returns and does nothing.  When the attribute holds library paths, the
    method hands commands to [subprocess.run], one per processor, in the
    order of [install_processors], each of the form
    [jvm_exec -cp <class path> -jar <jar path> <arguments>] with the paths
    looked up in the attribute; the disk it leaves is the one these
    processes leave, run one after the other.  When the method returns,
    every processor was run.  When it raises, the commands are those of
    the first processors: either the next one failed before its process
    was started, or the call of the last command raised. *)
Theorem prepare_post_commands `{Base} (w w' : World) (outcome : result unit) :
  let w1 := fst (super_prepare_post w) in
  snd (super_prepare_post w) = Returns tt ->
  prepare_post w = (w', outcome) ->
  self w' = self w1
  /\ match install_lib_paths (self w1) with
     | Absent => w' = w1 /\ outcome = Raise AttributeError
     | Present None => w' = w1 /\ outcome = Ok tt
     | Present (Some paths) =>
         exists ran_processors commands,
           calls w' = calls w1 ++ commands
           /\ (files w', dirs w') = after_processes commands (files w1, dirs w1)
           /\ Forall2 (processor_command (jvm_exec (self w1)) paths (install_data (self w1)))
                ran_processors commands
           /\ match outcome, processors_iter (self w1) with
              | Ok _, listed => listed = Ok ran_processors
              | Raise e, Ok processors =>
                  (exists failed rest, processors = ran_processors ++ failed :: rest)
                  \/ (exists rest what,
                        processors = ran_processors ++ rest
                        /\ ran_processors <> []
                        /\ e = Foreign what)
              | Raise _, Raise _ => ran_processors = []
              end
     end.
Proof.
  intros w1 Hsuper. rewrite (prepare_post_after_super _ Hsuper). fold w1.
  unfold bind at 1, get_self. unfold bind at 1, lift.
  destruct (install_lib_paths (self w1)) as [|[paths|]]; cbn [getattr].
  1, 3: now intros [= <- <-].
  assert (Hnone : forall e : exn,
            match processors_iter (self w1) with
            | Ok processors => exists failed rest, processors = [] ++ failed :: rest
            | Raise _ => @nil json = []
            end ->
            self w1 = self w1
            /\ exists ran_processors commands,
                calls w1 = calls w1 ++ commands
                /\ (files w1, dirs w1) = after_processes commands (files w1, dirs w1)
                /\ Forall2 (processor_command (jvm_exec (self w1)) paths
                              (install_data (self w1))) ran_processors commands
                /\ match processors_iter (self w1) with
                   | Ok processors =>
                       (exists failed rest, processors = ran_processors ++ failed :: rest)
                       \/ (exists rest what,
                             processors = ran_processors ++ rest
                             /\ ran_processors <> []
                             /\ e = Foreign what)
                   | Raise _ => ran_processors = []
                   end).
  { intros e Hend. split; [reflexivity|].
    exists [], []. rewrite app_nil_r. split; [reflexivity|]. split; [reflexivity|].
    split; [constructor|].
    destruct (processors_iter (self w1)); [now left | exact Hend]. }
  unfold bind at 1.
  destruct (processors_len (self w1)) as [n|e] eqn:Hlen.
  - destruct (processors_len_iter _ _ Hlen) as (processors & Hiter & Hlength).
    destruct (negb (n =? 0)%nat && bool_decide (jvm_exec (self w1) = None)) eqn:Htest.
    + intros [= <- <-]. apply Hnone. rewrite Hiter.
      apply andb_prop in Htest as [Hn _]. apply negb_true_iff, Nat.eqb_neq in Hn.
      destruct processors as [|failed rest]; [now subst n|]. now exists failed, rest.
    + unfold bind at 1. rewrite Hiter. intros Hloop.
      apply run_processors_effect in Hloop
        as (Hself & ran_processors & commands & Hcalls & Hdisk & Hall & Hend).
      split; [assumption|].
      exists ran_processors, commands. split; [assumption|]. split; [assumption|].
      split; [assumption|].
      destruct outcome as [[]|e]; [now rewrite Hend | exact Hend].
  - intros [= <- <-]. apply Hnone. now rewrite (processors_len_raises _ _ Hlen).
Qed.

(** The demo version was given the attributes, a JVM and one processor:
    its one process runs the jar of the binary patcher with the forge jar
    on the class path, and the disk is what that process leaves. *)
Lemma prepare_post_commands_witness :
  let w := demo_world_post (Some "/usr/bin/java") in
  let command := ["/usr/bin/java"; "-cp"; "/libs/forge.jar"; "-jar";
                  "/libs/binarypatcher.jar"; "--clean"; "/libs/forge.jar"] in
  exists w',
    @prepare_post demo_core demo_base w = (w', Ok tt)
    /\ self w' = self w
    /\ calls w' = [command]
    /\ files w' = fst (fst (demo_run_process command ∅ ∅)).
Proof.
  intros w command.
  pose (run := @prepare_post demo_core demo_base w).
  assert (Hok : snd run = Ok tt) by (vm_compute; reflexivity).
  assert (Hrun : run = (fst run, Ok tt)).
  { destruct run as [w' r]; simpl in *; congruence. }
  destruct (@prepare_post_commands demo_core demo_base w (fst run) (Ok tt) eq_refl Hrun)
    as (Hself & ran_processors & commands & Hcalls & Hdisk & Hall & Hiter).
  exists (fst run). split; [exact Hrun|]. split; [exact Hself|].
  injection Hiter as <-.
  apply Forall2_cons_inv_l in Hall as (command' & rest & Hcommand & Hrest & ->).
  apply Forall2_nil_inv_l in Hrest as ->.
  destruct Hcommand as (java & jar_name & jar_path & listed & names & classpath & given
                        & templates & args & Hjava & Hjar & Hpath & Hlisted & Hnames
                        & Hclasspath & Hgiven & Htemplates & Hargs & ->).
  injection Hjava as <-. injection Hjar as <-. injection Hlisted as <-.
  injection Hgiven as <-. injection Hnames as <-. injection Htemplates as <-.
  vm_compute in Hpath. injection Hpath as <-.
  vm_compute in Hclasspath. injection Hclasspath as <-.
  vm_compute in Hargs. injection Hargs as <-.
  split; [exact Hcalls|].
  change (files (fst run)) with (fst (files (fst run), dirs (fst run))).
  rewrite Hdisk. reflexivity.
Defined.

(** ** The failures of the resolver *)

Section ResolverFailures.
Context `{Resolver}.


Lemma contains_suffix (v s : string) (c : ascii) :
  Str.contains (String c "") (v +:+ String c s) = true.
Proof.
  apply (contains_drop _ _ (String.length v)). rewrite drop_append.
  cbn [Str.startswith]. now rewrite Ascii.eqb_refl.
Qed.

Lemma no_dash_no_suffix (v : string) :
  Str.contains "-" v = false -> strip_promo_suffix v = v.
Proof.
  intros Hdash. unfold strip_promo_suffix.
  destruct (Str.endswith v "-recommended") eqn:Hrec.
  - apply endswith_inv in Hrec. rewrite Hrec in Hdash.
    now rewrite (contains_suffix _ "recommended" "-") in Hdash.
  - destruct (Str.endswith v "-latest") eqn:Hlatest; [| reflexivity].
    apply endswith_inv in Hlatest. rewrite Hlatest in Hdash.
    now rewrite (contains_suffix _ "latest" "-") in Hdash.
Qed.

End ResolverFailures.



(** X14.  For a game version that is no alias, is not empty and has no
    ["-"], asking for it bare and asking for it with ["-recommended"] give
    the same forge version when the feed has no build under the bare name
    and has one under the recommended name: the game version, ["-"] and
    that build. *)
Theorem new_version_bare_recommended `{Resolver} {V : Type} (old : string -> foreign V)
    (game_version : string) (promo : gmap string string) (build : string) :
  game_version <> "" ->
  Str.contains "-" game_version = false ->
  filter_latest game_version = (game_version, false) ->
  filter_latest (game_version +:+ "-recommended") = (game_version +:+ "-recommended", false) ->
  request_promo_versions = Returns promo ->
  promo !! game_version = None ->
  promo !! (game_version +:+ "-recommended") = Some build ->
  new_version old ("forge:" +:+ game_version)
  = Ok (inl {| nv_forge_version := game_version +:+ "-" +:+ build;
               nv_prefix := forge_prefix |})
  /\ new_version old ("forge:" +:+ game_version +:+ "-recommended")
     = new_version old ("forge:" +:+ game_version).
Proof.
  intros Hnonempty Hdash Hbare Hsuffixed Hfeed Hexact Hrec.
  assert (Hfirst : new_version old ("forge:" +:+ game_version)
                   = Ok (inl {| nv_forge_version := game_version +:+ "-" +:+ build;
                                nv_prefix := forge_prefix |})).
  { unfold new_version. destruct (forge_prefix_split game_version) as [-> ->].
    unfold new_forge_version, requested_game_version.
    destruct game_version as [|c v]; [contradiction|]. cbn [String.length Nat.eqb].
    rewrite Hbare. unfold needs_promo. rewrite Hdash. cbn [negb orb].
    rewrite orb_true_r, Hfeed. cbn [call promo_suffixes promo_loop].
    rewrite append_empty_r, Hexact, Hrec. now rewrite (no_dash_no_suffix _ Hdash). }
  split; [exact Hfirst|]. rewrite Hfirst.
  unfold new_version.
  destruct (forge_prefix_split (game_version +:+ "-recommended")) as [-> ->].
  unfold new_forge_version, requested_game_version.
  rewrite length_append. cbn [String.length].
  replace (String.length game_version + 12 =? 0)%nat with false
    by (symmetry; apply Nat.eqb_neq; lia).
  rewrite Hsuffixed. unfold needs_promo. rewrite endswith_append. cbn [orb].
  rewrite Hfeed. cbn [call promo_suffixes promo_loop].
  now rewrite append_empty_r, Hrec, strip_promo_suffix_recommended.
Qed.

Lemma new_version_bare_recommended_witness :
  new_version (H := demo_resolver demo_promos) demo_old "forge:1.20.1-recommended"
  = new_version (H := demo_resolver demo_promos) demo_old "forge:1.20.1".
Proof.
  apply (@new_version_bare_recommended (demo_resolver demo_promos) unit demo_old "1.20.1"
           demo_promos "47.2.0").
  - discriminate.
  - reflexivity.
  - reflexivity.
  - reflexivity.
  - reflexivity.
  - vm_compute. reflexivity.
  - vm_compute. reflexivity.
Defined.
